(** * CORD-19 metadata pipeline: cleaning and frequency analysis

    A shallow embedding of the data-cleaning module ([clean_data],
    [handle_dates], [handle_missing_values], [create_new_features]), of the
    dashboard's own [clean_data], and of the aggregation part of the
    analysis module ([analyze_titles], [analyze_sources], the journal and
    year counts of [analyze_publication_trends]).

    The pandas objects the code manipulates are modelled as follows.
    - A cell is a [value]: missing ([NaN], which also stands for [None] and
      [NaT]), text, integer, boolean or timestamp (a calendar date; the
      time of day, which no computation reads, is midnight).  Numbers
      with a fractional part are not modelled.
    - A [DataFrame] is a row index and an ordered list of named columns.
    - Frames are mutable objects: they live in a heap and the functions
      receive and return references, so that [df.copy()], in-place column
      assignment and the rebinding [df = df[mask]] keep their meaning.
    - [print] appends a structured event to the output trace.
    - Python exceptions are values of [exn]; a raise keeps the state
      reached so far.

    Text is modelled over code points below 256 (Rocq's [ascii]); the
    character classes follow Python's [str] methods and [re] on that
    range.

    An analysis function is modelled with the values it computes and
    returns and with the exceptions raised on the way, by Python and
    pandas and by the two library calls that check what they are given:
    [plt.pie], which wants as many labels as wedges, and
    [WordCloud.generate], which wants a word that is not one of its stop
    words.  The other chart calls put values on axes and are left out, as
    is the placement of the words of the cloud on its canvas.  The type
    of a column is that of its cells: a column without a value is taken
    to be numeric. *)

From Stdlib Require Import ZArith Ascii String List Lia Bool Permutation.
From stdpp Require Import base tactics option list sorting strings pretty.

Open Scope string_scope.
Open Scope list_scope.
Open Scope nat_scope.

Set Warnings "-clear-no-such-hyp".

(** ** Python text primitives *)

Module Py.

(** Code point of a character. *)
Definition ord (c : ascii) : nat := nat_of_ascii c.

Definition between (lo hi n : nat) : bool := (lo <=? n) && (n <=? hi).

(** [str.isspace] on one character: the separators of [str.split()] and
    the characters removed by [str.strip()]. *)
Definition isspace (c : ascii) : bool :=
  let n := ord c in
  between 9 13 n || between 28 32 n || (n =? 133) || (n =? 160).

(** The class [[a-zA-Z]] of the title pattern. *)
Definition is_ascii_alpha (c : ascii) : bool :=
  let n := ord c in between 65 90 n || between 97 122 n.

Definition is_digit (c : ascii) : bool := between 48 57 (ord c).

(** Letters and numeric characters of the range 128..255. *)
Definition is_latin1_alnum (c : ascii) : bool :=
  let n := ord c in
  (n =? 170) || (n =? 178) || (n =? 179) || (n =? 181) || (n =? 185) ||
  (n =? 186) || between 188 190 n || between 192 214 n ||
  between 216 246 n || between 248 255 n.

(** The class [\w] of [re] on text patterns: alphanumerics and the
    underscore.  [\b] is the boundary between [\w] and its complement. *)
Definition is_word (c : ascii) : bool :=
  is_ascii_alpha c || is_digit c || (ord c =? 95) || is_latin1_alnum c.

(** [str.lower] on one character. *)
Definition lower_char (c : ascii) : ascii :=
  let n := ord c in
  if between 65 90 n || (between 192 222 n && negb (n =? 215))
  then ascii_of_nat (n + 32) else c.

Fixpoint lower (s : string) : string :=
  match s with
  | EmptyString => EmptyString
  | String c s' => String (lower_char c) (lower s')
  end.

Fixpoint str_len (s : string) : nat :=
  match s with
  | EmptyString => 0
  | String _ s' => S (str_len s')
  end.

Fixpoint str_forall (p : ascii → bool) (s : string) : bool :=
  match s with
  | EmptyString => true
  | String c s' => p c && str_forall p s'
  end.

(** The closing of a run under construction: nothing when it is empty. *)
Definition flush (cur : string) : list string :=
  match cur with
  | EmptyString => []
  | _ => [String.rev cur]
  end.

(** Left-to-right scan cutting [s] at the characters of [sep]; [cur]
    holds the run being read, last character first.  Empty runs are not
    produced. *)
Fixpoint runs_go (sep : ascii → bool) (cur : string) (s : string)
  : list string :=
  match s with
  | EmptyString => flush cur
  | String c s' =>
      if sep c then flush cur ++ runs_go sep EmptyString s'
      else runs_go sep (String c cur) s'
  end.

Definition runs (sep : ascii → bool) (s : string) : list string :=
  runs_go sep EmptyString s.

(** [s.split()] with no argument. *)
Definition split (s : string) : list string := runs isspace s.

Fixpoint lstrip (s : string) : string :=
  match s with
  | EmptyString => EmptyString
  | String c s' => if isspace c then lstrip s' else s
  end.

Definition rstrip (s : string) : string := String.rev (lstrip (String.rev s)).

(** [s.strip()] with no argument. *)
Definition strip (s : string) : string := rstrip (lstrip s).

(** [sep.join(parts)]. *)
Fixpoint join (sep : string) (parts : list string) : string :=
  match parts with
  | [] => EmptyString
  | [p] => p
  | p :: ps => p +:+ sep +:+ join sep ps
  end.

(** [re.findall(r'\b[a-zA-Z]{3,}\b', s)].  A match starts at a word
    boundary, takes letters greedily and must end at a word boundary; in
    the middle of a run of letters there is no boundary, so a match is a
    whole maximal run of [\w] characters, made of letters only and at
    least three of them.  [findall_words_spec] below relates this scan
    to the meaning of the pattern, [title_match]. *)
Definition is_title_word (w : string) : bool :=
  str_forall is_ascii_alpha w && (3 <=? str_len w).

Definition findall_words (s : string) : list string :=
  filter (λ w, is_title_word w = true) (runs (λ c, negb (is_word c)) s).

(** *** What the pattern means

    [\b] holds between two parts of a text when exactly one of the
    characters on its two sides is a word character, the ends of the
    text counting as non-word.  A match of the title pattern is a part
    [w] of the text, between [pre] and [post], with a boundary before
    it, letters only, three at least, and a boundary after it. *)

Definition first_char (s : string) : option ascii :=
  match s with
  | EmptyString => None
  | String c _ => Some c
  end.

Fixpoint last_char (s : string) : option ascii :=
  match s with
  | EmptyString => None
  | String c s' =>
      match s' with
      | EmptyString => Some c
      | _ => last_char s'
      end
  end.

Definition is_word_at (o : option ascii) : bool :=
  match o with
  | Some c => is_word c
  | None => false
  end.

Definition word_boundary (before after : string) : bool :=
  xorb (is_word_at (last_char before)) (is_word_at (first_char after)).

Definition title_match (pre w post : string) : Prop :=
  word_boundary pre (w +:+ post) = true
  ∧ str_forall is_ascii_alpha w = true
  ∧ 3 ≤ str_len w
  ∧ word_boundary (pre +:+ w) post = true.

(** A separator, or an end of the text, next to a run. *)
Definition edge (sep : ascii → bool) (o : option ascii) : bool :=
  match o with
  | Some c => sep c
  | None => true
  end.

End Py.

(** ** Cells and series *)

Inductive value :=
| NaN
| Str (s : string)
| Int (n : Z)
| Bool (b : bool)
| Timestamp (year month day : Z).

#[global] Instance value_eq_dec : EqDecision value.
Proof. solve_decision. Defined.

(** A column taken out of a frame, and a boolean mask over its rows. *)
Abbreviation Series := (list value).
Abbreviation Mask := (list bool).

Definition pad2 (n : Z) : string :=
  if (n <? 10)%Z then "0" +:+ pretty n else pretty n.

Definition pad4 (n : Z) : string :=
  if (n <? 10)%Z then "000" +:+ pretty n
  else if (n <? 100)%Z then "00" +:+ pretty n
  else if (n <? 1000)%Z then "0" +:+ pretty n
  else pretty n.

(** [str(x)] on a cell. *)
Definition py_str (x : value) : string :=
  match x with
  | NaN => "nan"
  | Str s => s
  | Int n => pretty n
  | Bool true => "True"
  | Bool false => "False"
  | Timestamp y m d =>
      pad4 y +:+ "-" +:+ pad2 m +:+ "-" +:+ pad2 d +:+ " 00:00:00"
  end.

Definition isna1 (x : value) : bool :=
  match x with NaN => true | _ => false end.

(** [s.isna()], [s.fillna(v)], [s.dropna()], [s.apply(f)], [~m], [m1 & m2]. *)
Definition isna (s : Series) : Mask := isna1 <$> s.

Definition fillna (s : Series) (v : value) : Series :=
  (λ x, if isna1 x then v else x) <$> s.

Definition dropna (s : Series) : Series :=
  filter (λ x, isna1 x = false) s.

Definition apply (s : Series) (f : value → value) : Series := f <$> s.

Definition mask_not (m : Mask) : Mask := negb <$> m.

Fixpoint mask_and (m1 m2 : Mask) : Mask :=
  match m1, m2 with
  | b1 :: m1', b2 :: m2' => (b1 && b2) :: mask_and m1' m2'
  | _, _ => []
  end.

(** Boolean indexing: the entries whose mask bit is set. *)
Fixpoint select {A} (m : Mask) (l : list A) : list A :=
  match m, l with
  | b :: m', x :: l' => if b then x :: select m' l' else select m' l'
  | _, _ => []
  end.

(** [s.dt.year] and [s.dt.month] on a datetime column. *)
Definition dt_year (s : Series) : Series :=
  (λ x, match x with Timestamp y _ _ => Int y | _ => NaN end) <$> s.

Definition dt_month (s : Series) : Series :=
  (λ x, match x with Timestamp _ m _ => Int m | _ => NaN end) <$> s.

(** The integers of a numeric column, missing cells skipped. *)
Definition ints (s : Series) : list Z :=
  omap (λ x, match x with Int n => Some n | _ => None end) s.

Definition count_of (y : Z) (l : list Z) : nat :=
  length (filter (λ z, z = y) l).

Definition max_count (l : list Z) : nat :=
  foldr (λ y acc, Nat.max (count_of y l) acc) 0 l.

Fixpoint insert_asc (y : Z) (l : list Z) : list Z :=
  match l with
  | [] => [y]
  | z :: l' => if (y <=? z)%Z then y :: z :: l' else z :: insert_asc y l'
  end.

Definition sort_asc (l : list Z) : list Z := foldr insert_asc [] l.

(** [s.mode()]: the most frequent values among the present ones, each
    once, in ascending order; empty when no value is present. *)
Definition mode (s : Series) : list Z :=
  let l := ints s in
  sort_asc (remove_dups (filter (λ y, count_of y l = max_count l) l)).

(** [s.min()] and [s.max()], missing cells skipped; [NaN] when there is
    no value. *)
Definition series_min (s : Series) : value :=
  match ints s with
  | [] => NaN
  | y :: l => Int (foldr Z.min y l)
  end.

Definition series_max (s : Series) : value :=
  match ints s with
  | [] => NaN
  | y :: l => Int (foldr Z.max y l)
  end.

(** ** Frames *)

Record DataFrame := mkDataFrame {
  index : list nat;
  columns : list (string * Series)
}.

#[global] Instance DataFrame_eq_dec : EqDecision DataFrame.
Proof. solve_decision. Defined.

Definition column_names (f : DataFrame) : list string := (columns f).*1.

(** [df.shape]. *)
Definition shape_of (f : DataFrame) : nat * nat :=
  (length (index f), length (columns f)).

Fixpoint assoc (c : string) (cols : list (string * Series)) : option Series :=
  match cols with
  | [] => None
  | (c', s) :: cols' => if decide (c' = c) then Some s else assoc c cols'
  end.

(** Column assignment keeps the position of an existing column and puts
    a new one last. *)
Fixpoint assign (c : string) (s : Series) (cols : list (string * Series))
  : list (string * Series) :=
  match cols with
  | [] => [(c, s)]
  | (c', s') :: cols' =>
      if decide (c' = c) then (c, s) :: cols' else (c', s') :: assign c s cols'
  end.

Definition get_column (c : string) (f : DataFrame) : option Series :=
  assoc c (columns f).

Definition set_column (c : string) (s : Series) (f : DataFrame) : DataFrame :=
  mkDataFrame (index f) (assign c s (columns f)).

(** [df[mask]]: the selected rows, in every column and in the index. *)
Definition filter_rows (m : Mask) (f : DataFrame) : DataFrame :=
  mkDataFrame (select m (index f))
              ((λ cs, (cs.1, select m cs.2)) <$> columns f).

(** Every column has one cell per row. *)
Definition frame_wf (f : DataFrame) : Prop :=
  Forall (λ cs, length cs.2 = length (index f)) (columns f).

#[global] Instance frame_wf_dec f : Decision (frame_wf f).
Proof. unfold frame_wf. apply _. Defined.

(** The input columns the pipeline needs, as the specification lists
    them, and in the order in which [clean_data] first reads them. *)
Definition required_columns : list string :=
  ["title"; "abstract"; "journal"; "publish_time"; "source_x"].

Definition read_order : list string :=
  ["publish_time"; "title"; "abstract"; "journal"; "source_x"].

(** The columns [clean_data] computes. *)
Definition derived_columns : list string :=
  ["publication_year"; "publication_month"; "abstract_word_count";
   "title_word_count"; "has_abstract"; "source_type"].

Definition has_column (c : string) (f : DataFrame) : Prop :=
  is_Some (get_column c f).

Fixpoint first_absent (cs : list string) (f : DataFrame) : option string :=
  match cs with
  | [] => None
  | c :: cs' =>
      match get_column c f with
      | None => Some c
      | Some _ => first_absent cs' f
      end
  end.

(** The cell of column [c] in the row at position [i]. *)
Definition cell (c : string) (i : nat) (f : DataFrame) : option value :=
  s ← get_column c f; s !! i.

(** ** Objects, output and exceptions *)

Inductive exn :=
| KeyError (key : string)
| ValueError (msg : string)
| TypeError
| ReferenceError.

(** What the program prints: fixed messages, and the formatted reports
    with the values they interpolate. *)
Inductive event :=
| Msg (text : string)
| OriginalShape (rows cols : nat)
| CleanedShape (rows cols : nat)
| DateRange (lo hi : value)
| RemovedRows (n : nat).

Abbreviation ref := nat.

Record state := mkState {
  heap : list DataFrame;
  stdout : list event
}.

Inductive result (A : Type) :=
| Ok (a : A)
| Raise (e : exn).
Arguments Ok {A} a.
Arguments Raise {A} e.

Definition M (A : Type) : Type := state → result A * state.

#[global] Instance M_ret : MRet M := λ A a σ, (Ok a, σ).

#[global] Instance M_bind : MBind M := λ A B k m σ,
  match m σ with
  | (Ok a, σ') => k a σ'
  | (Raise e, σ') => (Raise e, σ')
  end.

Definition raise {A} (e : exn) : M A := λ σ, (Raise e, σ).

Definition print (e : event) : M unit :=
  λ σ, (Ok (), mkState (heap σ) (stdout σ ++ [e])).

(** A reference that names no object cannot arise in Python; the model
    stops with [ReferenceError] there. *)
Definition read (r : ref) : M DataFrame :=
  λ σ, match heap σ !! r with
       | Some f => (Ok f, σ)
       | None => (Raise ReferenceError, σ)
       end.

Definition write (r : ref) (f : DataFrame) : M unit :=
  λ σ, (Ok (), mkState (<[r := f]> (heap σ)) (stdout σ)).

Definition new_frame (f : DataFrame) : M ref :=
  λ σ, (Ok (length (heap σ)), mkState (heap σ ++ [f]) (stdout σ)).

(** [df.copy()]. *)
Definition copy (df : ref) : M ref := f ← read df; new_frame f.

(** [df[c]]: a missing column raises [KeyError]. *)
Definition getitem (df : ref) (c : string) : M Series :=
  f ← read df;
  match get_column c f with
  | Some s => mret s
  | None => raise (KeyError c)
  end.

(** [df[c] = s], in place. *)
Definition setitem (df : ref) (c : string) (s : Series) : M unit :=
  f ← read df; write df (set_column c s f).

(** [df[mask]], a new frame. *)
Definition getitem_mask (df : ref) (m : Mask) : M ref :=
  f ← read df; new_frame (filter_rows m f).

Definition len (df : ref) : M nat := f ← read df; mret (length (index f)).

Definition shape (df : ref) : M (nat * nat) := f ← read df; mret (shape_of f).

(** ** The cleaning module *)

Section Cleaning.

(** The permissive date reader of pandas, which is not part of this
    code: the calendar date (year, month, day) it reads from a text,
    numeric or boolean cell, or nothing when it reads none. *)
Variable parse_date : value → option (Z * Z * Z).

(** [pd.to_datetime(x, errors='coerce')] on one cell: a missing cell stays
    missing, a timestamp stays as it is, any other cell goes through the
    reader and becomes missing when it cannot be read. *)
Definition to_datetime1 (x : value) : value :=
  match x with
  | NaN => NaN
  | Timestamp _ _ _ => x
  | _ =>
      match parse_date x with
      | Some (y, m, d) => Timestamp y m d
      | None => NaN
      end
  end.

Definition to_datetime (s : Series) : Series := to_datetime1 <$> s.

Definition handle_dates (df : ref) : M ref :=
  print (Msg "Processing date columns...");;
  s ← getitem df "publish_time";
  setitem df "publish_time" (to_datetime s);;
  s ← getitem df "publish_time";
  setitem df "publication_year" (dt_year s);;
  s ← getitem df "publish_time";
  setitem df "publication_month" (dt_month s);;
  s ← getitem df "publication_year";
  let mode_year := mode s in
  match mode_year with
  | y0 :: _ =>
      s ← getitem df "publication_year";
      setitem df "publication_year" (fillna s (Int y0))
  | [] => mret ()
  end;;
  lo ← getitem df "publication_year";
  hi ← getitem df "publication_year";
  print (DateRange (series_min lo) (series_max hi));;
  mret df.

Definition handle_missing_values (df : ref) : M ref :=
  print (Msg "Handling missing values...");;
  s ← getitem df "title";
  setitem df "title" (fillna s (Str "Unknown Title"));;
  s ← getitem df "abstract";
  setitem df "abstract" (fillna s (Str ""));;
  s ← getitem df "journal";
  setitem df "journal" (fillna s (Str "Unknown Journal"));;
  initial_count ← len df;
  t ← getitem df "title";
  a ← getitem df "abstract";
  df ← getitem_mask df (mask_not (mask_and (isna t) (isna a)));
  n ← len df;
  let removed_count := initial_count - n in
  print (RemovedRows removed_count);;
  mret df.

(** The three lambdas of the feature step. *)
Definition word_count (x : value) : value :=
  Int (Z.of_nat (length (Py.split (py_str x)))).

Definition nonblank (x : value) : value :=
  Bool (0 <? Py.str_len (Py.strip (py_str x))).

Definition create_new_features (df : ref) : M ref :=
  print (Msg "Creating new features...");;
  s ← getitem df "abstract";
  setitem df "abstract_word_count" (apply s word_count);;
  s ← getitem df "title";
  setitem df "title_word_count" (apply s word_count);;
  s ← getitem df "abstract";
  setitem df "has_abstract" (apply s nonblank);;
  s ← getitem df "source_x";
  setitem df "source_type" (fillna s (Str "Unknown"));;
  mret df.

Definition clean_data (df : ref) : M ref :=
  print (Msg "Starting data cleaning process...");;
  df_clean ← copy df;
  sh ← shape df_clean;
  print (OriginalShape sh.1 sh.2);;
  df_clean ← handle_dates df_clean;
  df_clean ← handle_missing_values df_clean;
  df_clean ← create_new_features df_clean;
  sh ← shape df_clean;
  print (CleanedShape sh.1 sh.2);;
  mret df_clean.

(** The dashboard's own cleaning step. *)
Definition app_clean_data (df : ref) : M ref :=
  df_clean ← copy df;
  s ← getitem df_clean "publish_time";
  setitem df_clean "publish_time" (to_datetime s);;
  s ← getitem df_clean "publish_time";
  setitem df_clean "publication_year" (dt_year s);;
  s ← getitem df_clean "title";
  setitem df_clean "title" (fillna s (Str "Unknown Title"));;
  s ← getitem df_clean "abstract";
  setitem df_clean "abstract" (fillna s (Str ""));;
  s ← getitem df_clean "journal";
  setitem df_clean "journal" (fillna s (Str "Unknown Journal"));;
  s ← getitem df_clean "abstract";
  setitem df_clean "abstract_word_count" (apply s word_count);;
  s ← getitem df_clean "abstract";
  setitem df_clean "has_abstract" (apply s nonblank);;
  mret df_clean.

(** The years of the rows of the batch that have a readable date, and
    what it is for a year to be the most frequent of them. *)
Definition batch_years (s : Series) : list Z :=
  omap (λ v, match to_datetime1 v with
             | Timestamp y _ _ => Some y
             | _ => None
             end) s.

Definition most_frequent (m : Z) (l : list Z) : Prop :=
  m ∈ l ∧ ∀ y, count_of y l ≤ count_of m l.

(** *** The frames the steps leave in the heap

    [dates_frame], [missing_frame] and [features_frame] are the frames
    that [handle_dates], [handle_missing_values] and
    [create_new_features] build from a frame [f] whose columns
    [publish_time], [title], [abstract], [journal] and [source_x] hold
    [s], [t], [a], [j] and [x]. *)

Definition years (s : Series) : Series := dt_year (to_datetime s).

Definition filled_years (s : Series) : Series :=
  match mode (years s) with
  | y0 :: _ => fillna (years s) (Int y0)
  | [] => years s
  end.

Definition dates_frame (s : Series) (f : DataFrame) : DataFrame :=
  let f3 :=
    set_column "publication_month" (dt_month (to_datetime s))
      (set_column "publication_year" (years s)
         (set_column "publish_time" (to_datetime s) f)) in
  match mode (years s) with
  | y0 :: _ => set_column "publication_year" (fillna (years s) (Int y0)) f3
  | [] => f3
  end.

Definition missing_frame (t a j : Series) (f : DataFrame) : DataFrame :=
  set_column "journal" (fillna j (Str "Unknown Journal"))
    (set_column "abstract" (fillna a (Str ""))
       (set_column "title" (fillna t (Str "Unknown Title")) f)).

(** The mask of the rows kept, computed on the filled columns. *)
Definition keep_mask (t a : Series) : Mask :=
  mask_not (mask_and (isna (fillna t (Str "Unknown Title")))
                     (isna (fillna a (Str "")))).

Definition features_frame (t a x : Series) (f : DataFrame) : DataFrame :=
  set_column "source_type" (fillna x (Str "Unknown"))
    (set_column "has_abstract" (apply a nonblank)
       (set_column "title_word_count" (apply t word_count)
          (set_column "abstract_word_count" (apply a word_count) f))).

(** The frame the dashboard's cleaning step builds. *)
Definition app_cleaned (s t a j : Series) (f : DataFrame) : DataFrame :=
  set_column "has_abstract" (apply (fillna a (Str "")) nonblank)
    (set_column "abstract_word_count" (apply (fillna a (Str "")) word_count)
       (set_column "journal" (fillna j (Str "Unknown Journal"))
          (set_column "abstract" (fillna a (Str ""))
             (set_column "title" (fillna t (Str "Unknown Title"))
                (set_column "publication_year" (years s)
                   (set_column "publish_time" (to_datetime s) f)))))).

(** The cleaned frame, when every row is kept. *)
Definition cleaned (s t a j x : Series) (f : DataFrame) : DataFrame :=
  features_frame (fillna t (Str "Unknown Title")) (fillna a (Str "")) x
    (missing_frame t a j (dates_frame s f)).

(** The tables [clean_data] has made by the time it fails for a column
    that is not there: the private copy with the work of the steps that
    have run on it, up to the read that fails, and, when that column is
    [source_x], the table of the rows kept, on which the word counts and
    the flag have been computed by then. *)
Definition work_before (f : DataFrame) : list DataFrame :=
  match get_column "publish_time" f with
  | None => [f]
  | Some s =>
      let fd := dates_frame s f in
      match get_column "title" f with
      | None => [fd]
      | Some t =>
          let f1 := set_column "title" (fillna t (Str "Unknown Title")) fd in
          match get_column "abstract" f with
          | None => [f1]
          | Some a =>
              let f2 := set_column "abstract" (fillna a (Str "")) f1 in
              match get_column "journal" f with
              | None => [f2]
              | Some j =>
                  let fm := missing_frame t a j fd in
                  [fm;
                   set_column "has_abstract"
                     (apply (fillna a (Str "")) nonblank)
                     (set_column "title_word_count"
                        (apply (fillna t (Str "Unknown Title")) word_count)
                        (set_column "abstract_word_count"
                           (apply (fillna a (Str "")) word_count) fm))]
              end
          end
      end
  end.

End Cleaning.

(** ** The analysis module *)

Section Counting.
Context {K : Type} `{EqDecision K}.

(** One more occurrence of [k] in an insertion-ordered table of counts:
    a known key is incremented where it stands, a new key goes last. *)
Fixpoint incr (k : K) (c : list (K * nat)) : list (K * nat) :=
  match c with
  | [] => [(k, 1)]
  | (k', n) :: c' =>
      if decide (k' = k) then (k', S n) :: c' else (k', n) :: incr k c'
  end.

(** [collections.Counter(l)]: keys in the order first met. *)
Definition Counter (l : list K) : list (K * nat) :=
  foldl (λ c k, incr k c) [] l.

(** Stable insertion by decreasing count: the new entry passes only the
    entries with a strictly larger count. *)
Fixpoint insert_desc (x : K * nat) (l : list (K * nat)) : list (K * nat) :=
  match l with
  | [] => [x]
  | y :: l' => if x.2 <? y.2 then y :: insert_desc x l' else x :: y :: l'
  end.

Definition sort_desc (l : list (K * nat)) : list (K * nat) :=
  foldr insert_desc [] l.

(** [c.most_common(n)]: the [n] first entries of the table sorted by
    decreasing count, entries of equal count staying in table order. *)
Definition most_common (n : nat) (c : list (K * nat)) : list (K * nat) :=
  take n (sort_desc c).

(** *** What a ranking is

    [count k l] is the number of occurrences of [k] in [l] and [pos k l]
    the position of its first occurrence.  An entry ranks before another
    when its count is larger, or when the counts are equal and its key
    was met first.  The ranking of [l] lists every distinct element of
    [l] once, with its count, in that order. *)

Definition count (k : K) (l : list K) : nat := length (filter (λ x, x = k) l).

Fixpoint pos (k : K) (l : list K) : nat :=
  match l with
  | [] => 0
  | x :: l' => if decide (x = k) then 0 else S (pos k l')
  end.

Definition ranked (l : list K) (a b : K * nat) : Prop :=
  b.2 < a.2 ∨ (a.2 = b.2 ∧ pos a.1 l < pos b.1 l).

Definition ranking (l : list K) (all : list (K * nat)) : Prop :=
  NoDup all.*1
  ∧ (∀ k c, (k, c) ∈ all ↔ k ∈ l ∧ c = count k l)
  ∧ StronglySorted (ranked l) all.

(** The distinct elements in the order first met. *)
Definition nub (l : list K) : list K :=
  foldl (λ acc k, if decide (k ∈ acc) then acc else acc ++ [k]) [] l.

End Counting.

(** [s.value_counts()]: missing cells are not counted; the counts come
    by decreasing count, values of equal count in the order first met.
    pandas promises the decreasing order; the order among equal counts
    is modelled as the stable one, which keeps the order of first
    occurrence of its counting pass. *)
Definition value_counts (s : Series) : list (value * nat) :=
  sort_desc (Counter (dropna s)).

(** [counts.head(n)]. *)
Definition head {A} (n : nat) (l : list A) : list A := take n l.

(** The ranking of the values of a column: every value present, once,
    with the number of rows that hold it, by decreasing count, values of
    equal count in the order of their first rows. *)
Definition value_ranking (s : Series) (all : list (value * nat)) : Prop :=
  NoDup all.*1
  ∧ (∀ v c, (v, c) ∈ all ↔ v ≠ NaN ∧ v ∈ s ∧ c = count v s)
  ∧ StronglySorted (ranked s) all.

(** *** Comparisons

    Python and pandas compare numbers with numbers (booleans count as 0
    and 1), texts with texts and dates with dates; an order comparison
    across these kinds is a [TypeError], whose message is not modelled.
    A missing cell compares as false with everything. *)

Inductive kind := KNum | KStr | KTime.

#[global] Instance kind_eq_dec : EqDecision kind.
Proof. solve_decision. Defined.

Definition kind_of (x : value) : kind :=
  match x with
  | Str _ => KStr
  | Timestamp _ _ _ => KTime
  | NaN | Int _ | Bool _ => KNum
  end.

Definition num_of (x : value) : option Z :=
  match x with
  | Int n => Some n
  | Bool b => Some (Z.b2z b)
  | _ => None
  end.

(** [x op n] for a cell and an integer, as in [s > 0] and [s >= 2019];
    [None] is the [TypeError]. *)
Definition cmp_int (op : Z → Z → bool) (x : value) (n : Z) : option bool :=
  match x with
  | NaN => Some false
  | Int a => Some (op a n)
  | Bool b => Some (op (Z.b2z b) n)
  | Str _ | Timestamp _ _ _ => None
  end.

(** [s > n] on a column. *)
Definition series_gt (s : Series) (n : Z) : M Mask :=
  match mapM (λ x, cmp_int Z.gtb x n) s with
  | Some m => mret m
  | None => raise TypeError
  end.

(** The order of two keys of the same kind; missing keys go last. *)
Definition key_leb (x y : value) : bool :=
  match x, y with
  | Str a, Str b => String.leb a b
  | Timestamp y1 m1 d1, Timestamp y2 m2 d2 =>
      (y1 <? y2)%Z
      || ((y1 =? y2)%Z && ((m1 <? m2)%Z || ((m1 =? m2)%Z && (d1 <=? d2)%Z)))
  | _, _ =>
      match num_of x, num_of y with
      | Some a, Some b => (a <=? b)%Z
      | Some _, None => true
      | None, _ => false
      end
  end.

Fixpoint insert_key (x : value * nat) (l : list (value * nat))
  : list (value * nat) :=
  match l with
  | [] => [x]
  | y :: l' => if key_leb x.1 y.1 then x :: y :: l' else y :: insert_key x l'
  end.

(** Keys that can be ordered: all of the kind of the first. *)
Definition same_kind (l : list (value * nat)) : Prop :=
  match l with
  | [] => True
  | a :: l' => Forall (λ b, kind_of b.1 = kind_of a.1) l'
  end.

#[global] Instance same_kind_dec l : Decision (same_kind l).
Proof. destruct l; apply _. Defined.

Definition by_key (l : list (value * nat)) : list (value * nat) :=
  foldr insert_key [] l.

(** [counts.sort_index()]: the entries by increasing key. *)
Definition sort_index (l : list (value * nat)) : M (list (value * nat)) :=
  if decide (same_kind l) then mret (by_key l) else raise TypeError.

(** [counts[counts.index >= n]]. *)
Definition index_ge (l : list (value * nat)) (n : Z) : M (list (value * nat)) :=
  match mapM (λ kc : value * nat, cmp_int Z.geb kc.1 n) l with
  | Some m => mret (select m l)
  | None => raise TypeError
  end.

(** [plt.pie(x, labels=labels)]: one label for each wedge (the message
    is that of matplotlib 3.9 and later). *)
Definition pie (x : list nat) (labels : list string) : M unit :=
  if decide (length x = length labels) then mret ()
  else raise (ValueError ("'labels' must be of length 'x', not "
                          +:+ pretty (length labels))).

(** *** The word cloud

    [WordCloud(...).generate(text)] takes the words of the text (the
    matches of [\w[\w']*]), removes a final ['s], leaves out the words
    made of digits and those whose lower-case form is one of its stop
    words, and draws the others; it raises [ValueError] when none is
    left.  How often a word occurs, the pairs of words it counts together
    and the plurals it merges bear on the size of the words and are not
    modelled. *)

Definition wordcloud_stopwords : list string :=
  ["a"; "about"; "above"; "after"; "again"; "against"; "all"; "also"; "am";
   "an"; "and"; "any"; "are"; "aren't"; "as"; "at"; "be"; "because"; "been";
   "before"; "being"; "below"; "between"; "both"; "but"; "by"; "can";
   "can't"; "cannot"; "com"; "could"; "couldn't"; "did"; "didn't"; "do";
   "does"; "doesn't"; "doing"; "don't"; "down"; "during"; "each"; "else";
   "ever"; "few"; "for"; "from"; "further"; "get"; "had"; "hadn't"; "has";
   "hasn't"; "have"; "haven't"; "having"; "he"; "he'd"; "he'll"; "he's";
   "hence"; "her"; "here"; "here's"; "hers"; "herself"; "him"; "himself";
   "his"; "how"; "how's"; "however"; "http"; "i"; "i'd"; "i'll"; "i'm";
   "i've"; "if"; "in"; "into"; "is"; "isn't"; "it"; "it's"; "its"; "itself";
   "just"; "k"; "let's"; "like"; "me"; "more"; "most"; "mustn't"; "my";
   "myself"; "no"; "nor"; "not"; "of"; "off"; "on"; "once"; "only"; "or";
   "other"; "otherwise"; "ought"; "our"; "ours"; "ourselves"; "out"; "over";
   "own"; "r"; "same"; "shall"; "shan't"; "she"; "she'd"; "she'll"; "she's";
   "should"; "shouldn't"; "since"; "so"; "some"; "such"; "than"; "that";
   "that's"; "the"; "their"; "theirs"; "them"; "themselves"; "then";
   "there"; "there's"; "therefore"; "these"; "they"; "they'd"; "they'll";
   "they're"; "they've"; "this"; "those"; "through"; "to"; "too"; "under";
   "until"; "up"; "very"; "was"; "wasn't"; "we"; "we'd"; "we'll"; "we're";
   "we've"; "were"; "weren't"; "what"; "what's"; "when"; "when's"; "where";
   "where's"; "which"; "while"; "who"; "who's"; "whom"; "why"; "why's";
   "with"; "won't"; "would"; "wouldn't"; "www"; "you"; "you'd"; "you'll";
   "you're"; "you've"; "your"; "yours"; "yourself"; "yourselves"].

Definition is_apostrophe (c : ascii) : bool := Py.ord c =? 39.

(** A character of [[\w']]. *)
Definition cloud_char (c : ascii) : bool := Py.is_word c || is_apostrophe c.

Fixpoint drop_apostrophes (s : string) : string :=
  match s with
  | String c s' => if is_apostrophe c then drop_apostrophes s' else s
  | EmptyString => EmptyString
  end.

(** [re.findall(r"\w[\w']*", text)]: a match starts at a word character
    and runs on through word characters and apostrophes. *)
Definition cloud_findall (text : string) : list string :=
  filter (λ w, w ≠ EmptyString)
    (drop_apostrophes <$> Py.runs (λ c, negb (cloud_char c)) text).

(** [word[:-2] if word.lower().endswith("'s") else word]. *)
Fixpoint drop_possessive (w : string) : string :=
  match w with
  | String c1 (String c2 EmptyString as rest) =>
      if is_apostrophe c1 && (Py.ord (Py.lower_char c2) =? 115)
      then EmptyString else String c1 rest
  | String c w' => String c (drop_possessive w')
  | EmptyString => EmptyString
  end.

(** [word.isdigit()]. *)
Definition isdigit (w : string) : bool :=
  negb (Py.str_len w =? 0)
  && Py.str_forall (λ c, Py.is_digit c || (Py.ord c =? 178)
                          || (Py.ord c =? 179) || (Py.ord c =? 185)) w.

Definition cloud_words (text : string) : list string :=
  let words := cloud_findall text in
  let words := drop_possessive <$> words in
  let words := filter (λ w, isdigit w = false) words in
  filter (λ w, Py.lower w ∉ wordcloud_stopwords) words.

Definition WordCloud_generate (text : string) : M unit :=
  match cloud_words text with
  | [] => raise (ValueError "We need at least 1 word to plot a word cloud, got 0.")
  | _ => mret ()
  end.

Definition stop_words : list string :=
  ["the"; "and"; "of"; "in"; "to"; "a"; "for"; "with"; "on"; "by";
   "from"; "as"; "an"; "at"; "that"; "this"; "is"; "are"; "was"; "were";
   "be"; "been"; "have"; "has"; "had"; "do"; "does"; "did"; "will";
   "would"; "could"; "should"; "may"; "might"; "must"; "can"].

(** The unpacking [a, b = zip(...)] of the transposed list of pairs: the
    transposition of an empty list has no component to bind. *)
Definition unpack_zip_star {A B} (pairs : list (A * B)) : M (list A * list B) :=
  match pairs with
  | [] => raise (ValueError "not enough values to unpack (expected 2, got 0)")
  | _ => mret (pairs.*1, pairs.*2)
  end.

(** [analyze_titles].  Between the count of the words and the return,
    two statements check what they are given: the unpacking of the
    transposed list of common words and the word cloud. *)
Definition analyze_titles (df : ref) : M (list (string * nat)) :=
  print (Msg "Analyzing paper titles...");;
  t ← getitem df "title";
  let all_titles := Py.join " " (py_str <$> dropna t) in
  let words := Py.findall_words (Py.lower all_titles) in
  let filtered_words := filter (λ w, w ∉ stop_words) words in
  let word_freq := Counter filtered_words in
  let common_words := most_common 20 word_freq in
  wc ← unpack_zip_star common_words;
  WordCloud_generate (Py.join " " filtered_words);;
  mret common_words.

Definition analyze_sources (df : ref) : M (list (value * nat)) :=
  print (Msg "Analyzing paper sources...");;
  s ← getitem df "source_x";
  let top_sources := head 15 (value_counts s) in
  mret top_sources.

(** [analyze_publication_trends].  The bar charts and the histogram
    take what they are given; the comparisons that prepare them can fail
    on what the cells hold, and the pie chart on the number of its
    wedges. *)
Definition analyze_publication_trends (df : ref)
  : M (list (value * nat) * list (value * nat)) :=
  print (Msg "Analyzing publication trends...");;
  y ← getitem df "publication_year";
  yearly_counts ← sort_index (value_counts y);
  yearly_counts ← index_ge yearly_counts 2019;
  j ← getitem df "journal";
  let top_journals := head 10 (value_counts j) in
  w ← getitem df "abstract_word_count";
  positive ← series_gt w 0;
  let word_counts := select positive w in
  h ← getitem df "has_abstract";
  let has_abstract_counts := value_counts h in
  pie has_abstract_counts.*2 ["Has Abstract"; "No Abstract"];;
  mret (yearly_counts, top_journals).

(** The words [analyze_titles] counts: the matches of the pattern in the
    lower-cased titles joined by spaces, stop words left out. *)
Definition title_words (t : Series) : list string :=
  filter (λ w, w ∉ stop_words)
    (Py.findall_words (Py.lower (Py.join " " (py_str <$> dropna t)))).

(** *** The word frequencies as the specification words them

    Lower-case the concatenation of the present values; tokenize into
    alphabetic runs of length at least [min_len]; drop the stop words;
    count; return the 20 most frequent, ties in the order first met. *)
Definition alphabetic_runs (min_len : nat) (s : string) : list string :=
  filter (λ w, min_len ≤ Py.str_len w)
    (Py.runs (λ c, negb (Py.is_ascii_alpha c)) s).

Definition word_frequency (t : Series) (stopwords : list string)
    (min_len : nat) : list (string * nat) :=
  let text := Py.lower (Py.join " " (py_str <$> dropna t)) in
  let tokens := alphabetic_runs min_len text in
  most_common 20 (Counter (filter (λ w, w ∉ stopwords) tokens)).

(** The counting pattern shared by the journal and source rankings:
    [df[column].value_counts().head(n)]. *)
Definition top_n (df : ref) (column : string) (n : nat)
  : M (list (value * nat)) :=
  s ← getitem df column;
  mret (head n (value_counts s)).

(** A parser for the examples: the ISO form [YYYY-MM-DD] only. *)
Definition digit_of (c : ascii) : option Z :=
  if Py.is_digit c then Some (Z.of_nat (Py.ord c) - 48)%Z else None.

Fixpoint number_of (acc : Z) (s : string) : option Z :=
  match s with
  | EmptyString => Some acc
  | String c s' => d ← digit_of c; number_of (10 * acc + d)%Z s'
  end.

Definition iso_date (x : value) : option (Z * Z * Z) :=
  match x with
  | Str s =>
      if decide (Py.str_len s = 10 ∧ String.get 4 s = Some "-"%char
                 ∧ String.get 7 s = Some "-"%char)
      then
        y ← number_of 0 (String.substring 0 4 s);
        m ← number_of 0 (String.substring 5 2 s);
        d ← number_of 0 (String.substring 8 2 s);
        if decide (1 ≤ m ≤ 12 ∧ 1 ≤ d ≤ 31)%Z then Some (y, m, d) else None
      else None
  | _ => None
  end.

Definition run {A} (m : M A) (σ : state) : result A * state := m σ.

Definition sample : DataFrame :=
  mkDataFrame [0; 1; 2]
    [("title", [Str "Covid Study"; NaN; NaN]);
     ("abstract", [Str "two  words "; NaN; Str "   "]);
     ("journal", [NaN; Str "J"; Str "J"]);
     ("publish_time", [Str "2020-03-01"; Str "not-a-date"; Str "2021-01-05"]);
     ("source_x", [Str "PMC"; NaN; Str "WHO"]);
     ("cord_uid", [Str "ug7v899j"; Str "02tnwd4m"; Str "ejv2xln0"])].

Definition titles2 : DataFrame :=
  mkDataFrame [0; 1] [("title", [Str "Covid Study"; Str "covid study results"])].

Definition journals5 : DataFrame :=
  mkDataFrame [0; 1; 2; 3; 4]
    [("journal", [Str "A"; Str "B"; Str "A"; Str "C"; Str "A"])].

(** *** The claims on missing columns and on additional columns, as the
    specification words them

    [aborts_before_any_row]: on a table alone in the heap, the run ends
    with the missing-column error and every table that exists then is
    still the input as it was given, none having been worked on.
    [passes_through]: a column of the input other than the five required
    ones is found in the cleaned table with the values it had. *)

Definition aborts_before_any_row
    (parse_date : value → option (Z * Z * Z)) (f : DataFrame) : Prop :=
  ∃ c σ',
    clean_data parse_date 0 (mkState [f] []) = (Raise (KeyError c), σ')
    ∧ ∀ g, g ∈ heap σ' → g = f.

Definition passes_through
    (parse_date : value → option (Z * Z * Z)) (f : DataFrame) : Prop :=
  ∀ c r' σ' g,
    c ∉ required_columns → has_column c f →
    clean_data parse_date 0 (mkState [f] []) = (Ok r', σ') →
    heap σ' !! r' = Some g →
    get_column c g = get_column c f.

(** A table whose only row has neither title nor abstract. *)
Definition both_absent : DataFrame :=
  mkDataFrame [0]
    [("title", [NaN]);
     ("abstract", [NaN]);
     ("journal", [Str "J"]);
     ("publish_time", [Str "2020-03-01"]);
     ("source_x", [Str "PMC"])].

(** A table without the column [source_x]. *)
Definition no_source : DataFrame :=
  mkDataFrame [0; 1]
    [("title", [Str "Covid Study"; NaN]);
     ("abstract", [NaN; Str "two  words "]);
     ("journal", [NaN; Str "J"]);
     ("publish_time", [Str "2020-03-01"; Str "not-a-date"])].

(** A table with an additional column that bears the name of a computed
    one. *)
Definition clash : DataFrame :=
  mkDataFrame [0]
    [("title", [Str "Covid Study"]);
     ("abstract", [Str "two  words "]);
     ("journal", [Str "J"]);
     ("publish_time", [Str "2020-03-01"]);
     ("source_x", [Str "PMC"]);
     ("source_type", [Str "preprint"])].

(** A table with a title in which digits follow letters. *)
Definition covid19 : DataFrame :=
  mkDataFrame [0] [("title", [Str "Covid19 study of SARS-CoV2"])].

(** A table whose title holds stop words of the word cloud only. *)
Definition about_above : DataFrame :=
  mkDataFrame [0] [("title", [Str "About above"])].

(** The table without rows. *)
Definition empty_table : DataFrame :=
  mkDataFrame []
    [("title", []); ("abstract", []); ("journal", []);
     ("publish_time", []); ("source_x", [])].

(** ** Vocabulary of the further properties *)

(** The words one title contributes to the count of [analyze_titles]. *)
Definition words_of_title (x : value) : list string :=
  filter (λ w, w ∉ stop_words) (Py.findall_words (Py.lower (py_str x))).

(** A letter of [a-z]. *)
Definition is_lower_alpha (c : ascii) : bool := Py.between 97 122 (Py.ord c).

(** The three columns [handle_dates] assigns. *)
Definition date_columns : list string :=
  ["publish_time"; "publication_year"; "publication_month"].

(** A cell of a column of years: an integer, or missing. *)
Definition is_year (v : value) : Prop := v = NaN ∨ ∃ n : Z, v = Int n.

(** The order of the yearly counts: by year, strictly. *)
Definition year_lt (a b : value * nat) : Prop :=
  match a.1, b.1 with
  | Int x, Int y => (x < y)%Z
  | _, _ => False
  end.

(** A table with the columns [analyze_publication_trends] reads. *)
Definition trends4 : DataFrame :=
  mkDataFrame [0; 1; 2; 3]
    [("publication_year", [Int 2021; Int 2018; NaN; Int 2021]);
     ("journal", [Str "A"; Str "B"; Str "A"; Str "C"]);
     ("abstract_word_count", [Int 2; Int 0; Int 0; Int 5]);
     ("has_abstract", [Bool true; Bool false; Bool false; Bool true])].

(** The columns the dashboard's [clean_data] reads, in the order of their
    first read, and the columns it assigns. *)
Definition app_read_order : list string :=
  ["publish_time"; "title"; "abstract"; "journal"].

Definition app_assigned : list string :=
  ["publish_time"; "publication_year"; "title"; "abstract"; "journal";
   "abstract_word_count"; "has_abstract"].

(** The columns on which the two cleaning steps are compared. *)
Definition shared_columns : list string :=
  ["publish_time"; "title"; "abstract"; "journal"; "source_x";
   "abstract_word_count"; "has_abstract"].

(** A cell that compares with a number: a number, a boolean, or a
    missing cell. *)
Definition numeric (v : value) : Prop := kind_of v = KNum.

(** The flag [has_abstract] of a row of the cleaned table, from the
    abstract of the input: there is one, and it is not blank. *)
Definition with_abstract (x : value) : bool :=
  0 <? Py.str_len (Py.strip (py_str (if isna1 x then Str "" else x))).

(** The abstracts of a batch are of both sorts. *)
Definition both_sorts (a : Series) : Prop :=
  (∃ x, x ∈ a ∧ with_abstract x = true)
  ∧ (∃ x, x ∈ a ∧ with_abstract x = false).

(** A table in which every row has an abstract. *)
Definition one_flag : DataFrame :=
  mkDataFrame [0; 1]
    [("publication_year", [Int 2021; Int 2018]);
     ("journal", [Str "A"; Str "B"]);
     ("abstract_word_count", [Int 2; Int 5]);
     ("has_abstract", [Bool true; Bool true])].

(** A table whose years are texts, and one whose word counts are. *)
Definition text_years : DataFrame :=
  mkDataFrame [0; 1]
    [("publication_year", [Str "2020"; Str "2021"]);
     ("journal", [Str "A"; Str "B"]);
     ("abstract_word_count", [Int 2; Int 0]);
     ("has_abstract", [Bool true; Bool false])].

Definition text_counts : DataFrame :=
  mkDataFrame [0; 1]
    [("publication_year", [Int 2020; Int 2021]);
     ("journal", [Str "A"; Str "B"]);
     ("abstract_word_count", [Str "two"; Int 0]);
     ("has_abstract", [Bool true; Bool false])].

(** ** Basic facts *)

(** Membership in a list of texts, by computation. *)
Lemma elem_of_by_computation (w : string) (l : list string) :
  bool_decide (w ∈ l) = true → w ∈ l.
Proof. apply bool_decide_eq_true. Qed.

Lemma not_elem_of_by_computation (w : string) (l : list string) :
  bool_decide (w ∈ l) = false → w ∉ l.
Proof. apply bool_decide_eq_false. Qed.

Lemma bind_ok {A B} (m : M A) (k : A → M B) σ a σ' :
  m σ = (Ok a, σ') → (m ≫= k) σ = k a σ'.
Proof. intros H. unfold mbind, M_bind. by rewrite H. Qed.

Lemma bind_raise {A B} (m : M A) (k : A → M B) σ e σ' :
  m σ = (Raise e, σ') → (m ≫= k) σ = (Raise e, σ').
Proof. intros H. unfold mbind, M_bind. by rewrite H. Qed.

Lemma bind_print {B} e (k : unit → M B) h o :
  (print e ≫= k) (mkState h o) = k () (mkState h (o ++ [e])).
Proof. done. Qed.

Lemma bind_ret {A B} (a : A) (k : A → M B) σ : (mret a ≫= k) σ = k a σ.
Proof. done. Qed.

Lemma bind_assoc {A B C} (m : M A) (k1 : A → M B) (k2 : B → M C) σ :
  ((m ≫= k1) ≫= k2) σ = (m ≫= λ x, k1 x ≫= k2) σ.
Proof. unfold mbind, M_bind. by destruct (m σ) as [[a|e] σ']. Qed.

Lemma assoc_assign_eq c s cols : assoc c (assign c s cols) = Some s.
Proof.
  induction cols as [|[c' s'] cols IH]; simpl.
  - by rewrite decide_True.
  - destruct (decide (c' = c)) as [->|Hne]; simpl.
    + by rewrite decide_True.
    + by rewrite decide_False.
Qed.

Lemma assoc_assign_ne c c' s cols :
  c ≠ c' → assoc c (assign c' s cols) = assoc c cols.
Proof.
  intros Hne. induction cols as [|[c'' s''] cols IH]; simpl.
  - by rewrite decide_False.
  - destruct (decide (c'' = c')) as [->|Hne']; simpl.
    + by rewrite !decide_False.
    + by rewrite IH.
Qed.

Lemma assign_assign c s s' cols :
  assign c s (assign c s' cols) = assign c s cols.
Proof.
  induction cols as [|[c' s''] cols IH]; simpl.
  - by rewrite decide_True.
  - destruct (decide (c' = c)) as [->|Hne]; simpl.
    + by rewrite decide_True.
    + by rewrite decide_False, IH.
Qed.

Lemma assign_id c s cols : assoc c cols = Some s → assign c s cols = cols.
Proof.
  induction cols as [|[c' s'] cols IH]; simpl; [done|].
  destruct (decide (c' = c)) as [->|Hne]; [naive_solver|].
  intros H. by rewrite IH.
Qed.

Lemma get_set_eq c s f : get_column c (set_column c s f) = Some s.
Proof. apply assoc_assign_eq. Qed.

Lemma get_set_ne c c' s f :
  c ≠ c' → get_column c (set_column c' s f) = get_column c f.
Proof. apply assoc_assign_ne. Qed.

Lemma set_set c s s' f : set_column c s (set_column c s' f) = set_column c s f.
Proof. unfold set_column. simpl. by rewrite assign_assign. Qed.

Lemma set_id c s f : get_column c f = Some s → set_column c s f = f.
Proof.
  unfold get_column, set_column. intros H. rewrite assign_id by done.
  by destruct f.
Qed.

Lemma index_set c s f : index (set_column c s f) = index f.
Proof. done. Qed.

(** ** Columns and well-formed frames *)

Lemma get_column_elem c f s : get_column c f = Some s → (c, s) ∈ columns f.
Proof.
  unfold get_column. induction (columns f) as [|[c' s'] cols IH]; simpl; [done|].
  destruct (decide (c' = c)) as [->|Hne].
  - intros [= ->]. left.
  - intros H. right. auto.
Qed.

Lemma wf_length c f s :
  frame_wf f → get_column c f = Some s → length s = length (index f).
Proof.
  intros Hwf Hc. apply get_column_elem in Hc.
  unfold frame_wf in Hwf. rewrite Forall_forall in Hwf. by apply (Hwf (c, s)).
Qed.

Lemma Forall_assign (P : string * Series → Prop) c s cols :
  P (c, s) → Forall P cols → Forall P (assign c s cols).
Proof.
  intros Hcs. induction 1 as [|[c' s'] cols Hx Hcols IH]; simpl.
  - by constructor.
  - destruct (decide (c' = c)); constructor; auto.
Qed.

Lemma wf_set c s f :
  frame_wf f → length s = length (index f) → frame_wf (set_column c s f).
Proof. intros Hwf Hlen. unfold frame_wf. simpl. by apply Forall_assign. Qed.

Lemma assoc_fmap_select m c cols :
  assoc c ((λ cs : string * Series, (cs.1, select m cs.2)) <$> cols)
  = select m <$> assoc c cols.
Proof.
  induction cols as [|[c' s'] cols IH]; simpl; [done|].
  by destruct (decide (c' = c)).
Qed.

Lemma get_filter_rows m c f :
  get_column c (filter_rows m f) = select m <$> get_column c f.
Proof. apply assoc_fmap_select. Qed.

Lemma select_all {A} (m : Mask) (l : list A) :
  Forall (λ b, b = true) m → length l ≤ length m → select m l = l.
Proof.
  intros Hm. revert l. induction Hm as [|b m -> Hm IH]; intros [|x l]; simpl;
    try done; try lia.
  intros Hlen. rewrite IH; [done|lia].
Qed.

Lemma filter_rows_all m f :
  frame_wf f → Forall (λ b, b = true) m → length (index f) ≤ length m →
  filter_rows m f = f.
Proof.
  intros Hwf Hm Hlen. destruct f as [idx cols]. unfold filter_rows. simpl in *.
  rewrite select_all by done. f_equal.
  unfold frame_wf in Hwf. simpl in Hwf.
  induction Hwf as [|[c s] cols Hs Hcols IH]; csimpl; [done|].
  simpl in Hs. rewrite select_all by (done || lia). by rewrite IH.
Qed.

Lemma length_fillna s v : length (fillna s v) = length s.
Proof. unfold fillna. by rewrite length_fmap. Qed.

Lemma isna_fillna s v : v ≠ NaN → Forall (λ b, b = false) (isna (fillna s v)).
Proof.
  intros Hv. unfold isna, fillna. induction s as [|x s IH]; simpl; constructor; auto.
  destruct x; simpl; try done. by destruct v.
Qed.

Lemma mask_and_false_l m1 m2 :
  Forall (λ b, b = false) m1 → Forall (λ b, b = false) (mask_and m1 m2).
Proof.
  intros H. revert m2. induction H as [|b m1 -> H IH]; intros [|b2 m2]; simpl;
    constructor; auto.
Qed.

Lemma length_mask_and m1 m2 :
  length (mask_and m1 m2) = Nat.min (length m1) (length m2).
Proof. revert m2. induction m1 as [|b m1 IH]; intros [|b2 m2]; simpl; auto. Qed.

Lemma keep_mask_all t a : Forall (λ b, b = true) (keep_mask t a).
Proof.
  unfold keep_mask, mask_not. apply Forall_fmap.
  eapply Forall_impl; [apply mask_and_false_l, isna_fillna; done|].
  by intros b ->.
Qed.

Lemma length_keep_mask t a : length (keep_mask t a) = Nat.min (length t) (length a).
Proof.
  unfold keep_mask, mask_not, isna.
  by rewrite length_fmap, length_mask_and, !length_fmap, !length_fillna.
Qed.

(** ** Running the primitives *)

Lemma last_lookup {A} (h : list A) x : (h ++ [x]) !! length h = Some x.
Proof. by rewrite (list_lookup_middle h [] x). Qed.

Lemma last_insert {A} (h : list A) x y : <[length h := y]> (h ++ [x]) = h ++ [y].
Proof.
  replace (length h) with (length h + 0) by lia.
  by rewrite insert_app_r.
Qed.

Lemma read_run h o r f : h !! r = Some f → read r (mkState h o) = (Ok f, mkState h o).
Proof. intros H. unfold read. simpl. by rewrite H. Qed.

Lemma copy_run h o r f :
  h !! r = Some f → copy r (mkState h o) = (Ok (length h), mkState (h ++ [f]) o).
Proof. intros H. unfold copy. by rewrite (bind_ok _ _ _ _ _ (read_run _ _ _ _ H)). Qed.

Lemma getitem_run h o r f c s :
  h !! r = Some f → get_column c f = Some s →
  getitem r c (mkState h o) = (Ok s, mkState h o).
Proof.
  intros H Hc. unfold getitem.
  rewrite (bind_ok _ _ _ _ _ (read_run _ _ _ _ H)). by rewrite Hc.
Qed.

Lemma getitem_miss h o r f c :
  h !! r = Some f → get_column c f = None →
  getitem r c (mkState h o) = (Raise (KeyError c), mkState h o).
Proof.
  intros H Hc. unfold getitem.
  rewrite (bind_ok _ _ _ _ _ (read_run _ _ _ _ H)). by rewrite Hc.
Qed.

Lemma getitem_dangling h o r c :
  h !! r = None →
  getitem r c (mkState h o) = (Raise ReferenceError, mkState h o).
Proof.
  intros H. unfold getitem. apply bind_raise. unfold read. simpl. by rewrite H.
Qed.

Lemma getitem_last h f o c s :
  get_column c f = Some s →
  getitem (length h) c (mkState (h ++ [f]) o) = (Ok s, mkState (h ++ [f]) o).
Proof. apply getitem_run, last_lookup. Qed.

Lemma getitem_last_miss h f o c :
  get_column c f = None →
  getitem (length h) c (mkState (h ++ [f]) o)
  = (Raise (KeyError c), mkState (h ++ [f]) o).
Proof. apply getitem_miss, last_lookup. Qed.

Lemma setitem_last h f o c s :
  setitem (length h) c s (mkState (h ++ [f]) o)
  = (Ok (), mkState (h ++ [set_column c s f]) o).
Proof.
  unfold setitem.
  rewrite (bind_ok _ _ _ _ _ (read_run _ _ _ _ (last_lookup h f))).
  unfold write. simpl. by rewrite last_insert.
Qed.

Lemma len_last h f o :
  len (length h) (mkState (h ++ [f]) o)
  = (Ok (length (index f)), mkState (h ++ [f]) o).
Proof.
  unfold len. by rewrite (bind_ok _ _ _ _ _ (read_run _ _ _ _ (last_lookup h f))).
Qed.

Lemma shape_last h f o :
  shape (length h) (mkState (h ++ [f]) o) = (Ok (shape_of f), mkState (h ++ [f]) o).
Proof.
  unfold shape. by rewrite (bind_ok _ _ _ _ _ (read_run _ _ _ _ (last_lookup h f))).
Qed.

Lemma getitem_mask_last h f o m :
  getitem_mask (length h) m (mkState (h ++ [f]) o)
  = (Ok (length (h ++ [f])), mkState ((h ++ [f]) ++ [filter_rows m f]) o).
Proof.
  unfold getitem_mask.
  by rewrite (bind_ok _ _ _ _ _ (read_run _ _ _ _ (last_lookup h f))).
Qed.

(** Reading a column through the assignments made so far. *)
Ltac cols :=
  repeat first [rewrite get_set_eq | rewrite get_set_ne by done];
  first [done | eassumption].

(** One statement of a function body run on the last object of the heap. *)
Ltac step :=
  first
    [ rewrite bind_print
    | rewrite bind_ret
    | rewrite bind_assoc
    | erewrite (bind_ok (getitem _ _)) by (apply getitem_last; cols)
    | rewrite (bind_ok _ _ _ _ _ (setitem_last _ _ _ _ _))
    | rewrite (bind_ok _ _ _ _ _ (len_last _ _ _))
    | rewrite (bind_ok _ _ _ _ _ (shape_last _ _ _))
    | rewrite (bind_ok _ _ _ _ _ (getitem_mask_last _ _ _ _)) ];
  cbv beta.

(** The statement that raises: a column that is not there. *)
Ltac miss :=
  erewrite (bind_raise (getitem _ _))
    by (apply getitem_last_miss; rewrite ?get_set_ne by done; eassumption).

Section CleaningRuns.
Variable parse_date : value → option (Z * Z * Z).

Lemma handle_dates_ok h f o s :
  get_column "publish_time" f = Some s →
  handle_dates parse_date (length h) (mkState (h ++ [f]) o)
  = (Ok (length h),
     mkState (h ++ [dates_frame parse_date s f])
       (o ++ [Msg "Processing date columns...";
              DateRange (series_min (filled_years parse_date s))
                        (series_max (filled_years parse_date s))])).
Proof.
  intros Hs. unfold handle_dates.
  repeat step.
  unfold dates_frame, filled_years, years.
  destruct (mode (dt_year (to_datetime parse_date s))) as [|y0 ys];
    repeat step; by rewrite <- (app_assoc o).
Qed.

Lemma handle_dates_miss h f o :
  get_column "publish_time" f = None →
  handle_dates parse_date (length h) (mkState (h ++ [f]) o)
  = (Raise (KeyError "publish_time"),
     mkState (h ++ [f]) (o ++ [Msg "Processing date columns..."])).
Proof.
  intros Hs. unfold handle_dates. step. by miss.
Qed.

Lemma handle_missing_values_ok h f o t a j :
  get_column "title" f = Some t →
  get_column "abstract" f = Some a →
  get_column "journal" f = Some j →
  let fm := missing_frame t a j f in
  let g := filter_rows (keep_mask t a) fm in
  handle_missing_values (length h) (mkState (h ++ [f]) o)
  = (Ok (length (h ++ [fm])),
     mkState ((h ++ [fm]) ++ [g])
       (o ++ [Msg "Handling missing values...";
              RemovedRows (length (index fm) - length (index g))])).
Proof.
  intros Ht Ha Hj fm g. unfold handle_missing_values.
  repeat step. by rewrite <- (app_assoc o).
Qed.

Lemma handle_missing_values_miss_title h f o :
  get_column "title" f = None →
  handle_missing_values (length h) (mkState (h ++ [f]) o)
  = (Raise (KeyError "title"),
     mkState (h ++ [f]) (o ++ [Msg "Handling missing values..."])).
Proof.
  intros Hc. unfold handle_missing_values. step. by miss.
Qed.

Lemma handle_missing_values_miss_abstract h f o t :
  get_column "title" f = Some t →
  get_column "abstract" f = None →
  handle_missing_values (length h) (mkState (h ++ [f]) o)
  = (Raise (KeyError "abstract"),
     mkState (h ++ [set_column "title" (fillna t (Str "Unknown Title")) f])
       (o ++ [Msg "Handling missing values..."])).
Proof.
  intros Ht Hc. unfold handle_missing_values. repeat step.
  by miss.
Qed.

Lemma handle_missing_values_miss_journal h f o t a :
  get_column "title" f = Some t →
  get_column "abstract" f = Some a →
  get_column "journal" f = None →
  handle_missing_values (length h) (mkState (h ++ [f]) o)
  = (Raise (KeyError "journal"),
     mkState (h ++ [set_column "abstract" (fillna a (Str ""))
                      (set_column "title" (fillna t (Str "Unknown Title")) f)])
       (o ++ [Msg "Handling missing values..."])).
Proof.
  intros Ht Ha Hc. unfold handle_missing_values. repeat step.
  by miss.
Qed.

Lemma create_new_features_ok h f o t a x :
  get_column "title" f = Some t →
  get_column "abstract" f = Some a →
  get_column "source_x" f = Some x →
  create_new_features (length h) (mkState (h ++ [f]) o)
  = (Ok (length h),
     mkState (h ++ [features_frame t a x f])
       (o ++ [Msg "Creating new features..."])).
Proof.
  intros Ht Ha Hx. unfold create_new_features. by repeat step.
Qed.

Lemma create_new_features_miss_source h f o t a :
  get_column "title" f = Some t →
  get_column "abstract" f = Some a →
  get_column "source_x" f = None →
  create_new_features (length h) (mkState (h ++ [f]) o)
  = (Raise (KeyError "source_x"),
     mkState (h ++ [set_column "has_abstract" (apply a nonblank)
                      (set_column "title_word_count" (apply t word_count)
                         (set_column "abstract_word_count" (apply a word_count) f))])
       (o ++ [Msg "Creating new features..."])).
Proof.
  intros Ht Ha Hx. unfold create_new_features. repeat step.
  by miss.
Qed.

(** *** Columns of the intermediate frames *)

Lemma get_dates_other c s f :
  c ≠ "publish_time" → c ≠ "publication_year" → c ≠ "publication_month" →
  get_column c (dates_frame parse_date s f) = get_column c f.
Proof.
  intros H1 H2 H3. unfold dates_frame.
  destruct (mode (years parse_date s)); by rewrite ?get_set_ne.
Qed.

Lemma get_dates_publish s f :
  get_column "publish_time" (dates_frame parse_date s f)
  = Some (to_datetime parse_date s).
Proof. unfold dates_frame. destruct (mode (years parse_date s)); cols. Qed.

Lemma get_dates_year s f :
  get_column "publication_year" (dates_frame parse_date s f)
  = Some (filled_years parse_date s).
Proof.
  unfold dates_frame, filled_years. destruct (mode (years parse_date s)); cols.
Qed.

Lemma get_dates_month s f :
  get_column "publication_month" (dates_frame parse_date s f)
  = Some (dt_month (to_datetime parse_date s)).
Proof. unfold dates_frame. destruct (mode (years parse_date s)); cols. Qed.

Lemma index_dates s f : index (dates_frame parse_date s f) = index f.
Proof. unfold dates_frame. by destruct (mode (years parse_date s)). Qed.

Lemma length_years s : length (years parse_date s) = length s.
Proof. unfold years, dt_year, to_datetime. by rewrite !length_fmap. Qed.

Lemma wf_dates s f :
  frame_wf f → length s = length (index f) → frame_wf (dates_frame parse_date s f).
Proof.
  intros Hwf Hlen. unfold dates_frame.
  assert (frame_wf
    (set_column "publication_month" (dt_month (to_datetime parse_date s))
      (set_column "publication_year" (years parse_date s)
         (set_column "publish_time" (to_datetime parse_date s) f)))) as H3.
  { repeat apply wf_set; try done; simpl;
      unfold dt_month, years, dt_year, to_datetime; by rewrite ?length_fmap. }
  destruct (mode (years parse_date s)); [done|].
  apply wf_set; [done|]. simpl. by rewrite length_fillna, length_years.
Qed.

Lemma get_missing_other c t a j f :
  c ≠ "title" → c ≠ "abstract" → c ≠ "journal" →
  get_column c (missing_frame t a j f) = get_column c f.
Proof. intros. unfold missing_frame. by rewrite !get_set_ne. Qed.

Lemma wf_missing t a j f :
  frame_wf f → length t = length (index f) → length a = length (index f) →
  length j = length (index f) → frame_wf (missing_frame t a j f).
Proof.
  intros. unfold missing_frame.
  repeat apply wf_set; try done; simpl; by rewrite length_fillna.
Qed.

Lemma get_features_other c t a x f :
  c ≠ "abstract_word_count" → c ≠ "title_word_count" → c ≠ "has_abstract" →
  c ≠ "source_type" →
  get_column c (features_frame t a x f) = get_column c f.
Proof. intros. unfold features_frame. by rewrite !get_set_ne. Qed.

(** *** The whole cleaning step on a table that has its columns *)

Lemma clean_data_ok h o r f s t a j x :
  h !! r = Some f → frame_wf f →
  get_column "publish_time" f = Some s →
  get_column "title" f = Some t →
  get_column "abstract" f = Some a →
  get_column "journal" f = Some j →
  get_column "source_x" f = Some x →
  clean_data parse_date r (mkState h o)
  = (Ok (S (length h)),
     mkState (h ++ [missing_frame t a j (dates_frame parse_date s f);
                    cleaned parse_date s t a j x f])
       (o ++ [Msg "Starting data cleaning process...";
              OriginalShape (length (index f)) (length (columns f));
              Msg "Processing date columns...";
              DateRange (series_min (filled_years parse_date s))
                        (series_max (filled_years parse_date s));
              Msg "Handling missing values...";
              RemovedRows 0;
              Msg "Creating new features...";
              CleanedShape (length (index f))
                           (length (columns (cleaned parse_date s t a j x f)))])).
Proof.
  intros Hr Hwf Hs Ht Ha Hj Hx. unfold clean_data.
  pose proof (wf_length _ _ _ Hwf Hs) as Ls.
  pose proof (wf_length _ _ _ Hwf Ht) as Lt.
  pose proof (wf_length _ _ _ Hwf Ha) as La.
  pose proof (wf_length _ _ _ Hwf Hj) as Lj.
  step. rewrite (bind_ok _ _ _ _ _ (copy_run _ _ _ _ Hr)). repeat step.
  rewrite (bind_ok _ _ _ _ _ (handle_dates_ok _ _ _ _ Hs)).
  set (fd := dates_frame parse_date s f).
  assert (frame_wf fd) as Hwfd by by apply wf_dates.
  assert (index fd = index f) as Hid by apply index_dates.
  erewrite (bind_ok (handle_missing_values _)); cycle 1.
  { apply handle_missing_values_ok; unfold fd; rewrite get_dates_other; done. }
  set (fm := missing_frame t a j fd).
  assert (frame_wf fm) as Hwfm by (apply wf_missing; congruence).
  assert (index fm = index f) as Him by done.
  rewrite filter_rows_all; [|done|apply keep_mask_all|]; cycle 1.
  { rewrite length_keep_mask, Him. lia. }
  erewrite (bind_ok (create_new_features _)); cycle 1.
  { apply create_new_features_ok; unfold fm, missing_frame; [cols..|].
    rewrite !get_set_ne by done. unfold fd. rewrite get_dates_other; done. }
  repeat step. rewrite Nat.sub_diag.
  unfold mret, M_ret. simpl. rewrite length_app. simpl.
  f_equal; [f_equal; lia|]. f_equal.
  - by rewrite <- app_assoc.
  - rewrite Hid. by rewrite <- !app_assoc.
Qed.

(** *** The whole cleaning step on a table that lacks a column *)

Lemma clean_data_miss h o r f c :
  h !! r = Some f → first_absent read_order f = Some c →
  ∃ ext log,
    ext ≠ [] ∧
    clean_data parse_date r (mkState h o)
    = (Raise (KeyError c), mkState (h ++ ext) (o ++ log)).
Proof.
  intros Hr Hc. unfold clean_data.
  step. rewrite (bind_ok _ _ _ _ _ (copy_run _ _ _ _ Hr)). repeat step.
  simpl in Hc.
  destruct (get_column "publish_time" f) as [s|] eqn:Hs; cycle 1.
  { injection Hc as <-.
    rewrite (bind_raise _ _ _ _ _ (handle_dates_miss _ _ _ Hs)).
    eexists [f], _. split; [done|]. by rewrite <- !(app_assoc o). }
  rewrite (bind_ok _ _ _ _ _ (handle_dates_ok _ _ _ _ Hs)).
  set (fd := dates_frame parse_date s f).
  assert (∀ c', c' ≠ "publish_time" → c' ≠ "publication_year" →
            c' ≠ "publication_month" → get_column c' fd = get_column c' f)
    as Hfd by (intros; by apply get_dates_other).
  destruct (get_column "title" f) as [t|] eqn:Ht; cycle 1.
  { injection Hc as <-.
    erewrite (bind_raise (handle_missing_values _));
      [|apply handle_missing_values_miss_title; by rewrite Hfd].
    eexists [fd], _. split; [done|]. by rewrite <- !(app_assoc o). }
  destruct (get_column "abstract" f) as [a|] eqn:Ha; cycle 1.
  { injection Hc as <-.
    erewrite (bind_raise (handle_missing_values _));
      [|apply (handle_missing_values_miss_abstract _ _ _ t); by rewrite Hfd].
    eexists [_], _. split; [done|]. by rewrite <- !(app_assoc o). }
  destruct (get_column "journal" f) as [j|] eqn:Hj; cycle 1.
  { injection Hc as <-.
    erewrite (bind_raise (handle_missing_values _));
      [|apply (handle_missing_values_miss_journal _ _ _ t a); by rewrite Hfd].
    eexists [_], _. split; [done|]. by rewrite <- !(app_assoc o). }
  destruct (get_column "source_x" f) as [x|] eqn:Hx; [done|].
  injection Hc as <-.
  erewrite (bind_ok (handle_missing_values _)); cycle 1.
  { apply handle_missing_values_ok; by rewrite Hfd. }
  erewrite (bind_raise (create_new_features _)); cycle 1.
  { apply create_new_features_miss_source;
      rewrite get_filter_rows; unfold missing_frame; rewrite ?get_set_eq;
      rewrite ?get_set_ne by done; rewrite ?get_set_eq; rewrite ?Hfd by done;
      rewrite ?Hx; done. }
  eexists [_; _], _. split; [done|].
  rewrite <- !(app_assoc o), <- !(app_assoc h). done.
Qed.

(** The same run, with the tables it leaves behind. *)
Lemma clean_data_miss_work h o r f c :
  h !! r = Some f → frame_wf f → first_absent read_order f = Some c →
  ∃ log,
    clean_data parse_date r (mkState h o)
    = (Raise (KeyError c), mkState (h ++ work_before parse_date f) (o ++ log)).
Proof.
  intros Hr Hwf Hc. unfold clean_data, work_before.
  step. rewrite (bind_ok _ _ _ _ _ (copy_run _ _ _ _ Hr)). repeat step.
  simpl in Hc.
  destruct (get_column "publish_time" f) as [s|] eqn:Hs; cycle 1.
  { injection Hc as <-.
    rewrite (bind_raise _ _ _ _ _ (handle_dates_miss _ _ _ Hs)).
    eexists. by rewrite <- !(app_assoc o). }
  rewrite (bind_ok _ _ _ _ _ (handle_dates_ok _ _ _ _ Hs)).
  set (fd := dates_frame parse_date s f).
  assert (∀ c', c' ≠ "publish_time" → c' ≠ "publication_year" →
            c' ≠ "publication_month" → get_column c' fd = get_column c' f)
    as Hfd by (intros; by apply get_dates_other).
  destruct (get_column "title" f) as [t|] eqn:Ht; cycle 1.
  { injection Hc as <-.
    erewrite (bind_raise (handle_missing_values _));
      [|apply handle_missing_values_miss_title; by rewrite Hfd].
    eexists. by rewrite <- !(app_assoc o). }
  destruct (get_column "abstract" f) as [a|] eqn:Ha; cycle 1.
  { injection Hc as <-.
    erewrite (bind_raise (handle_missing_values _));
      [|apply (handle_missing_values_miss_abstract _ _ _ t); by rewrite Hfd].
    eexists. by rewrite <- !(app_assoc o). }
  destruct (get_column "journal" f) as [j|] eqn:Hj; cycle 1.
  { injection Hc as <-.
    erewrite (bind_raise (handle_missing_values _));
      [|apply (handle_missing_values_miss_journal _ _ _ t a); by rewrite Hfd].
    eexists. by rewrite <- !(app_assoc o). }
  destruct (get_column "source_x" f) as [x|] eqn:Hx; [done|].
  injection Hc as <-.
  pose proof (wf_length _ _ _ Hwf Hs) as Ls.
  pose proof (wf_length _ _ _ Hwf Ht) as Lt.
  pose proof (wf_length _ _ _ Hwf Ha) as La.
  pose proof (wf_length _ _ _ Hwf Hj) as Lj.
  assert (frame_wf fd) as Hwfd by by apply wf_dates.
  assert (index fd = index f) as Hid by apply index_dates.
  erewrite (bind_ok (handle_missing_values _)); cycle 1.
  { apply handle_missing_values_ok; by rewrite Hfd. }
  set (fm := missing_frame t a j fd).
  assert (frame_wf fm) as Hwfm by (apply wf_missing; congruence).
  assert (index fm = index f) as Him by done.
  rewrite filter_rows_all; [|done|apply keep_mask_all|]; cycle 1.
  { rewrite length_keep_mask, Him. lia. }
  erewrite (bind_raise (create_new_features _)); cycle 1.
  { apply (create_new_features_miss_source _ _ _
             (fillna t (Str "Unknown Title")) (fillna a (Str "")));
      unfold fm, missing_frame; [cols..|].
    rewrite !get_set_ne by done. by rewrite Hfd. }
  eexists. rewrite <- !(app_assoc o), <- !(app_assoc h). done.
Qed.

End CleaningRuns.

(** ** Rows are never dropped *)

Section Rows.
Variable parse_date : value → option (Z * Z * Z).

Lemma index_cleaned s t a j x f :
  index (cleaned parse_date s t a j x f) = index f.
Proof. unfold cleaned, features_frame, missing_frame. simpl. apply index_dates. Qed.

End Rows.

(** C1, at the table [both_absent], whose one row has neither title nor
    abstract: [clean_data] returns a table that still has this row, with
    the placeholder title and the empty abstract, and reports that it
    removed no row.  The columns are filled before the test for missing
    values is made, so the test finds nothing missing. *)
Theorem clean_data_keeps_row_without_title_and_abstract :
  ∃ σ' g,
    run (clean_data iso_date 0) (mkState [both_absent] []) = (Ok 2, σ')
    ∧ heap σ' !! 2 = Some g
    ∧ index g = [0]
    ∧ get_column "title" g = Some [Str "Unknown Title"]
    ∧ get_column "abstract" g = Some [Str ""]
    ∧ RemovedRows 0 ∈ stdout σ'.
Proof.
  eexists _, _. split; [vm_compute; reflexivity|].
  simpl. repeat split. apply list_elem_of_lookup. by exists 5.
Qed.

(** ** Missing columns *)

Lemma first_absent_None f :
  first_absent read_order f = None ↔ ∀ c, c ∈ required_columns → has_column c f.
Proof.
  unfold has_column, required_columns. simpl. split.
  - intros H c Hc.
    destruct (get_column "publish_time" f) eqn:E1; [|done].
    destruct (get_column "title" f) eqn:E2; [|done].
    destruct (get_column "abstract" f) eqn:E3; [|done].
    destruct (get_column "journal" f) eqn:E4; [|done].
    destruct (get_column "source_x" f) eqn:E5; [|done].
    repeat (apply elem_of_cons in Hc as [->|Hc]; [by eexists|]).
    by apply elem_of_nil in Hc.
  - intros H.
    destruct (H "publish_time") as [? ->]; [repeat constructor|].
    destruct (H "title") as [? ->]; [repeat constructor|].
    destruct (H "abstract") as [? ->]; [repeat constructor|].
    destruct (H "journal") as [? ->]; [repeat constructor|].
    destruct (H "source_x") as [? ->]; [repeat constructor|].
    done.
Qed.

Lemma first_absent_Some f c :
  first_absent read_order f = Some c → c ∈ required_columns ∧ ¬ has_column c f.
Proof.
  unfold has_column, required_columns. simpl.
  repeat (match goal with
          | |- context [match get_column ?k f with _ => _ end] =>
              destruct (get_column k f) eqn:?
          end);
    intros [= <-]; (split; [repeat constructor|]);
    intros [? ?]; congruence.
Qed.

(** C2, the claim as worded fails on [no_source]: the table is well
    formed and lacks the required column [source_x]; the run does end
    with the error for that column, but only after the dates were read,
    the missing values filled and the word counts taken on the copy. *)
Lemma no_source_is_processed_before_the_error :
  frame_wf no_source
  ∧ "source_x" ∈ required_columns
  ∧ ¬ has_column "source_x" no_source
  ∧ (∃ σ', run (clean_data iso_date 0) (mkState [no_source] [])
           = (Raise (KeyError "source_x"), σ')
           ∧ RemovedRows 0 ∈ stdout σ')
  ∧ ¬ aborts_before_any_row iso_date no_source.
Proof.
  split; [repeat constructor|].
  split; [repeat constructor|].
  split; [by intros [? ?]|].
  split.
  - eexists. split; [vm_compute; reflexivity|].
    apply list_elem_of_lookup. by exists 5.
  - intros (c & σ' & Hrun & Hsame).
    vm_compute in Hrun. injection Hrun as <- <-.
    specialize (Hsame _ (list_elem_of_further _ _ _ (list_elem_of_here _ _))).
    discriminate Hsame.
Qed.

(** ** The input table and its additional columns *)

(** C9, the claim as worded fails on [clash]: the table is well formed,
    its column [source_type] is not one of the five required columns, and
    the cleaned table holds other values under that name, because
    [create_new_features] assigns the column of that name. *)
Lemma clash_column_is_overwritten :
  frame_wf clash
  ∧ ("source_type" ∉ required_columns)
  ∧ has_column "source_type" clash
  ∧ (∃ σ' g, run (clean_data iso_date 0) (mkState [clash] []) = (Ok 2, σ')
             ∧ heap σ' !! 2 = Some g
             ∧ get_column "source_type" clash = Some [Str "preprint"]
             ∧ get_column "source_type" g = Some [Str "PMC"])
  ∧ ¬ passes_through iso_date clash.
Proof.
  assert ("source_type" ∉ required_columns) as Hnot.
  { intros H. repeat (apply elem_of_cons in H as [H|H]; [discriminate H|]).
    by apply elem_of_nil in H. }
  assert (has_column "source_type" clash) as Hhas by by eexists.
  split; [repeat constructor|].
  split; [done|].
  split; [done|].
  split.
  - eexists _, _. split; [vm_compute; reflexivity|]. by repeat split.
  - intros Hpass.
    assert (get_column "source_type"
              (mkDataFrame [0]
                 [("title", [Str "Covid Study"]);
                  ("abstract", [Str "two  words "]);
                  ("journal", [Str "J"]);
                  ("publish_time", [Timestamp 2020 3 1]);
                  ("source_x", [Str "PMC"]);
                  ("source_type", [Str "PMC"]);
                  ("publication_year", [Int 2020]);
                  ("publication_month", [Int 3]);
                  ("abstract_word_count", [Int 2]);
                  ("title_word_count", [Int 2]);
                  ("has_abstract", [Bool true])])
            = get_column "source_type" clash) as Heq.
    { eapply (Hpass "source_type" 2); [done|done|vm_compute; reflexivity|].
      reflexivity. }
    discriminate Heq.
Qed.

Lemma not_in_required c :
  c ∉ required_columns →
  c ≠ "title" ∧ c ≠ "abstract" ∧ c ≠ "journal" ∧ c ≠ "publish_time"
  ∧ c ≠ "source_x".
Proof.
  unfold required_columns. intros H.
  repeat split; intros ->; apply H; repeat constructor.
Qed.

Lemma not_in_derived c :
  c ∉ derived_columns →
  c ≠ "publication_year" ∧ c ≠ "publication_month"
  ∧ c ≠ "abstract_word_count" ∧ c ≠ "title_word_count"
  ∧ c ≠ "has_abstract" ∧ c ≠ "source_type".
Proof.
  unfold derived_columns. intros H.
  repeat split; intros ->; apply H; repeat constructor.
Qed.

Lemma get_cleaned_other parse_date c s t a j x f :
  c ∉ required_columns → c ∉ derived_columns →
  get_column c (cleaned parse_date s t a j x f) = get_column c f.
Proof.
  intros (?&?&?&?&?)%not_in_required (?&?&?&?&?&?)%not_in_derived.
  unfold cleaned.
  by rewrite get_features_other, get_missing_other, get_dates_other.
Qed.

(** A run of [clean_data] on a valid reference to a table that has its
    columns ends in the state given by [clean_data_ok]; on a table that
    lacks one, in a state that extends the heap. *)
Lemma clean_data_cases parse_date h o r f :
  h !! r = Some f → frame_wf f →
  (∃ s t a j x,
     get_column "publish_time" f = Some s
     ∧ get_column "title" f = Some t
     ∧ get_column "abstract" f = Some a
     ∧ get_column "journal" f = Some j
     ∧ get_column "source_x" f = Some x
     ∧ ∃ log,
         clean_data parse_date r (mkState h o)
         = (Ok (S (length h)),
            mkState (h ++ [missing_frame t a j (dates_frame parse_date s f);
                           cleaned parse_date s t a j x f]) (o ++ log)))
  ∨ (∃ c ext log,
       first_absent read_order f = Some c
       ∧ clean_data parse_date r (mkState h o)
         = (Raise (KeyError c), mkState (h ++ ext) (o ++ log))).
Proof.
  intros Hr Hwf.
  destruct (first_absent read_order f) as [c|] eqn:Hc.
  - right. destruct (clean_data_miss parse_date h o r f c Hr Hc)
      as (ext & log & _ & Hrun). by exists c, ext, log.
  - left. pose proof (proj1 (first_absent_None f) Hc) as Hall.
    destruct (Hall "publish_time") as [s Hs]; [repeat constructor|].
    destruct (Hall "title") as [t Ht]; [repeat constructor|].
    destruct (Hall "abstract") as [a Ha]; [repeat constructor|].
    destruct (Hall "journal") as [j Hj]; [repeat constructor|].
    destruct (Hall "source_x") as [x Hx]; [repeat constructor|].
    exists s, t, a, j, x. repeat split; try done.
    eexists. by apply clean_data_ok.
Qed.

(** C9, as amended: [clean_data] leaves its input table, and every table
    that existed before the call, as it was; and every column of the
    input whose name is neither one of the five required columns nor one
    of the six columns that [clean_data] computes is found in the cleaned
    table with the same values, row for row. *)
Theorem clean_data_input_untouched
    (parse_date : value → option (Z * Z * Z)) h o r f res σ' :
  h !! r = Some f → frame_wf f →
  clean_data parse_date r (mkState h o) = (res, σ') →
  take (length h) (heap σ') = h
  ∧ heap σ' !! r = Some f
  ∧ ∀ r' g, res = Ok r' → heap σ' !! r' = Some g →
      index g = index f
      ∧ ∀ c, c ∉ required_columns → c ∉ derived_columns →
             get_column c g = get_column c f.
Proof.
  intros Hr Hwf Hrun.
  destruct (clean_data_cases parse_date h o r f Hr Hwf)
    as [(s & t & a & j & x & Hs & Ht & Ha & Hj & Hx & log & Hok)
       |(c & ext & log & Hc & Hraise)].
  - rewrite Hok in Hrun. injection Hrun as <- <-. simpl.
    split; [by rewrite take_app_length|].
    split; [by apply lookup_app_l_Some|].
    intros r' g [= <-] Hg.
    rewrite lookup_app_r in Hg by lia.
    replace (S (length h) - length h) with 1 in Hg by lia.
    injection Hg as <-. split; [apply index_cleaned|].
    intros c. apply get_cleaned_other.
  - rewrite Hraise in Hrun. injection Hrun as <- <-. simpl.
    split; [by rewrite take_app_length|].
    split; [by apply lookup_app_l_Some|].
    intros r' g [=].
Qed.

Lemma clean_data_input_untouched_witness :
  take (length [sample]) (heap (run (clean_data iso_date 0) (mkState [sample] [])).2)
  = [sample]
  ∧ heap (run (clean_data iso_date 0) (mkState [sample] [])).2 !! 0 = Some sample
  ∧ ∀ r' g,
      (run (clean_data iso_date 0) (mkState [sample] [])).1 = Ok r' →
      heap (run (clean_data iso_date 0) (mkState [sample] [])).2 !! r' = Some g →
      index g = index sample
      ∧ ∀ c, c ∉ required_columns → c ∉ derived_columns →
             get_column c g = get_column c sample.
Proof.
  apply (clean_data_input_untouched iso_date [sample] [] 0 sample).
  - reflexivity.
  - repeat constructor.
  - unfold run. apply surjective_pairing.
Defined.

(** ** Whitespace: tokens and trimming *)

Module PyFacts.
Import Py.

Lemma rev_app_empty s1 s2 :
  String.rev_app s1 s2 = EmptyString ↔ s1 = EmptyString ∧ s2 = EmptyString.
Proof.
  revert s2. induction s1 as [|c s1 IH]; intros s2; simpl.
  - naive_solver.
  - rewrite IH. naive_solver.
Qed.

Lemma rev_empty s : String.rev s = EmptyString ↔ s = EmptyString.
Proof. unfold String.rev. rewrite rev_app_empty. naive_solver. Qed.

Lemma forall_rev_app p s1 s2 :
  str_forall p (String.rev_app s1 s2) = str_forall p s1 && str_forall p s2.
Proof.
  revert s2. induction s1 as [|c s1 IH]; intros s2; simpl; [done|].
  rewrite IH. simpl. by destruct (p c), (str_forall p s1).
Qed.

Lemma forall_rev p s : str_forall p (String.rev s) = str_forall p s.
Proof. unfold String.rev. rewrite forall_rev_app. simpl. apply andb_true_r. Qed.

Lemma flush_nil cur : flush cur = [] ↔ cur = EmptyString.
Proof. by destruct cur. Qed.

(** A scan yields no run exactly when none is open and the rest holds
    separators only. *)
Lemma runs_go_nil sep cur s :
  runs_go sep cur s = [] ↔ cur = EmptyString ∧ str_forall sep s = true.
Proof.
  revert cur. induction s as [|c s IH]; intros cur; simpl.
  - rewrite flush_nil. naive_solver.
  - destruct (sep c); simpl.
    + rewrite app_nil, flush_nil, IH. naive_solver.
    + rewrite IH. naive_solver.
Qed.

Lemma split_nil s : split s = [] ↔ str_forall isspace s = true.
Proof. unfold split, runs. rewrite runs_go_nil. naive_solver. Qed.

Lemma lstrip_empty s : lstrip s = EmptyString ↔ str_forall isspace s = true.
Proof.
  induction s as [|c s IH]; simpl; [done|].
  destruct (isspace c); simpl; [done|]. naive_solver.
Qed.

Lemma forall_lstrip s :
  str_forall isspace (lstrip s) = true ↔ str_forall isspace s = true.
Proof.
  induction s as [|c s IH]; simpl; [done|].
  destruct (isspace c) eqn:E; simpl; [done|]. by rewrite E.
Qed.

Lemma strip_empty s : strip s = EmptyString ↔ str_forall isspace s = true.
Proof.
  unfold strip, rstrip.
  by rewrite rev_empty, lstrip_empty, forall_rev, forall_lstrip.
Qed.

Lemma str_len_0 s : str_len s = 0 ↔ s = EmptyString.
Proof. by destruct s. Qed.

(** The text has a token exactly when something is left of it after
    trimming. *)
Lemma split_strip s : 0 < length (split s) ↔ 0 < str_len (strip s).
Proof.
  assert (length (split s) = 0 ↔ str_len (strip s) = 0) as H.
  { rewrite length_zero_iff_nil, split_nil, str_len_0, strip_empty. done. }
  lia.
Qed.

End PyFacts.

(** ** The rows of the cleaned table *)

Lemma cell_Some c i f s v :
  get_column c f = Some s → s !! i = Some v → cell c i f = Some v.
Proof. intros Hc Hv. unfold cell. by rewrite Hc. Qed.

Lemma fillna_lookup s v i x :
  v ≠ NaN → s !! i = Some x →
  ∃ y, fillna s v !! i = Some y ∧ y ≠ NaN
       ∧ (x = NaN → y = v) ∧ (x ≠ NaN → y = x).
Proof.
  intros Hv Hx. unfold fillna. rewrite list_lookup_fmap, Hx. simpl.
  eexists. split; [done|]. by destruct x.
Qed.

Lemma nonblank_word_count x b n :
  nonblank x = Bool b → word_count x = Int n → b = true ↔ (0 < n)%Z.
Proof.
  unfold nonblank, word_count. intros [= <-] [= <-].
  rewrite Nat.ltb_lt, <- PyFacts.split_strip. lia.
Qed.

Section CleanedRows.
Variable parse_date : value → option (Z * Z * Z).

Lemma get_cleaned_title s t a j x f :
  get_column "title" (cleaned parse_date s t a j x f)
  = Some (fillna t (Str "Unknown Title")).
Proof. unfold cleaned, features_frame, missing_frame. cols. Qed.

Lemma get_cleaned_abstract s t a j x f :
  get_column "abstract" (cleaned parse_date s t a j x f)
  = Some (fillna a (Str "")).
Proof. unfold cleaned, features_frame, missing_frame. cols. Qed.

Lemma get_cleaned_journal s t a j x f :
  get_column "journal" (cleaned parse_date s t a j x f)
  = Some (fillna j (Str "Unknown Journal")).
Proof. unfold cleaned, features_frame, missing_frame. cols. Qed.

Lemma get_cleaned_has_abstract s t a j x f :
  get_column "has_abstract" (cleaned parse_date s t a j x f)
  = Some (apply (fillna a (Str "")) nonblank).
Proof. unfold cleaned, features_frame. cols. Qed.

Lemma get_cleaned_abstract_word_count s t a j x f :
  get_column "abstract_word_count" (cleaned parse_date s t a j x f)
  = Some (apply (fillna a (Str "")) word_count).
Proof. unfold cleaned, features_frame. cols. Qed.

Lemma get_cleaned_year s t a j x f :
  get_column "publication_year" (cleaned parse_date s t a j x f)
  = Some (filled_years parse_date s).
Proof.
  unfold cleaned, features_frame, missing_frame.
  rewrite !get_set_ne by done. apply get_dates_year.
Qed.

(** Success of [clean_data] on a table that has the required columns, in
    the form the claims use. *)
Lemma clean_data_success h o r f :
  h !! r = Some f → frame_wf f →
  (∀ c, c ∈ required_columns → has_column c f) →
  ∃ s t a j x σ',
    get_column "publish_time" f = Some s
    ∧ get_column "title" f = Some t
    ∧ get_column "abstract" f = Some a
    ∧ get_column "journal" f = Some j
    ∧ get_column "source_x" f = Some x
    ∧ clean_data parse_date r (mkState h o) = (Ok (S (length h)), σ')
    ∧ heap σ' !! S (length h) = Some (cleaned parse_date s t a j x f)
    ∧ take (length h) (heap σ') = h.
Proof.
  intros Hr Hwf Hall.
  destruct (clean_data_cases parse_date h o r f Hr Hwf)
    as [(s & t & a & j & x & Hs & Ht & Ha & Hj & Hx & log & Hok)
       |(c & ext & log & Hc & Hraise)].
  - exists s, t, a, j, x. eexists. repeat split; try done.
    + simpl. rewrite lookup_app_r by lia.
      by replace (S (length h) - length h) with 1 by lia.
    + simpl. by rewrite take_app_length.
  - apply first_absent_Some in Hc as [Hc Hno]. destruct Hno. by apply Hall.
Qed.

End CleanedRows.

(** C8: on a well-formed table that has the required columns,
    [clean_data] returns a table in which, on every row, title and
    abstract are present (the placeholder title where the input had none,
    the empty text where it had no abstract), [has_abstract] tells
    whether the trimmed abstract is non-empty, and [abstract_word_count]
    is the number of whitespace-separated tokens of the abstract. *)
Theorem cleaned_rows_features
    (parse_date : value → option (Z * Z * Z)) h o r f :
  h !! r = Some f → frame_wf f →
  (∀ c, c ∈ required_columns → has_column c f) →
  ∃ r' σ' g,
    clean_data parse_date r (mkState h o) = (Ok r', σ')
    ∧ heap σ' !! r' = Some g
    ∧ ∀ i, i < length (index g) →
        ∃ ti ai,
          cell "title" i g = Some ti ∧ ti ≠ NaN
          ∧ cell "abstract" i g = Some ai ∧ ai ≠ NaN
          ∧ (cell "title" i f = Some NaN → ti = Str "Unknown Title")
          ∧ (cell "abstract" i f = Some NaN → ai = Str "")
          ∧ cell "has_abstract" i g
            = Some (Bool (bool_decide (Py.strip (py_str ai) ≠ "")))
          ∧ cell "abstract_word_count" i g
            = Some (Int (Z.of_nat (length (Py.split (py_str ai))))).
Proof.
  intros Hr Hwf Hall.
  destruct (clean_data_success parse_date h o r f Hr Hwf Hall)
    as (s & t & a & j & x & σ' & Hs & Ht & Ha & Hj & Hx & Hrun & Hg & _).
  eexists _, _, _. split; [exact Hrun|]. split; [exact Hg|].
  rewrite index_cleaned. intros i Hi.
  pose proof (wf_length _ _ _ Hwf Ht) as Lt.
  pose proof (wf_length _ _ _ Hwf Ha) as La.
  destruct (lookup_lt_is_Some_2 t i) as [t0 Ht0]; [lia|].
  destruct (lookup_lt_is_Some_2 a i) as [a0 Ha0]; [lia|].
  destruct (fillna_lookup t (Str "Unknown Title") i t0) as (ti & Hti & ? & ? & ?);
    [done..|].
  destruct (fillna_lookup a (Str "") i a0) as (ai & Hai & ? & ? & ?); [done..|].
  exists ti, ai.
  split; [by eapply cell_Some; [apply get_cleaned_title|]|]. split; [done|].
  split; [by eapply cell_Some; [apply get_cleaned_abstract|]|]. split; [done|].
  split. { unfold cell. rewrite Ht. simpl. rewrite Ht0. naive_solver. }
  split. { unfold cell. rewrite Ha. simpl. rewrite Ha0. naive_solver. }
  split.
  - eapply cell_Some; [apply get_cleaned_has_abstract|].
    unfold apply. rewrite list_lookup_fmap, Hai. simpl. unfold nonblank.
    do 2 f_equal.
    by destruct (Py.strip (py_str ai)).
  - eapply cell_Some; [apply get_cleaned_abstract_word_count|].
    unfold apply. by rewrite list_lookup_fmap, Hai.
Qed.

Lemma cleaned_rows_features_witness :
  ∃ r' σ' g,
    clean_data iso_date 0 (mkState [sample] []) = (Ok r', σ')
    ∧ heap σ' !! r' = Some g
    ∧ ∀ i, i < length (index g) →
        ∃ ti ai,
          cell "title" i g = Some ti ∧ ti ≠ NaN
          ∧ cell "abstract" i g = Some ai ∧ ai ≠ NaN
          ∧ (cell "title" i sample = Some NaN → ti = Str "Unknown Title")
          ∧ (cell "abstract" i sample = Some NaN → ai = Str "")
          ∧ cell "has_abstract" i g
            = Some (Bool (bool_decide (Py.strip (py_str ai) ≠ "")))
          ∧ cell "abstract_word_count" i g
            = Some (Int (Z.of_nat (length (Py.split (py_str ai))))).
Proof.
  apply (cleaned_rows_features iso_date [sample] [] 0 sample).
  - reflexivity.
  - repeat constructor.
  - intros c Hc.
    repeat (apply elem_of_cons in Hc as [->|Hc]; [by eexists|]).
    by apply elem_of_nil in Hc.
Defined.

(** ** The flag and the count agree *)

Lemma app_clean_data_ok parse_date h o r f s t a j :
  h !! r = Some f →
  get_column "publish_time" f = Some s →
  get_column "title" f = Some t →
  get_column "abstract" f = Some a →
  get_column "journal" f = Some j →
  app_clean_data parse_date r (mkState h o)
  = (Ok (length h), mkState (h ++ [app_cleaned parse_date s t a j f]) o).
Proof.
  intros Hr Hs Ht Ha Hj. unfold app_clean_data.
  rewrite (bind_ok _ _ _ _ _ (copy_run _ _ _ _ Hr)). by repeat step.
Qed.

Lemma flag_count_agree (a : Series) i :
  i < length a →
  ∃ b n,
    apply (fillna a (Str "")) nonblank !! i = Some (Bool b)
    ∧ apply (fillna a (Str "")) word_count !! i = Some (Int n)
    ∧ (b = true ↔ (0 < n)%Z).
Proof.
  intros Hi. destruct (lookup_lt_is_Some_2 a i) as [a0 Ha0]; [done|].
  destruct (fillna_lookup a (Str "") i a0) as (ai & Hai & _); [done..|].
  unfold apply. rewrite !list_lookup_fmap, Hai. simpl.
  eexists _, _. split; [done|]. split; [done|].
  by eapply nonblank_word_count.
Qed.

(** C10: in the table returned by [clean_data], and in the one returned
    by the dashboard's cleaning step, on every row [has_abstract] is true
    exactly when [abstract_word_count] is positive. *)
Theorem has_abstract_iff_positive_word_count
    (parse_date : value → option (Z * Z * Z)) h o r f :
  h !! r = Some f → frame_wf f →
  (∀ c, c ∈ required_columns → has_column c f) →
  (∃ r' σ' g,
     clean_data parse_date r (mkState h o) = (Ok r', σ')
     ∧ heap σ' !! r' = Some g
     ∧ ∀ i, i < length (index g) →
         ∃ b n,
           cell "has_abstract" i g = Some (Bool b)
           ∧ cell "abstract_word_count" i g = Some (Int n)
           ∧ (b = true ↔ (0 < n)%Z))
  ∧ (∃ r' σ' g,
       app_clean_data parse_date r (mkState h o) = (Ok r', σ')
       ∧ heap σ' !! r' = Some g
       ∧ ∀ i, i < length (index g) →
           ∃ b n,
             cell "has_abstract" i g = Some (Bool b)
             ∧ cell "abstract_word_count" i g = Some (Int n)
             ∧ (b = true ↔ (0 < n)%Z)).
Proof.
  intros Hr Hwf Hall.
  destruct (clean_data_success parse_date h o r f Hr Hwf Hall)
    as (s & t & a & j & x & σ' & Hs & Ht & Ha & Hj & Hx & Hrun & Hg & _).
  pose proof (wf_length _ _ _ Hwf Ha) as La.
  split.
  - eexists _, _, _. split; [exact Hrun|]. split; [exact Hg|].
    rewrite index_cleaned. intros i Hi.
    destruct (flag_count_agree a i) as (b & n & Hb & Hn & Hbn); [lia|].
    exists b, n. split; [|split; [|done]].
    + by eapply cell_Some; [apply get_cleaned_has_abstract|].
    + by eapply cell_Some; [apply get_cleaned_abstract_word_count|].
  - eexists _, _, _.
    split; [by apply (app_clean_data_ok parse_date h o r f s t a j)|].
    split; [apply last_lookup|].
    intros i Hi. change (index (app_cleaned parse_date s t a j f)) with (index f) in Hi.
    destruct (flag_count_agree a i) as (b & n & Hb & Hn & Hbn); [lia|].
    exists b, n. split; [|split; [|done]].
    + eapply cell_Some; [|exact Hb]. unfold app_cleaned. cols.
    + eapply cell_Some; [|exact Hn]. unfold app_cleaned. cols.
Qed.

Lemma has_abstract_iff_positive_word_count_witness :
  (∃ r' σ' g,
     clean_data iso_date 0 (mkState [sample] []) = (Ok r', σ')
     ∧ heap σ' !! r' = Some g
     ∧ ∀ i, i < length (index g) →
         ∃ b n,
           cell "has_abstract" i g = Some (Bool b)
           ∧ cell "abstract_word_count" i g = Some (Int n)
           ∧ (b = true ↔ (0 < n)%Z))
  ∧ (∃ r' σ' g,
       app_clean_data iso_date 0 (mkState [sample] []) = (Ok r', σ')
       ∧ heap σ' !! r' = Some g
       ∧ ∀ i, i < length (index g) →
           ∃ b n,
             cell "has_abstract" i g = Some (Bool b)
             ∧ cell "abstract_word_count" i g = Some (Int n)
             ∧ (b = true ↔ (0 < n)%Z)).
Proof.
  apply (has_abstract_iff_positive_word_count iso_date [sample] [] 0 sample).
  - reflexivity.
  - repeat constructor.
  - intros c Hc.
    repeat (apply elem_of_cons in Hc as [->|Hc]; [by eexists|]).
    by apply elem_of_nil in Hc.
Defined.

(** ** The mode of a column *)

Lemma count_of_not_in y l : y ∉ l → count_of y l = 0.
Proof.
  intros Hy. unfold count_of. apply length_zero_iff_nil.
  induction l as [|z l IH]; [done|].
  apply not_elem_of_cons in Hy as [Hne Hy].
  rewrite filter_cons_False by congruence. auto.
Qed.

Lemma count_le_fold (l l' : list Z) y :
  y ∈ l' → count_of y l ≤ foldr (λ z acc, Nat.max (count_of z l) acc) 0 l'.
Proof.
  induction l' as [|z l' IH]; simpl.
  - by intros ?%elem_of_nil.
  - intros [->|Hy]%elem_of_cons; [lia|]. specialize (IH Hy). lia.
Qed.

Lemma count_le_max y l : count_of y l ≤ max_count l.
Proof.
  destruct (decide (y ∈ l)) as [Hy|Hy].
  - by apply count_le_fold.
  - rewrite count_of_not_in by done. lia.
Qed.

Lemma fold_max_attained (l l' : list Z) :
  l' ≠ [] →
  ∃ y, y ∈ l' ∧ count_of y l = foldr (λ z acc, Nat.max (count_of z l) acc) 0 l'.
Proof.
  induction l' as [|z l' IH]; [done|]. intros _. simpl.
  destruct l' as [|z' l''].
  - exists z. split; [left|]. simpl. lia.
  - destruct IH as (y & Hy & Hc); [done|].
    destruct (Nat.max_spec (count_of z l)
                (foldr (λ z0 acc, Nat.max (count_of z0 l) acc) 0 (z' :: l'')))
      as [[? ->]|[? ->]].
    + exists y. split; [by right|done].
    + exists z. split; [left|done].
Qed.

Lemma insert_asc_perm y l : insert_asc y l ≡ₚ y :: l.
Proof.
  induction l as [|z l IH]; simpl; [done|].
  destruct (y <=? z)%Z; [done|]. rewrite IH. apply Permutation_swap.
Qed.

Lemma sort_asc_perm l : sort_asc l ≡ₚ l.
Proof.
  induction l as [|y l IH]; simpl; [done|].
  unfold sort_asc in *. simpl. by rewrite insert_asc_perm, IH.
Qed.

Lemma insert_asc_sorted y l :
  StronglySorted Z.le l → StronglySorted Z.le (insert_asc y l).
Proof.
  induction 1 as [|z l Hl IH Hz]; simpl.
  - repeat constructor.
  - destruct (y <=? z)%Z eqn:E.
    + apply Z.leb_le in E. constructor; [by constructor|].
      constructor; [done|]. eapply Forall_impl; [exact Hz|]. simpl. lia.
    + apply Z.leb_gt in E. constructor; [done|].
      rewrite insert_asc_perm. constructor; [lia|done].
Qed.

Lemma sort_asc_sorted l : StronglySorted Z.le (sort_asc l).
Proof.
  induction l as [|y l IH]; simpl; [constructor|]. by apply insert_asc_sorted.
Qed.

(** The first mode of a column is one of its most frequent values, and
    the smallest of them; there is none only when no value is present. *)
Lemma mode_head s m rest :
  mode s = m :: rest →
  most_frequent m (ints s) ∧ ∀ y, most_frequent y (ints s) → (m ≤ y)%Z.
Proof.
  unfold mode. set (l := ints s). intros Hm.
  pose proof (sort_asc_perm
    (remove_dups (filter (λ y, count_of y l = max_count l) l))) as Hperm.
  pose proof (sort_asc_sorted
    (remove_dups (filter (λ y, count_of y l = max_count l) l))) as Hsorted.
  rewrite Hm in Hperm, Hsorted.
  assert (∀ y, y ∈ m :: rest ↔ y ∈ l ∧ count_of y l = max_count l) as Hin.
  { intros y. rewrite Hperm, elem_of_remove_dups, list_elem_of_filter. tauto. }
  destruct (proj1 (Hin m)) as [Hml Hmc]; [left|].
  split.
  - split; [done|]. intros y. rewrite Hmc. apply count_le_max.
  - intros y [Hy Hmax].
    assert (y ∈ m :: rest) as [->|Hrest]%elem_of_cons; [|lia|].
    + apply Hin. split; [done|].
      pose proof (count_le_max y l). specialize (Hmax m). lia.
    + apply StronglySorted_inv in Hsorted as [_ Hall].
      rewrite Forall_forall in Hall. by apply Hall.
Qed.

Lemma mode_nil s : mode s = [] → ints s = [].
Proof.
  unfold mode. set (l := ints s). intros Hm.
  destruct (decide (l = [])) as [|Hne]; [done|]. exfalso.
  destruct (fold_max_attained l l Hne) as (y & Hy & Hc).
  assert (y ∈ sort_asc (remove_dups (filter (λ y, count_of y l = max_count l) l)))
    as Hin.
  { rewrite sort_asc_perm, elem_of_remove_dups, list_elem_of_filter. done. }
  rewrite Hm in Hin. by apply elem_of_nil in Hin.
Qed.

(** ** Years of the rows without a readable date *)

Section Years.
Variable parse_date : value → option (Z * Z * Z).

Lemma ints_years s : ints (years parse_date s) = batch_years parse_date s.
Proof.
  unfold ints, years, dt_year, to_datetime, batch_years.
  induction s as [|v s IH]; [done|]. csimpl. rewrite IH.
  by destruct (to_datetime1 parse_date v).
Qed.

Lemma years_lookup s i v :
  s !! i = Some v →
  years parse_date s !! i
  = Some (match to_datetime1 parse_date v with
          | Timestamp y _ _ => Int y
          | _ => NaN
          end).
Proof.
  intros Hv. unfold years, dt_year, to_datetime.
  by rewrite !list_lookup_fmap, Hv.
Qed.

Lemma filled_years_lookup s i v :
  s !! i = Some v →
  filled_years parse_date s !! i
  = Some (match to_datetime1 parse_date v, mode (years parse_date s) with
          | Timestamp y _ _, _ => Int y
          | _, m :: _ => Int m
          | _, [] => NaN
          end).
Proof.
  intros Hv. unfold filled_years.
  destruct (mode (years parse_date s)) as [|m rest].
  - rewrite (years_lookup _ _ _ Hv). by destruct (to_datetime1 parse_date v).
  - unfold fillna. rewrite list_lookup_fmap, (years_lookup _ _ _ Hv). simpl.
    by destruct (to_datetime1 parse_date v).
Qed.

Lemma to_datetime1_cases v :
  to_datetime1 parse_date v = NaN
  ∨ ∃ y m d, to_datetime1 parse_date v = Timestamp y m d.
Proof.
  unfold to_datetime1.
  destruct v; eauto; destruct (parse_date _) as [[[y m] d]|]; eauto.
Qed.

End Years.

(** C3: on a well-formed table that has the required columns,
    [clean_data] raises no error and returns a table with the rows of
    the input in which a row whose [publish_time] was missing or
    unreadable has for [publication_year] the most frequent year among
    the rows that have a readable date (the smallest one when several
    years are equally frequent), a row with a readable date has the year
    of that date, and, when no row has a readable date,
    [publication_year] is missing on every row. *)
Theorem unreadable_dates_get_the_mode_year
    (parse_date : value → option (Z * Z * Z)) h o r f :
  h !! r = Some f → frame_wf f →
  (∀ c, c ∈ required_columns → has_column c f) →
  ∃ r' σ' g s,
    clean_data parse_date r (mkState h o) = (Ok r', σ')
    ∧ heap σ' !! r' = Some g
    ∧ index g = index f
    ∧ get_column "publish_time" f = Some s
    ∧ (∀ i v, s !! i = Some v → to_datetime1 parse_date v = NaN →
         batch_years parse_date s ≠ [] →
         ∃ m, cell "publication_year" i g = Some (Int m)
              ∧ most_frequent m (batch_years parse_date s)
              ∧ ∀ y, most_frequent y (batch_years parse_date s) → (m ≤ y)%Z)
    ∧ (∀ i v y mo d, s !! i = Some v →
         to_datetime1 parse_date v = Timestamp y mo d →
         cell "publication_year" i g = Some (Int y))
    ∧ (batch_years parse_date s = [] →
         ∀ i, i < length (index g) → cell "publication_year" i g = Some NaN).
Proof.
  intros Hr Hwf Hall.
  destruct (clean_data_success parse_date h o r f Hr Hwf Hall)
    as (s & t & a & j & x & σ' & Hs & Ht & Ha & Hj & Hx & Hrun & Hg & _).
  exists (S (length h)), σ', (cleaned parse_date s t a j x f), s.
  split; [done|]. split; [done|]. split; [apply index_cleaned|].
  split; [done|].
  pose proof (get_cleaned_year parse_date s t a j x f) as Hy.
  split; [|split].
  - intros i v Hv Hnat Hne.
    destruct (mode (years parse_date s)) as [|m rest] eqn:Hmode.
    { apply mode_nil in Hmode. rewrite ints_years in Hmode. done. }
    exists m. split.
    + eapply cell_Some; [exact Hy|].
      rewrite (filled_years_lookup _ _ _ _ Hv), Hnat, Hmode. done.
    + rewrite <- ints_years. by eapply mode_head.
  - intros i v y mo d Hv Hts.
    eapply cell_Some; [exact Hy|].
    rewrite (filled_years_lookup _ _ _ _ Hv), Hts. done.
  - intros Hnone i Hi. rewrite index_cleaned in Hi.
    pose proof (wf_length _ _ _ Hwf Hs) as Ls.
    destruct (lookup_lt_is_Some_2 s i) as [v Hv]; [lia|].
    eapply cell_Some; [exact Hy|].
    rewrite (filled_years_lookup _ _ _ _ Hv).
    destruct (to_datetime1_cases parse_date v) as [->|(y & mo & d & Hts)].
    + destruct (mode (years parse_date s)) as [|m rest] eqn:Hmode; [done|].
      apply mode_head in Hmode as [[Hin _] _].
      rewrite ints_years, Hnone in Hin. by apply elem_of_nil in Hin.
    + exfalso.
      assert (y ∈ batch_years parse_date s) as Hin.
      { unfold batch_years. apply list_elem_of_omap. exists v.
        split; [by eapply list_elem_of_lookup_2|]. by rewrite Hts. }
      rewrite Hnone in Hin. by apply elem_of_nil in Hin.
Qed.

Lemma unreadable_dates_get_the_mode_year_witness :
  ∃ r' σ' g s,
    clean_data iso_date 0 (mkState [sample] []) = (Ok r', σ')
    ∧ heap σ' !! r' = Some g
    ∧ index g = index sample
    ∧ get_column "publish_time" sample = Some s
    ∧ (∀ i v, s !! i = Some v → to_datetime1 iso_date v = NaN →
         batch_years iso_date s ≠ [] →
         ∃ m, cell "publication_year" i g = Some (Int m)
              ∧ most_frequent m (batch_years iso_date s)
              ∧ ∀ y, most_frequent y (batch_years iso_date s) → (m ≤ y)%Z)
    ∧ (∀ i v y mo d, s !! i = Some v →
         to_datetime1 iso_date v = Timestamp y mo d →
         cell "publication_year" i g = Some (Int y))
    ∧ (batch_years iso_date s = [] →
         ∀ i, i < length (index g) → cell "publication_year" i g = Some NaN).
Proof.
  apply (unreadable_dates_get_the_mode_year iso_date [sample] [] 0 sample).
  - reflexivity.
  - repeat constructor.
  - intros c Hc.
    repeat (apply elem_of_cons in Hc as [->|Hc]; [by eexists|]).
    by apply elem_of_nil in Hc.
Defined.

(** ** Cleaning a cleaned table *)

Lemma fillna_fillna s v : v ≠ NaN → fillna (fillna s v) v = fillna s v.
Proof.
  intros Hv. unfold fillna. rewrite <- list_fmap_compose.
  apply list_fmap_ext. intros i x _. simpl.
  destruct x; simpl; try done. by destruct v.
Qed.

Section Idempotence.
Variable parse_date : value → option (Z * Z * Z).

Lemma to_datetime1_idemp v :
  to_datetime1 parse_date (to_datetime1 parse_date v) = to_datetime1 parse_date v.
Proof.
  destruct v; simpl; try done; by destruct (parse_date _) as [[[y m] d]|].
Qed.

Lemma to_datetime_idemp s :
  to_datetime parse_date (to_datetime parse_date s) = to_datetime parse_date s.
Proof.
  unfold to_datetime. rewrite <- list_fmap_compose.
  apply list_fmap_ext. intros i v _. apply to_datetime1_idemp.
Qed.

Lemma years_to_datetime s :
  years parse_date (to_datetime parse_date s) = years parse_date s.
Proof. unfold years. by rewrite to_datetime_idemp. Qed.

Lemma get_cleaned_publish s t a j x f :
  get_column "publish_time" (cleaned parse_date s t a j x f)
  = Some (to_datetime parse_date s).
Proof.
  unfold cleaned, features_frame, missing_frame.
  rewrite !get_set_ne by done. apply get_dates_publish.
Qed.

Lemma get_cleaned_month s t a j x f :
  get_column "publication_month" (cleaned parse_date s t a j x f)
  = Some (dt_month (to_datetime parse_date s)).
Proof.
  unfold cleaned, features_frame, missing_frame.
  rewrite !get_set_ne by done. apply get_dates_month.
Qed.

Lemma get_cleaned_title_word_count s t a j x f :
  get_column "title_word_count" (cleaned parse_date s t a j x f)
  = Some (apply (fillna t (Str "Unknown Title")) word_count).
Proof. unfold cleaned, features_frame. cols. Qed.

Lemma get_cleaned_source_type s t a j x f :
  get_column "source_type" (cleaned parse_date s t a j x f)
  = Some (fillna x (Str "Unknown")).
Proof. unfold cleaned, features_frame. cols. Qed.

Lemma get_cleaned_source s t a j x f :
  get_column "source_x" f = Some x →
  get_column "source_x" (cleaned parse_date s t a j x f) = Some x.
Proof.
  intros Hx. unfold cleaned, features_frame, missing_frame.
  rewrite !get_set_ne by done. by rewrite get_dates_other.
Qed.

Lemma wf_cleaned s t a j x f :
  frame_wf f →
  length s = length (index f) → length t = length (index f) →
  length a = length (index f) → length j = length (index f) →
  length x = length (index f) →
  frame_wf (cleaned parse_date s t a j x f).
Proof.
  intros Hwf Ls Lt La Lj Lx. unfold cleaned, features_frame.
  assert (frame_wf (missing_frame t a j (dates_frame parse_date s f))) as Hm.
  { apply wf_missing; rewrite ?index_dates; try done. by apply wf_dates. }
  assert (index (missing_frame t a j (dates_frame parse_date s f)) = index f)
    as Hi by apply index_dates.
  repeat apply wf_set; try done; try (by apply wf_dates); simpl; unfold apply;
    rewrite ?length_fmap, ?length_fillna, ?index_dates; done.
Qed.

(** The frame built from a cleaned frame is that frame. *)
Lemma cleaned_fixpoint s t a j x f :
  get_column "source_x" f = Some x →
  let g := cleaned parse_date s t a j x f in
  cleaned parse_date (to_datetime parse_date s)
    (fillna t (Str "Unknown Title")) (fillna a (Str ""))
    (fillna j (Str "Unknown Journal")) x g
  = g.
Proof.
  intros Hx g.
  assert (dates_frame parse_date (to_datetime parse_date s) g = g) as Hd.
  { unfold dates_frame. rewrite to_datetime_idemp, years_to_datetime.
    rewrite (set_id "publish_time") by apply get_cleaned_publish.
    pose proof (get_cleaned_year parse_date s t a j x f) as Hy. fold g in Hy.
    unfold filled_years in Hy.
    destruct (mode (years parse_date s)) as [|m rest].
    - rewrite (set_id "publication_year") by done.
      by rewrite (set_id "publication_month") by apply get_cleaned_month.
    - rewrite (set_id "publication_month"); cycle 1.
      { rewrite get_set_ne by done. apply get_cleaned_month. }
      rewrite set_set. by rewrite set_id. }
  unfold cleaned at 1. rewrite Hd.
  assert (missing_frame (fillna t (Str "Unknown Title")) (fillna a (Str ""))
            (fillna j (Str "Unknown Journal")) g = g) as Hm.
  { unfold missing_frame. rewrite !fillna_fillna by done.
    rewrite (set_id "title") by apply get_cleaned_title.
    rewrite (set_id "abstract") by apply get_cleaned_abstract.
    by rewrite (set_id "journal") by apply get_cleaned_journal. }
  rewrite Hm. unfold features_frame. rewrite !fillna_fillna by done.
  rewrite (set_id "abstract_word_count") by apply get_cleaned_abstract_word_count.
  rewrite (set_id "title_word_count") by apply get_cleaned_title_word_count.
  rewrite (set_id "has_abstract") by apply get_cleaned_has_abstract.
  by rewrite (set_id "source_type") by apply get_cleaned_source_type.
Qed.

End Idempotence.

(** C2, as amended: when a required column is absent, [clean_data] ends
    with the missing-column error, a [KeyError] that names the first
    absent column in the order in which the steps read them, and every
    table that existed before the call, the input among them, is as it
    was.  The error comes from the step that reads the absent column,
    after the steps before it have run over the rows of the private copy:
    the tables left behind are that copy with the dates read, the years
    filled and the missing values replaced as far as the run went, and,
    when the absent column is [source_x], the table of the rows kept with
    its word counts and its flag ([work_before]).  When all required
    columns are there, whatever the cells hold, [clean_data] returns a
    table with the rows of the input in which malformed values have
    given way to defaults: [publish_time] is a date or is missing, and a
    missing title, abstract, journal or source has become "Unknown
    Title", the empty text, "Unknown Journal" and, in [source_type],
    "Unknown". *)
Theorem clean_data_missing_column
    (parse_date : value → option (Z * Z * Z)) h o r f :
  h !! r = Some f → frame_wf f →
  ((∃ c, c ∈ required_columns ∧ ¬ has_column c f) →
     ∃ c σ',
       first_absent read_order f = Some c
       ∧ c ∈ required_columns ∧ ¬ has_column c f
       ∧ clean_data parse_date r (mkState h o) = (Raise (KeyError c), σ')
       ∧ take (length h) (heap σ') = h
       ∧ heap σ' = h ++ work_before parse_date f)
  ∧ ((∀ c, c ∈ required_columns → has_column c f) →
     ∃ r' σ' g,
       clean_data parse_date r (mkState h o) = (Ok r', σ')
       ∧ heap σ' !! r' = Some g
       ∧ index g = index f
       ∧ ∀ i, i < length (index g) →
           ∃ p t a j st,
             cell "publish_time" i g = Some p
             ∧ (p = NaN ∨ ∃ y m d, p = Timestamp y m d)
             ∧ cell "title" i g = Some t ∧ t ≠ NaN
             ∧ (cell "title" i f = Some NaN → t = Str "Unknown Title")
             ∧ cell "abstract" i g = Some a ∧ a ≠ NaN
             ∧ (cell "abstract" i f = Some NaN → a = Str "")
             ∧ cell "journal" i g = Some j ∧ j ≠ NaN
             ∧ (cell "journal" i f = Some NaN → j = Str "Unknown Journal")
             ∧ cell "source_type" i g = Some st ∧ st ≠ NaN
             ∧ (cell "source_x" i f = Some NaN → st = Str "Unknown")).
Proof.
  intros Hr Hwf. split.
  - intros (c0 & Hc0 & Hno).
    destruct (first_absent read_order f) as [c|] eqn:Hc.
    + destruct (clean_data_miss_work parse_date h o r f c Hr Hwf Hc)
        as (log & Hrun).
      destruct (first_absent_Some _ _ Hc) as [? ?].
      exists c, (mkState (h ++ work_before parse_date f) (o ++ log)).
      repeat split; try done.
      simpl. by rewrite take_app_length.
    + exfalso. apply Hno. by apply first_absent_None.
  - intros Hall.
    destruct (clean_data_success parse_date h o r f Hr Hwf Hall)
      as (s & t & a & j & x & σ' & Hs & Ht & Ha & Hj & Hx & Hrun & Hg & _).
    exists (S (length h)), σ', (cleaned parse_date s t a j x f).
    split; [done|]. split; [done|]. split; [apply index_cleaned|].
    rewrite index_cleaned. intros i Hi.
    pose proof (wf_length _ _ _ Hwf Hs) as Ls.
    pose proof (wf_length _ _ _ Hwf Ht) as Lt.
    pose proof (wf_length _ _ _ Hwf Ha) as La.
    pose proof (wf_length _ _ _ Hwf Hj) as Lj.
    pose proof (wf_length _ _ _ Hwf Hx) as Lx.
    destruct (lookup_lt_is_Some_2 s i) as [s0 Hs0]; [lia|].
    destruct (lookup_lt_is_Some_2 t i) as [t0 Ht0]; [lia|].
    destruct (lookup_lt_is_Some_2 a i) as [a0 Ha0]; [lia|].
    destruct (lookup_lt_is_Some_2 j i) as [j0 Hj0]; [lia|].
    destruct (lookup_lt_is_Some_2 x i) as [x0 Hx0]; [lia|].
    destruct (fillna_lookup t (Str "Unknown Title") i t0)
      as (ti & Hti & ? & Htd & _); [done..|].
    destruct (fillna_lookup a (Str "") i a0)
      as (ai & Hai & ? & Had & _); [done..|].
    destruct (fillna_lookup j (Str "Unknown Journal") i j0)
      as (ji & Hji & ? & Hjd & _); [done..|].
    destruct (fillna_lookup x (Str "Unknown") i x0)
      as (si & Hsi & ? & Hxd & _); [done..|].
    exists (to_datetime1 parse_date s0), ti, ai, ji, si.
    split.
    { eapply cell_Some; [apply get_cleaned_publish|].
      unfold to_datetime. by rewrite list_lookup_fmap, Hs0. }
    split; [apply to_datetime1_cases|].
    split; [by eapply cell_Some; [apply get_cleaned_title|]|].
    split; [done|]. split.
    { rewrite (cell_Some _ _ _ _ _ Ht Ht0). intros [= ->]. by apply Htd. }
    split; [by eapply cell_Some; [apply get_cleaned_abstract|]|].
    split; [done|]. split.
    { rewrite (cell_Some _ _ _ _ _ Ha Ha0). intros [= ->]. by apply Had. }
    split; [by eapply cell_Some; [apply get_cleaned_journal|]|].
    split; [done|]. split.
    { rewrite (cell_Some _ _ _ _ _ Hj Hj0). intros [= ->]. by apply Hjd. }
    split; [by eapply cell_Some; [apply get_cleaned_source_type|]|].
    split; [done|].
    rewrite (cell_Some _ _ _ _ _ Hx Hx0). intros [= ->]. by apply Hxd.
Qed.

Lemma clean_data_missing_column_witness :
  (∃ σ',
     clean_data iso_date 0 (mkState [no_source] [])
     = (Raise (KeyError "source_x"), σ')
     ∧ take (length [no_source]) (heap σ') = [no_source]
     ∧ heap σ' = [no_source] ++ work_before iso_date no_source)
  ∧ (∃ r' σ' g,
       clean_data iso_date 0 (mkState [sample] []) = (Ok r', σ')
       ∧ heap σ' !! r' = Some g
       ∧ index g = index sample
       ∧ ∀ i, i < length (index g) →
           ∃ p t a j st,
             cell "publish_time" i g = Some p
             ∧ (p = NaN ∨ ∃ y m d, p = Timestamp y m d)
             ∧ cell "title" i g = Some t ∧ t ≠ NaN
             ∧ (cell "title" i sample = Some NaN → t = Str "Unknown Title")
             ∧ cell "abstract" i g = Some a ∧ a ≠ NaN
             ∧ (cell "abstract" i sample = Some NaN → a = Str "")
             ∧ cell "journal" i g = Some j ∧ j ≠ NaN
             ∧ (cell "journal" i sample = Some NaN → j = Str "Unknown Journal")
             ∧ cell "source_type" i g = Some st ∧ st ≠ NaN
             ∧ (cell "source_x" i sample = Some NaN → st = Str "Unknown")).
Proof.
  split.
  - destruct (clean_data_missing_column iso_date [no_source] [] 0 no_source)
      as [Hmiss _]; [reflexivity|repeat constructor|].
    destruct Hmiss as (c & σ' & Hc & _ & _ & Hrun & Htake & Hheap).
    + exists "source_x". split; [repeat constructor|]. intros [? Hx].
      discriminate Hx.
    + injection Hc as <-. by exists σ'.
  - destruct (clean_data_missing_column iso_date [sample] [] 0 sample)
      as [_ Hok]; [reflexivity|repeat constructor|].
    apply Hok. intros c Hc.
    repeat (apply elem_of_cons in Hc as [->|Hc]; [by eexists|]).
    by apply elem_of_nil in Hc.
Defined.

(** C7: when [clean_data] has returned a table [g] for a well-formed
    input, [clean_data] applied to [g] returns a table equal to [g]:
    same index, same columns in the same order, same cells. *)
Theorem clean_data_idempotent
    (parse_date : value → option (Z * Z * Z)) h o r f r1 σ1 g :
  h !! r = Some f → frame_wf f →
  clean_data parse_date r (mkState h o) = (Ok r1, σ1) →
  heap σ1 !! r1 = Some g →
  ∃ r2 σ2,
    clean_data parse_date r1 σ1 = (Ok r2, σ2)
    ∧ heap σ2 !! r2 = Some g
    ∧ heap σ2 !! r1 = Some g.
Proof.
  intros Hr Hwf Hrun Hg.
  destruct (clean_data_cases parse_date h o r f Hr Hwf)
    as [(s & t & a & j & x & Hs & Ht & Ha & Hj & Hx & log & Hok)
       |(c & ext & log & Hc & Hraise)]; cycle 1.
  { rewrite Hraise in Hrun. discriminate Hrun. }
  rewrite Hok in Hrun. injection Hrun as <- <-. simpl in Hg.
  rewrite lookup_app_r in Hg by lia.
  replace (S (length h) - length h) with 1 in Hg by lia.
  injection Hg as <-.
  set (g := cleaned parse_date s t a j x f).
  set (h1 := h ++ [missing_frame t a j (dates_frame parse_date s f); g]).
  assert (h1 !! S (length h) = Some g) as Hg.
  { unfold h1. rewrite lookup_app_r by lia.
    by replace (S (length h) - length h) with 1 by lia. }
  assert (frame_wf g) as Hwfg.
  { apply wf_cleaned; try done; by eapply wf_length. }
  pose proof (clean_data_ok parse_date h1 (o ++ log) (S (length h)) g
                (to_datetime parse_date s)
                (fillna t (Str "Unknown Title")) (fillna a (Str ""))
                (fillna j (Str "Unknown Journal")) x Hg Hwfg
                (get_cleaned_publish _ _ _ _ _ _ _)
                (get_cleaned_title _ _ _ _ _ _ _)
                (get_cleaned_abstract _ _ _ _ _ _ _)
                (get_cleaned_journal _ _ _ _ _ _ _)
                (get_cleaned_source _ _ _ _ _ _ _ Hx)) as Hrun2.
  pose proof (cleaned_fixpoint parse_date s t a j x f Hx) as Hfix.
  simpl in Hfix. fold g in Hfix. rewrite Hfix in Hrun2.
  eexists _, _. split; [exact Hrun2|]. simpl. split.
  - rewrite lookup_app_r by lia.
    by replace (S (length h1) - length h1) with 1 by lia.
  - apply lookup_app_l_Some. exact Hg.
Qed.

Lemma clean_data_idempotent_witness :
  ∃ r2 σ2,
    clean_data iso_date 2
      (run (clean_data iso_date 0) (mkState [sample] [])).2 = (Ok r2, σ2)
    ∧ heap σ2 !! r2
      = Some (cleaned iso_date
                [Str "2020-03-01"; Str "not-a-date"; Str "2021-01-05"]
                [Str "Covid Study"; NaN; NaN]
                [Str "two  words "; NaN; Str "   "]
                [NaN; Str "J"; Str "J"]
                [Str "PMC"; NaN; Str "WHO"] sample)
    ∧ heap σ2 !! 2
      = Some (cleaned iso_date
                [Str "2020-03-01"; Str "not-a-date"; Str "2021-01-05"]
                [Str "Covid Study"; NaN; NaN]
                [Str "two  words "; NaN; Str "   "]
                [NaN; Str "J"; Str "J"]
                [Str "PMC"; NaN; Str "WHO"] sample).
Proof.
  apply (clean_data_idempotent iso_date [sample] [] 0 sample).
  - reflexivity.
  - repeat constructor.
  - vm_compute. reflexivity.
  - vm_compute. reflexivity.
Defined.

(** ** Counting and ranking *)

Lemma StronglySorted_weaken {A} (R1 R2 : relation A) (l : list A) :
  StronglySorted R1 l →
  (∀ a b, a ∈ l → b ∈ l → R1 a b → R2 a b) →
  StronglySorted R2 l.
Proof.
  induction 1 as [|x l Hl IH Hx]; intros Himp; constructor.
  - apply IH. intros a b Ha Hb. apply Himp; by right.
  - rewrite Forall_forall in Hx. apply Forall_forall. intros y Hy.
    apply Himp; [left|by right|by apply Hx].
Qed.

Section CountingFacts.
Context {K : Type} `{EqDecision K}.
Implicit Types (k : K) (l : list K) (c : list (K * nat)).

Lemma count_snoc k k' l :
  count k' (l ++ [k]) = if decide (k = k') then S (count k' l) else count k' l.
Proof.
  unfold count. rewrite filter_app, length_app.
  destruct (decide (k = k')) as [->|Hne].
  - rewrite (filter_cons_True _ k' []) by done. simpl. lia.
  - rewrite (filter_cons_False _ k []) by done. simpl. lia.
Qed.

Lemma count_0 k l : k ∉ l → count k l = 0.
Proof.
  intros Hk. unfold count. apply length_zero_iff_nil.
  induction l as [|x l IH]; [done|].
  apply not_elem_of_cons in Hk as [Hne Hk].
  rewrite filter_cons_False by congruence. auto.
Qed.

Lemma count_pos k l : k ∈ l → 0 < count k l.
Proof.
  intros Hk. unfold count.
  assert (k ∈ filter (λ x, x = k) l) as Hin by by apply list_elem_of_filter.
  destruct (filter (λ x, x = k) l); [by apply elem_of_nil in Hin|simpl; lia].
Qed.

Lemma nub_snoc l k :
  nub (l ++ [k]) = if decide (k ∈ nub l) then nub l else nub l ++ [k].
Proof. unfold nub. by rewrite foldl_snoc. Qed.

Lemma elem_of_nub k l : k ∈ nub l ↔ k ∈ l.
Proof.
  induction l as [|x l IH] using rev_ind; [done|].
  rewrite nub_snoc, elem_of_app, list_elem_of_singleton.
  destruct (decide (x ∈ nub l)) as [Hx|Hx].
  - rewrite IH. split; [tauto|]. intros [?| ->]; [done|]. by apply IH.
  - rewrite elem_of_app, list_elem_of_singleton, IH. done.
Qed.

Lemma NoDup_nub l : NoDup (nub l).
Proof.
  induction l as [|x l IH] using rev_ind; [constructor|].
  rewrite nub_snoc. destruct (decide (x ∈ nub l)) as [Hx|Hx]; [done|].
  apply NoDup_app. split; [done|]. split.
  - intros y Hy Hy'. apply list_elem_of_singleton in Hy' as ->. done.
  - apply NoDup_singleton.
Qed.

Lemma pos_lt k l : k ∈ l → pos k l < length l.
Proof.
  induction l as [|x l IH]; simpl.
  - by intros ?%elem_of_nil.
  - intros Hk. destruct (decide (x = k)); [lia|].
    apply elem_of_cons in Hk as [->|Hk]; [done|]. specialize (IH Hk). lia.
Qed.

Lemma pos_app_l k l l' : k ∈ l → pos k (l ++ l') = pos k l.
Proof.
  induction l as [|x l IH]; simpl.
  - by intros ?%elem_of_nil.
  - intros Hk. destruct (decide (x = k)); [done|].
    apply elem_of_cons in Hk as [->|Hk]; [done|]. by rewrite IH.
Qed.

Lemma pos_snoc_new k l : k ∉ l → pos k (l ++ [k]) = length l.
Proof.
  induction l as [|x l IH]; simpl.
  - intros _. by rewrite decide_True.
  - intros [Hne Hk]%not_elem_of_cons. rewrite decide_False by done.
    by rewrite IH.
Qed.

(** The distinct elements come in the order of their first occurrence. *)
Lemma nub_sorted l : StronglySorted (λ a b, pos a l < pos b l) (nub l).
Proof.
  induction l as [|x l IH] using rev_ind; [constructor|].
  rewrite nub_snoc.
  assert (StronglySorted (λ a b, pos a (l ++ [x]) < pos b (l ++ [x])) (nub l))
    as IH'.
  { eapply StronglySorted_weaken; [exact IH|].
    intros a b Ha Hb Hab. simpl.
    rewrite !pos_app_l by by apply elem_of_nub. done. }
  destruct (decide (x ∈ nub l)) as [Hx|Hx]; [done|].
  apply StronglySorted_app_2; [|done|repeat constructor].
  intros a b Ha ->%list_elem_of_singleton.
  rewrite pos_app_l by by apply elem_of_nub.
  rewrite pos_snoc_new by by rewrite <- elem_of_nub.
  by apply pos_lt, elem_of_nub.
Qed.

Lemma incr_fmap (cnt : K → nat) (ks : list K) k :
  NoDup ks →
  incr k ((λ k', (k', cnt k')) <$> ks)
  = if decide (k ∈ ks)
    then (λ k', (k', if decide (k' = k) then S (cnt k') else cnt k')) <$> ks
    else ((λ k', (k', cnt k')) <$> ks) ++ [(k, 1)].
Proof.
  induction 1 as [|x ks Hx Hks IH]; csimpl.
  - done.
  - destruct (decide (x = k)) as [->|Hne].
    + rewrite decide_True by left. f_equal.
      apply list_fmap_ext. intros i y Hy.
      rewrite decide_False; [done|]. intros ->.
      by apply list_elem_of_lookup_2 in Hy.
    + rewrite IH. destruct (decide (k ∈ ks)) as [Hk|Hk].
      * by rewrite decide_True by by right.
      * rewrite decide_False; [done|].
        intros [->|?]%elem_of_cons; done.
Qed.

(** The counter lists the distinct elements in the order first met, each
    with the number of its occurrences. *)
Lemma Counter_nub l : Counter l = (λ k, (k, count k l)) <$> nub l.
Proof.
  induction l as [|x l IH] using rev_ind; [done|].
  unfold Counter in *. rewrite foldl_snoc, IH, nub_snoc.
  rewrite incr_fmap by apply NoDup_nub.
  destruct (decide (x ∈ nub l)) as [Hx|Hx].
  - apply list_fmap_ext. intros i y Hy. rewrite count_snoc.
    destruct (decide (y = x)) as [->|Hne].
    + by rewrite decide_True.
    + by rewrite decide_False.
  - rewrite fmap_app. csimpl. f_equal.
    + apply list_fmap_ext. intros i y Hy. rewrite count_snoc.
      rewrite decide_False; [done|]. intros ->.
      by apply list_elem_of_lookup_2 in Hy.
    + rewrite count_snoc, decide_True by done.
      rewrite count_0; [done|]. by rewrite <- elem_of_nub.
Qed.

Lemma insert_desc_perm (x : K * nat) c : insert_desc x c ≡ₚ x :: c.
Proof.
  induction c as [|y c IH]; simpl; [done|].
  destruct (x.2 <? y.2); [|done]. rewrite IH. apply Permutation_swap.
Qed.

Lemma sort_desc_perm c : sort_desc c ≡ₚ c.
Proof.
  induction c as [|x c IH]; [done|].
  unfold sort_desc in *. simpl. by rewrite insert_desc_perm, IH.
Qed.

(** Insertion keeps the ranking order, when the entry inserted was met
    before all the others. *)
Lemma insert_desc_sorted l (x : K * nat) c :
  StronglySorted (ranked l) c →
  Forall (λ y, pos x.1 l < pos y.1 l) c →
  StronglySorted (ranked l) (insert_desc x c).
Proof.
  induction 1 as [|y c Hc IH Hy]; intros Hx; simpl.
  - repeat constructor.
  - apply Forall_cons in Hx as [Hxy Hx].
    destruct (x.2 <? y.2) eqn:E.
    + apply Nat.ltb_lt in E. constructor; [by apply IH|].
      rewrite insert_desc_perm. constructor; [by left|done].
    + apply Nat.ltb_ge in E. constructor; [by constructor|].
      constructor.
      * unfold ranked. lia.
      * rewrite Forall_forall in Hx, Hy. apply Forall_forall. intros z Hz.
        specialize (Hx z Hz). specialize (Hy z Hz). unfold ranked in *. lia.
Qed.

Lemma sort_desc_sorted l c :
  StronglySorted (λ a b, pos a.1 l < pos b.1 l) c →
  StronglySorted (ranked l) (sort_desc c).
Proof.
  induction 1 as [|x c Hc IH Hx]; [constructor|].
  change (sort_desc (x :: c)) with (insert_desc x (sort_desc c)).
  apply insert_desc_sorted; [done|]. by rewrite sort_desc_perm.
Qed.

(** The sorted counter is the ranking. *)
Lemma ranking_Counter l : ranking l (sort_desc (Counter l)).
Proof.
  rewrite Counter_nub. split; [|split].
  - rewrite sort_desc_perm, <- list_fmap_compose.
    rewrite (list_fmap_ext _ id (nub l)) by done.
    rewrite list_fmap_id. apply NoDup_nub.
  - intros k n. rewrite sort_desc_perm, list_elem_of_fmap. split.
    + intros (k' & [= -> ->] & Hk). by rewrite <- elem_of_nub.
    + intros [Hk ->]. exists k. by rewrite elem_of_nub.
  - apply sort_desc_sorted.
    apply (StronglySorted_fmap _ (λ a b, pos a l < pos b l)); [|apply nub_sorted].
    by intros a b.
Qed.

Lemma most_common_ranking n l :
  ∃ all, most_common n (Counter l) = take n all ∧ ranking l all.
Proof. eexists. split; [done|]. apply ranking_Counter. Qed.

Lemma count_filter (P : K → Prop) `{∀ x, Decision (P x)} k l :
  P k → count k (filter P l) = count k l.
Proof.
  intros Hk. unfold count. induction l as [|x l IH]; [done|].
  destruct (decide (P x)) as [Hx|Hx].
  - rewrite (filter_cons_True P) by done.
    destruct (decide (x = k)) as [->|Hne].
    + rewrite !(filter_cons_True (λ y, y = k)) by done. simpl. by rewrite IH.
    + by rewrite !(filter_cons_False (λ y, y = k)) by done.
  - rewrite (filter_cons_False P) by done.
    rewrite (filter_cons_False (λ y, y = k)); [done|]. by intros ->.
Qed.

Lemma pos_filter (P : K → Prop) `{∀ x, Decision (P x)} a b l :
  P a → P b →
  pos a (filter P l) < pos b (filter P l) → pos a l < pos b l.
Proof.
  intros Ha Hb. induction l as [|x l IH]; [done|].
  destruct (decide (P x)) as [Hx|Hx].
  - rewrite (filter_cons_True P) by done. simpl.
    destruct (decide (x = a)), (decide (x = b)); lia.
  - rewrite (filter_cons_False P) by done. simpl.
    rewrite !decide_False by (by intros ->). lia.
Qed.

(** In a ranking the entries kept by [take] rank before those left. *)
Lemma ranking_take l all n a b :
  ranking l all → a ∈ take n all → b ∈ drop n all → ranked l a b.
Proof.
  intros (_ & _ & Hs) Ha Hb. rewrite <- (take_drop n all) in Hs.
  by eapply StronglySorted_app_1_elem_of.
Qed.

End CountingFacts.

Lemma value_counts_ranking s : value_ranking s (value_counts s).
Proof.
  destruct (ranking_Counter (dropna s)) as (Hnd & Hin & Hs).
  assert (∀ v, v ∈ dropna s ↔ v ≠ NaN ∧ v ∈ s) as Hdrop.
  { intros v. unfold dropna. rewrite list_elem_of_filter.
    destruct v; naive_solver. }
  split; [done|]. split.
  - intros v c. unfold value_counts. rewrite Hin, Hdrop. unfold dropna.
    split.
    + intros [[Hv ?] ->]. rewrite count_filter by by destruct v. done.
    + intros (Hv & ? & ->). rewrite count_filter by by destruct v. done.
  - eapply StronglySorted_weaken; [exact Hs|].
    intros [v1 c1] [v2 c2] H1 H2. unfold ranked. simpl.
    apply Hin in H1 as [[Hv1 _]%Hdrop _]. apply Hin in H2 as [[Hv2 _]%Hdrop _].
    intros [?|[? Hpos]]; [by left|right]. split; [done|].
    unfold dropna in Hpos. apply pos_filter in Hpos; [done|..].
    + by destruct v1.
    + by destruct v2.
Qed.

(** ** The most frequent values of a column *)

Lemma top_n_run h o r f column n s :
  h !! r = Some f → get_column column f = Some s →
  top_n r column n (mkState h o) = (Ok (take n (value_counts s)), mkState h o).
Proof.
  intros Hr Hc. unfold top_n.
  by rewrite (bind_ok _ _ _ _ _ (getitem_run _ _ _ _ _ _ Hr Hc)).
Qed.

(** [analyze_sources] is the ranking of [source_x] cut at 15. *)
Lemma analyze_sources_top_n r σ :
  (analyze_sources r σ).1 = (top_n r "source_x" 15 σ).1.
Proof.
  destruct σ as [h o]. unfold analyze_sources, top_n, head.
  rewrite bind_print.
  destruct (h !! r) as [f|] eqn:Hr.
  - destruct (get_column "source_x" f) as [s|] eqn:Hc.
    + by rewrite !(bind_ok _ _ _ _ _ (getitem_run _ _ _ _ _ _ Hr Hc)).
    + by rewrite !(bind_raise _ _ _ _ _ (getitem_miss _ _ _ _ _ Hr Hc)).
  - by rewrite !(bind_raise _ _ _ _ _ (getitem_dangling _ _ _ _ Hr)).
Qed.

(** The checks of the analysis functions, which leave the state as it
    is. *)
Lemma sort_index_run l σ :
  sort_index l σ
  = (if decide (same_kind l) then Ok (by_key l) else Raise TypeError, σ).
Proof. unfold sort_index. by destruct (decide (same_kind l)). Qed.

Lemma index_ge_run l n σ :
  index_ge l n σ
  = (match mapM (λ kc : value * nat, cmp_int Z.geb kc.1 n) l with
     | Some m => Ok (select m l)
     | None => Raise TypeError
     end, σ).
Proof. unfold index_ge. by destruct (mapM _ l). Qed.

Lemma series_gt_run s n σ :
  series_gt s n σ
  = (match mapM (λ x, cmp_int Z.gtb x n) s with
     | Some m => Ok m
     | None => Raise TypeError
     end, σ).
Proof. unfold series_gt. by destruct (mapM _ s). Qed.

Lemma pie_run x labels σ :
  pie x labels σ
  = (if decide (length x = length labels) then Ok ()
     else Raise (ValueError ("'labels' must be of length 'x', not "
                             +:+ pretty (length labels))), σ).
Proof. unfold pie. by destruct (decide (length x = length labels)). Qed.

Lemma WordCloud_generate_run text σ :
  WordCloud_generate text σ
  = (match cloud_words text with
     | [] => Raise (ValueError
                      "We need at least 1 word to plot a word cloud, got 0.")
     | _ => Ok ()
     end, σ).
Proof. unfold WordCloud_generate. by destruct (cloud_words text). Qed.

(** What has been found on the way when [analyze_publication_trends]
    returns. *)
Lemma analyze_publication_trends_inv h o r res σ' :
  analyze_publication_trends r (mkState h o) = (Ok res, σ') →
  ∃ f y j w b m,
    h !! r = Some f
    ∧ get_column "publication_year" f = Some y
    ∧ get_column "journal" f = Some j
    ∧ get_column "abstract_word_count" f = Some w
    ∧ get_column "has_abstract" f = Some b
    ∧ same_kind (value_counts y)
    ∧ mapM (λ kc : value * nat, cmp_int Z.geb kc.1 2019)
        (by_key (value_counts y)) = Some m
    ∧ is_Some (mapM (λ x, cmp_int Z.gtb x 0) w)
    ∧ length (value_counts b) = 2
    ∧ res = (select m (by_key (value_counts y)),
             take 10 (value_counts j))
    ∧ σ' = mkState h (o ++ [Msg "Analyzing publication trends..."]).
Proof.
  unfold analyze_publication_trends, head. rewrite bind_print.
  destruct (h !! r) as [f|] eqn:Hr; cycle 1.
  { by rewrite (bind_raise _ _ _ _ _ (getitem_dangling _ _ _ _ Hr)). }
  destruct (get_column "publication_year" f) as [y|] eqn:Hy; cycle 1.
  { by rewrite (bind_raise _ _ _ _ _ (getitem_miss _ _ _ _ _ Hr Hy)). }
  rewrite (bind_ok _ _ _ _ _ (getitem_run _ _ _ _ _ _ Hr Hy)).
  destruct (decide (same_kind (value_counts y))) as [Hk|Hk]; cycle 1.
  { erewrite bind_raise; [done|]. rewrite sort_index_run. by rewrite decide_False. }
  erewrite bind_ok; cycle 1.
  { rewrite sort_index_run. by rewrite decide_True. }
  destruct (mapM (λ kc : value * nat, cmp_int Z.geb kc.1 2019)
              (by_key (value_counts y))) as [m|] eqn:Hm; cycle 1.
  { erewrite bind_raise; [done|]. rewrite index_ge_run. by rewrite Hm. }
  erewrite bind_ok; cycle 1.
  { rewrite index_ge_run. by rewrite Hm. }
  destruct (get_column "journal" f) as [j|] eqn:Hj; cycle 1.
  { by rewrite (bind_raise _ _ _ _ _ (getitem_miss _ _ _ _ _ Hr Hj)). }
  rewrite (bind_ok _ _ _ _ _ (getitem_run _ _ _ _ _ _ Hr Hj)).
  destruct (get_column "abstract_word_count" f) as [w|] eqn:Hw; cycle 1.
  { by rewrite (bind_raise _ _ _ _ _ (getitem_miss _ _ _ _ _ Hr Hw)). }
  rewrite (bind_ok _ _ _ _ _ (getitem_run _ _ _ _ _ _ Hr Hw)).
  destruct (mapM (λ x, cmp_int Z.gtb x 0) w) as [pm|] eqn:Hpm; cycle 1.
  { erewrite bind_raise; [done|]. rewrite series_gt_run. by rewrite Hpm. }
  erewrite bind_ok; cycle 1.
  { rewrite series_gt_run. by rewrite Hpm. }
  destruct (get_column "has_abstract" f) as [b|] eqn:Hb; cycle 1.
  { by rewrite (bind_raise _ _ _ _ _ (getitem_miss _ _ _ _ _ Hr Hb)). }
  rewrite (bind_ok _ _ _ _ _ (getitem_run _ _ _ _ _ _ Hr Hb)).
  destruct (decide (length (value_counts b) = 2)) as [Hl|Hl]; cycle 1.
  { erewrite bind_raise; [done|]. rewrite pie_run, length_fmap.
    by rewrite decide_False. }
  erewrite bind_ok; cycle 1.
  { rewrite pie_run, length_fmap. by rewrite decide_True. }
  intros [= <- <-]. exists f, y, j, w, b, m. repeat split; try done.
Qed.

(** When [analyze_publication_trends] returns, the journals it returns
    are the ranking of [journal] cut at 10. *)
Lemma analyze_publication_trends_journals h o r f res σ' :
  h !! r = Some f →
  analyze_publication_trends r (mkState h o) = (Ok res, σ') →
  (top_n r "journal" 10 (mkState h o)).1 = Ok res.2.
Proof.
  intros Hr (f' & y & j & w & b & m & Hr' & _ & Hj & _ & _ & _ & _ & _ & _
             & -> & _)%analyze_publication_trends_inv.
  assert (f' = f) as -> by congruence.
  by rewrite (top_n_run _ _ _ _ _ _ _ Hr Hj).
Qed.

(** C5: [top_n], the computation [df[column].value_counts().head(n)] by
    which [analyze_sources] ranks the sources ([n = 15]) and
    [analyze_publication_trends] the journals ([n = 10]), returns the
    first [n] entries of the ranking of the column: each value present
    once with its count, by decreasing count, values of equal count in
    the order in which they are first met in the table; the entries
    returned rank before all the others.  On the five journals A, B, A,
    C, A and [n = 5] it returns A 3, B 1, C 1. *)
Theorem top_n_ranking h o r f column n s :
  h !! r = Some f → get_column column f = Some s →
  (∃ all,
     top_n r column n (mkState h o) = (Ok (take n all), mkState h o)
     ∧ value_ranking s all
     ∧ ∀ a b, a ∈ take n all → b ∈ drop n all → ranked s a b)
  ∧ (analyze_sources r (mkState h o)).1
    = (top_n r "source_x" 15 (mkState h o)).1
  ∧ (∀ res σ',
       analyze_publication_trends r (mkState h o) = (Ok res, σ') →
       (top_n r "journal" 10 (mkState h o)).1 = Ok res.2)
  ∧ (run (top_n 0 "journal" 5) (mkState [journals5] [])).1
    = Ok [(Str "A", 3); (Str "B", 1); (Str "C", 1)].
Proof.
  intros Hr Hc. split; [|split; [|split]].
  - exists (value_counts s). split; [by eapply top_n_run|].
    pose proof (value_counts_ranking s) as Hrank. split; [done|].
    intros a b Ha Hb. destruct Hrank as (_ & _ & Hs).
    rewrite <- (take_drop n (value_counts s)) in Hs.
    by eapply StronglySorted_app_1_elem_of.
  - apply analyze_sources_top_n.
  - intros res σ'. by apply (analyze_publication_trends_journals h o r f).
  - vm_compute. reflexivity.
Qed.

Lemma top_n_ranking_witness :
  (∃ all,
     top_n 0 "journal" 2 (mkState [journals5] [])
     = (Ok (take 2 all), mkState [journals5] [])
     ∧ value_ranking [Str "A"; Str "B"; Str "A"; Str "C"; Str "A"] all
     ∧ ∀ a b, a ∈ take 2 all → b ∈ drop 2 all →
              ranked [Str "A"; Str "B"; Str "A"; Str "C"; Str "A"] a b)
  ∧ (analyze_sources 0 (mkState [journals5] [])).1
    = (top_n 0 "source_x" 15 (mkState [journals5] [])).1
  ∧ (∀ res σ',
       analyze_publication_trends 0 (mkState [journals5] []) = (Ok res, σ') →
       (top_n 0 "journal" 10 (mkState [journals5] [])).1 = Ok res.2)
  ∧ (run (top_n 0 "journal" 5) (mkState [journals5] [])).1
    = Ok [(Str "A", 3); (Str "B", 1); (Str "C", 1)].
Proof.
  apply (top_n_ranking [journals5] [] 0 journals5 "journal" 2).
  - reflexivity.
  - reflexivity.
Defined.

(** ** The scan and the pattern *)

Module PyRuns.
Import Py.

Lemma app_nil_l s : "" +:+ s = s.
Proof. done. Qed.

Lemma app_cons c s1 s2 : String c s1 +:+ s2 = String c (s1 +:+ s2).
Proof. done. Qed.

Lemma app_nil_r s : s +:+ "" = s.
Proof. induction s as [|c s IH]; [done|]. by rewrite app_cons, IH. Qed.

Lemma app_assoc s1 s2 s3 : (s1 +:+ s2) +:+ s3 = s1 +:+ s2 +:+ s3.
Proof. induction s1 as [|c s1 IH]; [done|]. by rewrite !app_cons, IH. Qed.

Lemma app_empty s1 s2 : s1 +:+ s2 = "" ↔ s1 = "" ∧ s2 = "".
Proof.
  destruct s1 as [|c s1].
  - rewrite app_nil_l. naive_solver.
  - rewrite app_cons. naive_solver.
Qed.

Lemma rev_app_app s1 s2 : String.rev_app s1 s2 = String.rev s1 +:+ s2.
Proof.
  unfold String.rev. revert s2. induction s1 as [|c s1 IH]; intros s2; simpl.
  - done.
  - rewrite (IH (String c s2)), (IH (String c "")). by rewrite app_assoc.
Qed.

Lemma rev_cons c s : String.rev (String c s) = String.rev s +:+ String c "".
Proof. unfold String.rev at 1. simpl. apply rev_app_app. Qed.

Lemma last_char_cons c s :
  s ≠ "" → last_char (String c s) = last_char s.
Proof. by destruct s. Qed.

Lemma last_char_app_ne s1 s2 : s2 ≠ "" → last_char (s1 +:+ s2) = last_char s2.
Proof.
  intros Hne. induction s1 as [|c s1 IH]; [done|].
  rewrite app_cons, last_char_cons; [done|].
  intros [_ ?]%app_empty. done.
Qed.

Lemma first_char_app_ne s1 s2 : s1 ≠ "" → first_char (s1 +:+ s2) = first_char s1.
Proof. by destruct s1. Qed.

Lemma elem_of_flush w cur : w ∈ flush cur ↔ cur ≠ "" ∧ w = String.rev cur.
Proof.
  destruct cur; simpl.
  - split; [by intros ?%elem_of_nil|naive_solver].
  - rewrite list_elem_of_singleton. naive_solver.
Qed.

(** What the scan yields: the run that continues the one under
    construction, if the text goes on with it up to a separator or to the
    end, and the runs that start further on, after a separator. *)
Lemma runs_go_spec sep s cur w :
  w ∈ runs_go sep cur s
  ↔ (∃ p post,
       s = p +:+ post ∧ w = String.rev cur +:+ p ∧ w ≠ ""
       ∧ str_forall (λ c, negb (sep c)) p = true
       ∧ edge sep (first_char post) = true)
    ∨ (∃ pre post,
         s = pre +:+ w +:+ post ∧ w ≠ "" ∧ pre ≠ ""
         ∧ str_forall (λ c, negb (sep c)) w = true
         ∧ edge sep (last_char pre) = true
         ∧ edge sep (first_char post) = true).
Proof.
  revert cur w. induction s as [|c s IH]; intros cur w.
  - simpl. rewrite elem_of_flush. split.
    + intros [Hcur ->]. left. exists "", "". rewrite !app_nil_r.
      repeat split; try done. by rewrite PyFacts.rev_empty.
    + intros [(p & post & Hs & -> & Hw & _)|(pre & post & Hs & Hw & Hpre & _)].
      * symmetry in Hs. apply app_empty in Hs as [-> ->].
        rewrite app_nil_r in *. split; [|done].
        intros ->. by apply Hw.
      * symmetry in Hs. apply app_empty in Hs as [-> _]. done.
  - simpl. destruct (sep c) eqn:Hc.
    + rewrite elem_of_app, elem_of_flush, IH. split.
      * intros [[Hcur ->]|[(p & post & -> & Hw & Hne & Hp & Hpost)
                          |(pre & post & -> & Hne & Hpre & Hw & Hl & Hf)]].
        -- left. exists "", (String c s). rewrite !app_nil_r, !app_nil_l.
           repeat split; try done. by rewrite PyFacts.rev_empty.
        -- right. exists (String c ""), post. rewrite app_nil_l in Hw. subst w.
           repeat split; try done.
        -- right. exists (String c pre), post.
           repeat split; try done. by rewrite last_char_cons.
      * intros [(p & post & Hs & -> & Hne & Hp & Hpost)
               |(pre & post & Hs & Hne & Hpre & Hw & Hl & Hf)].
        -- destruct p as [|c' p].
           ++ left. rewrite app_nil_r in *. split; [|done].
              intros ->. by apply Hne.
           ++ rewrite app_cons in Hs. injection Hs as <- Hs.
              simpl in Hp. by rewrite Hc in Hp.
        -- destruct pre as [|c' pre]; [done|]. rewrite app_cons in Hs.
           injection Hs as <- Hs. right.
           destruct pre as [|c'' pre].
           ++ left. exists w, post. rewrite app_nil_l in *.
              repeat split; try done.
           ++ right. exists (String c'' pre), post. repeat split; try done.
    + rewrite IH. split.
      * intros [(p & post & -> & -> & Hne & Hp & Hpost)
               |(pre & post & -> & Hne & Hpre & Hw & Hl & Hf)].
        -- left. exists (String c p), post.
           rewrite rev_cons, app_assoc in *. rewrite !app_cons, app_nil_l in *.
           simpl. rewrite Hc. repeat split; done.
        -- right. exists (String c pre), post.
           repeat split; try done. by rewrite last_char_cons.
      * intros [(p & post & Hs & -> & Hne & Hp & Hpost)
               |(pre & post & Hs & Hne & Hpre & Hw & Hl & Hf)].
        -- destruct p as [|c' p].
           ++ rewrite app_nil_l in Hs. subst post. simpl in Hpost.
              by rewrite Hc in Hpost.
           ++ rewrite app_cons in Hs. injection Hs as <- Hs. left.
              exists p, post. rewrite rev_cons, app_assoc.
              rewrite !app_cons, app_nil_l.
              simpl in Hp. rewrite Hc in Hp. simpl in Hp. repeat split; done.
        -- destruct pre as [|c' pre]; [done|]. rewrite app_cons in Hs.
           injection Hs as <- Hs. right.
           destruct pre as [|c'' pre].
           ++ simpl in Hl. by rewrite Hc in Hl.
           ++ exists (String c'' pre), post. repeat split; try done.
Qed.

(** The runs of a text are its parts without a separator that have a
    separator, or an end of the text, on either side. *)
Lemma runs_spec sep s w :
  w ∈ runs sep s
  ↔ ∃ pre post,
      s = pre +:+ w +:+ post ∧ w ≠ ""
      ∧ str_forall (λ c, negb (sep c)) w = true
      ∧ edge sep (last_char pre) = true
      ∧ edge sep (first_char post) = true.
Proof.
  unfold runs. rewrite runs_go_spec. split.
  - intros [(p & post & -> & -> & Hne & Hp & Hpost)
           |(pre & post & -> & Hne & Hpre & Hw & Hl & Hf)].
    + exists "", post. by repeat split.
    + exists pre, post. by repeat split.
  - intros (pre & post & -> & Hne & Hw & Hl & Hf).
    destruct pre as [|c pre].
    + left. exists w, post. by repeat split.
    + right. exists (String c pre), post. by repeat split.
Qed.

Lemma alpha_is_word c : is_ascii_alpha c = true → is_word c = true.
Proof. unfold is_word. by intros ->. Qed.

Lemma forall_alpha_word w :
  str_forall is_ascii_alpha w = true →
  str_forall (λ c, negb (negb (is_word c))) w = true.
Proof.
  induction w as [|c w IH]; simpl; [done|].
  intros [Hc Hw]%andb_true_iff. rewrite (alpha_is_word c Hc). simpl. auto.
Qed.

Lemma edge_not_word o :
  edge (λ c, negb (is_word c)) o = negb (is_word_at o).
Proof. by destruct o. Qed.

Lemma first_char_word w :
  w ≠ "" → str_forall is_ascii_alpha w = true →
  is_word_at (first_char w) = true.
Proof.
  destruct w as [|c w]; [done|]. simpl.
  intros _ [Hc _]%andb_true_iff. by apply alpha_is_word.
Qed.

Lemma last_char_word w :
  w ≠ "" → str_forall is_ascii_alpha w = true →
  is_word_at (last_char w) = true.
Proof.
  induction w as [|c w IH]; [done|]. intros _ [Hc Hw]%andb_true_iff.
  destruct w as [|c' w]; [by apply alpha_is_word|].
  rewrite last_char_cons by done. by apply IH.
Qed.

(** The words found in a text are the matches of the pattern. *)
Lemma findall_words_spec s w :
  w ∈ findall_words s
  ↔ ∃ pre post, s = pre +:+ w +:+ post ∧ title_match pre w post.
Proof.
  unfold findall_words, title_match, is_title_word, word_boundary.
  rewrite list_elem_of_filter, runs_spec, andb_true_iff, Nat.leb_le.
  setoid_rewrite edge_not_word. split.
  - intros [[Ha Hlen] (pre & post & -> & Hne & Hw & Hl & Hf)].
    exists pre, post. split; [done|].
    rewrite first_char_app_ne, last_char_app_ne by done.
    rewrite (first_char_word w), (last_char_word w) by done.
    apply negb_true_iff in Hl, Hf. rewrite Hl, Hf. done.
  - intros (pre & post & -> & Hb & Ha & Hlen & Ha').
    assert (w ≠ "") as Hne by (intros ->; simpl in Hlen; lia).
    rewrite first_char_app_ne in Hb by done.
    rewrite last_char_app_ne in Ha' by done.
    rewrite (first_char_word w) in Hb by done.
    rewrite (last_char_word w) in Ha' by done.
    split; [done|]. exists pre, post.
    split; [done|]. split; [done|]. split; [by apply forall_alpha_word|].
    destruct (is_word_at (last_char pre)), (is_word_at (first_char post)); done.
Qed.

End PyRuns.

(** ** The most frequent words of the titles *)

Module PyJoin.
Import Py.

Lemma lower_app s1 s2 : lower (s1 +:+ s2) = lower s1 +:+ lower s2.
Proof.
  induction s1 as [|c s1 IH]; [done|].
  rewrite PyRuns.app_cons. simpl. by rewrite IH.
Qed.

(** A separator between two texts closes the run of the first and lets
    the second start afresh. *)
Lemma runs_go_app_sep sep cur s1 c s2 :
  sep c = true →
  runs_go sep cur (s1 +:+ String c s2) = runs_go sep cur s1 ++ runs sep s2.
Proof.
  intros Hc. revert cur. induction s1 as [|c1 s1 IH]; intros cur.
  - rewrite PyRuns.app_nil_l. simpl. by rewrite Hc.
  - rewrite PyRuns.app_cons. simpl. destruct (sep c1).
    + by rewrite IH, (assoc_L (++)).
    + apply IH.
Qed.

Lemma findall_words_app_space s1 s2 :
  findall_words (s1 +:+ String " " s2) = findall_words s1 ++ findall_words s2.
Proof.
  unfold findall_words, runs.
  rewrite runs_go_app_sep by done. by rewrite filter_app.
Qed.

Lemma findall_words_join (parts : list string) :
  findall_words (lower (join " " parts))
  = parts ≫= (λ p, findall_words (lower p)).
Proof.
  induction parts as [|p ps IH]; [done|].
  rewrite bind_cons, <- IH. destruct ps as [|q ps].
  - change (findall_words (lower (join " " []))) with (@nil string).
    by rewrite (right_id_L [] (++)).
  - change (join " " (p :: q :: ps)) with (p +:+ " " +:+ join " " (q :: ps)).
    rewrite lower_app.
    change (lower (" " +:+ join " " (q :: ps)))
      with (String " " (lower (join " " (q :: ps)))).
    apply findall_words_app_space.
Qed.

Lemma str_forall_app p s1 s2 :
  str_forall p (s1 +:+ s2) = str_forall p s1 && str_forall p s2.
Proof.
  induction s1 as [|c s1 IH]; [done|].
  rewrite PyRuns.app_cons. simpl. by rewrite IH, andb_assoc.
Qed.

Lemma lower_char_not_upper c : between 65 90 (ord (lower_char c)) = false.
Proof. by destruct c as [[] [] [] [] [] [] [] []]. Qed.

Lemma lower_not_upper s :
  str_forall (λ c, negb (between 65 90 (ord c))) (lower s) = true.
Proof.
  induction s as [|c s IH]; [done|].
  simpl. by rewrite lower_char_not_upper, IH.
Qed.

Lemma lower_alpha w :
  str_forall is_ascii_alpha w = true →
  str_forall (λ c, negb (between 65 90 (ord c))) w = true →
  str_forall is_lower_alpha w = true.
Proof.
  induction w as [|c w IH]; [done|]. simpl.
  intros [Hc Hw]%andb_true_iff [Hu Hw']%andb_true_iff.
  rewrite IH by done. unfold is_ascii_alpha in Hc. unfold is_lower_alpha.
  apply negb_true_iff in Hu. rewrite Hu in Hc. simpl in Hc. by rewrite Hc.
Qed.

End PyJoin.

Lemma filter_bind {A B} (P : B → Prop) `{∀ x, Decision (P x)}
    (f : A → list B) (l : list A) :
  filter P (l ≫= f) = l ≫= (λ x, filter P (f x)).
Proof.
  induction l as [|x l IH]; [done|].
  by rewrite !bind_cons, filter_app, IH.
Qed.

(** The words counted are those of the titles taken one after the
    other. *)
Lemma title_words_bind t : title_words t = dropna t ≫= words_of_title.
Proof.
  unfold title_words. rewrite PyJoin.findall_words_join.
  rewrite list_fmap_bind, filter_bind. done.
Qed.

(** A word of a title is made of the letters a to z, three at least, and
    is not a stop word. *)
Lemma words_of_title_shape x w :
  w ∈ words_of_title x →
  Py.str_forall is_lower_alpha w = true ∧ 3 ≤ Py.str_len w ∧ w ∉ stop_words.
Proof.
  unfold words_of_title. rewrite list_elem_of_filter.
  intros [Hstop (pre & post & Hs & _ & Ha & Hlen & _)%PyRuns.findall_words_spec].
  split; [|done]. apply PyJoin.lower_alpha; [done|].
  pose proof (PyJoin.lower_not_upper (py_str x)) as Hl.
  rewrite Hs, !PyJoin.str_forall_app in Hl.
  by apply andb_true_iff in Hl as [_ [Hl _]%andb_true_iff].
Qed.

Lemma title_words_shape t w :
  w ∈ title_words t →
  Py.str_forall is_lower_alpha w = true ∧ 3 ≤ Py.str_len w ∧ w ∉ stop_words.
Proof.
  rewrite title_words_bind. intros (x & Hw & _)%list_elem_of_bind.
  by eapply words_of_title_shape.
Qed.

Module PyCloud.
Import Py.

(** A run of characters that are not separators is one run. *)
Lemma runs_go_word sep cur w :
  str_forall (λ c, negb (sep c)) w = true → String.rev cur +:+ w ≠ "" →
  runs_go sep cur w = [String.rev cur +:+ w].
Proof.
  revert cur. induction w as [|c w IH]; intros cur Hw Hne.
  - rewrite PyRuns.app_nil_r in *. simpl. destruct cur as [|c cur]; [|done].
    by rewrite PyFacts.rev_empty in Hne.
  - simpl in Hw. apply andb_true_iff in Hw as [Hc Hw].
    apply negb_true_iff in Hc. simpl. rewrite Hc.
    rewrite IH; [|done|].
    + by rewrite PyRuns.rev_cons, PyRuns.app_assoc.
    + rewrite PyRuns.rev_cons, PyRuns.app_assoc, PyRuns.app_cons.
      intros [_ ?]%PyRuns.app_empty. done.
Qed.

Lemma runs_word sep w :
  str_forall (λ c, negb (sep c)) w = true → w ≠ "" → runs sep w = [w].
Proof.
  intros Hw Hne. unfold runs. rewrite runs_go_word; [done|done|].
  by change (String.rev "" +:+ w) with w.
Qed.

(** Words joined by spaces are found again by a scan for which the space
    is a separator and the characters of the words are not. *)
Lemma runs_join sep (ws : list string) :
  sep " "%char = true →
  Forall (λ w, str_forall (λ c, negb (sep c)) w = true ∧ w ≠ "") ws →
  runs sep (join " " ws) = ws.
Proof.
  intros Hsp. induction 1 as [|w ws [Hw Hne] Hws IH]; [done|].
  destruct ws as [|q ws].
  - by apply runs_word.
  - change (join " " (w :: q :: ws)) with (w +:+ String " " (join " " (q :: ws))).
    unfold runs at 1. rewrite PyJoin.runs_go_app_sep by done.
    fold (runs sep w). by rewrite runs_word, IH.
Qed.

Lemma lower_alpha_cloud_char c :
  between 97 122 (ord c) = true → cloud_char c = true.
Proof.
  intros Hc. unfold cloud_char, is_word, is_ascii_alpha. by rewrite Hc, orb_true_r.
Qed.

Lemma lower_alpha_not_apostrophe c :
  between 97 122 (ord c) = true → is_apostrophe c = false.
Proof.
  unfold between, is_apostrophe. intros [H1 H2]%andb_true_iff.
  apply Nat.leb_le in H1. apply Nat.eqb_neq. lia.
Qed.

Lemma lower_alpha_not_digit c :
  between 97 122 (ord c) = true →
  is_digit c || (ord c =? 178) || (ord c =? 179) || (ord c =? 185) = false.
Proof.
  unfold is_digit, between. intros [H1 H2]%andb_true_iff.
  apply Nat.leb_le in H1, H2.
  rewrite !orb_false_iff, andb_false_iff, !Nat.leb_gt, !Nat.eqb_neq. lia.
Qed.

Lemma lower_alpha_lower_char c :
  between 97 122 (ord c) = true → lower_char c = c.
Proof.
  unfold lower_char, between. intros [H1 H2]%andb_true_iff.
  apply Nat.leb_le in H1, H2.
  assert ((65 <=? ord c) && (ord c <=? 90) = false) as ->.
  { apply andb_false_iff. right. apply Nat.leb_gt. lia. }
  assert ((192 <=? ord c) && (ord c <=? 222) = false) as ->.
  { apply andb_false_iff. left. apply Nat.leb_gt. lia. }
  done.
Qed.

Section Word.
Variable w : string.
Hypothesis Hw : str_forall (λ c, between 97 122 (ord c)) w = true.

Lemma word_cloud_chars : str_forall (λ c, negb (negb (cloud_char c))) w = true.
Proof.
  induction w as [|c w' IH]; [done|]. simpl in *.
  apply andb_true_iff in Hw as [Hc Hw'].
  by rewrite (lower_alpha_cloud_char c Hc), IH.
Qed.

Lemma word_drop_apostrophes : drop_apostrophes w = w.
Proof.
  destruct w as [|c w']; [done|]. simpl in *.
  apply andb_true_iff in Hw as [Hc _].
  by rewrite (lower_alpha_not_apostrophe c Hc).
Qed.

Lemma word_drop_possessive : drop_possessive w = w.
Proof.
  induction w as [|c w' IH]; [done|]. simpl in Hw.
  apply andb_true_iff in Hw as [Hc Hw'].
  destruct w' as [|c2 [|c3 w'']].
  - done.
  - simpl. by rewrite (lower_alpha_not_apostrophe c Hc).
  - change (String c (drop_possessive (String c2 (String c3 w'')))
            = String c (String c2 (String c3 w''))).
    by rewrite IH.
Qed.

Lemma word_isdigit : w ≠ "" → isdigit w = false.
Proof.
  destruct w as [|c w']; [done|]. intros _. simpl in Hw.
  apply andb_true_iff in Hw as [Hc _].
  unfold isdigit. apply andb_false_iff. right.
  simpl. by rewrite (lower_alpha_not_digit c Hc).
Qed.

Lemma word_lower : lower w = w.
Proof.
  induction w as [|c w' IH]; [done|]. simpl in *.
  apply andb_true_iff in Hw as [Hc Hw'].
  by rewrite (lower_alpha_lower_char c Hc), IH.
Qed.

End Word.

Lemma fmap_fixed {A} (g : A → A) (P : A → Prop) l :
  (∀ x, P x → g x = x) → Forall P l → g <$> l = l.
Proof.
  intros Hg. induction 1 as [|x l Hx Hl IH]; [done|].
  csimpl. by rewrite Hg, IH.
Qed.

Lemma filter_all {A} (Q : A → Prop) `{∀ x, Decision (Q x)} (P : A → Prop) l :
  (∀ x, P x → Q x) → Forall P l → filter Q l = l.
Proof.
  intros HQ. induction 1 as [|x l Hx Hl IH]; [done|].
  rewrite filter_cons_True by auto. by rewrite IH.
Qed.

Lemma filter_agree {A} (Q1 Q2 : A → Prop) `{∀ x, Decision (Q1 x)}
    `{∀ x, Decision (Q2 x)} (P : A → Prop) l :
  (∀ x, P x → (Q1 x ↔ Q2 x)) → Forall P l → filter Q1 l = filter Q2 l.
Proof.
  intros HQ. induction 1 as [|x l Hx Hl IH]; [done|].
  destruct (decide (Q2 x)) as [H2|H2].
  - rewrite !filter_cons_True by (done || by apply HQ). by rewrite IH.
  - rewrite !filter_cons_False by (done || by rewrite HQ). done.
Qed.

(** The word cloud reads back the words it is given, when they are
    written with the letters a to z, and keeps those that are not among
    its stop words. *)
Lemma cloud_words_join (ws : list string) :
  Forall (λ w, str_forall (λ c, between 97 122 (ord c)) w = true ∧ w ≠ "") ws →
  cloud_words (join " " ws) = filter (λ w, w ∉ wordcloud_stopwords) ws.
Proof.
  set (P := λ w : string,
              str_forall (λ c, between 97 122 (ord c)) w = true ∧ w ≠ "").
  intros Hws. unfold cloud_words, cloud_findall.
  rewrite runs_join; [|done|]; cycle 1.
  { eapply Forall_impl; [exact Hws|]. intros w [Hw Hne].
    split; [by apply word_cloud_chars|done]. }
  rewrite (fmap_fixed drop_apostrophes P ws);
    [|intros w [Hw _]; by apply word_drop_apostrophes|done].
  rewrite (filter_all (λ w, w ≠ "") P ws); [|by intros w [_ ?]|done].
  rewrite (fmap_fixed drop_possessive P ws);
    [|intros w [Hw _]; by apply word_drop_possessive|done].
  rewrite (filter_all (λ w, isdigit w = false) P ws);
    [|intros w [Hw Hne]; by apply word_isdigit|done].
  apply (filter_agree _ _ P ws); [|done].
  intros w [Hw _]. by rewrite (word_lower w Hw).
Qed.

End PyCloud.

(** The words counted are fit for the word cloud. *)
Lemma title_words_cloud t :
  cloud_words (Py.join " " (title_words t))
  = filter (λ w, w ∉ wordcloud_stopwords) (title_words t).
Proof.
  apply PyCloud.cloud_words_join. apply Forall_forall.
  intros w (Hw & Hlen & _)%title_words_shape. split; [done|].
  intros ->. simpl in Hlen. lia.
Qed.

Lemma analyze_titles_run h o r f t :
  h !! r = Some f → get_column "title" f = Some t →
  (∃ w, w ∈ title_words t ∧ w ∉ wordcloud_stopwords) →
  analyze_titles r (mkState h o)
  = (Ok (most_common 20 (Counter (title_words t))),
     mkState h (o ++ [Msg "Analyzing paper titles..."])).
Proof.
  intros Hr Hc (w0 & Hin & Hcloud). unfold analyze_titles. rewrite bind_print.
  rewrite (bind_ok _ _ _ _ _ (getitem_run _ _ _ _ _ _ Hr Hc)).
  fold (title_words t).
  assert (title_words t ≠ []) as Hne.
  { intros He. rewrite He in Hin. by apply elem_of_nil in Hin. }
  destruct (most_common 20 (Counter (title_words t))) as [|e es] eqn:E.
  { exfalso. unfold most_common in E.
    assert (sort_desc (Counter (title_words t)) = []) as E'.
    { by destruct (sort_desc (Counter (title_words t))). }
    pose proof (sort_desc_perm (Counter (title_words t))) as Hp.
    rewrite E' in Hp. apply Permutation_nil_l in Hp.
    rewrite Counter_nub in Hp. symmetry in Hp. apply fmap_nil_inv in Hp.
    rename Hp into E''.
    apply Hne.
    destruct (title_words t) as [|w ws]; [done|].
    assert (w ∈ nub (w :: ws)) as Hin' by (apply elem_of_nub; left).
    rewrite E'' in Hin'. by apply elem_of_nil in Hin'. }
  simpl. rewrite bind_ret.
  erewrite bind_ok; [done|].
  rewrite WordCloud_generate_run, title_words_cloud.
  assert (w0 ∈ filter (λ w, w ∉ wordcloud_stopwords) (title_words t)) as Hf
    by by apply list_elem_of_filter.
  destruct (filter (λ w, w ∉ wordcloud_stopwords) (title_words t));
    [by apply elem_of_nil in Hf|done].
Qed.

Lemma analyze_titles_no_word h o r f t :
  h !! r = Some f → get_column "title" f = Some t →
  title_words t = [] →
  analyze_titles r (mkState h o)
  = (Raise (ValueError "not enough values to unpack (expected 2, got 0)"),
     mkState h (o ++ [Msg "Analyzing paper titles..."])).
Proof.
  intros Hr Hc He. unfold analyze_titles. rewrite bind_print.
  rewrite (bind_ok _ _ _ _ _ (getitem_run _ _ _ _ _ _ Hr Hc)).
  fold (title_words t). by rewrite He.
Qed.

(** Words are counted, but the word cloud keeps none of them. *)
Lemma analyze_titles_no_cloud_word h o r f t :
  h !! r = Some f → get_column "title" f = Some t →
  title_words t ≠ [] →
  (∀ w, w ∈ title_words t → w ∈ wordcloud_stopwords) →
  analyze_titles r (mkState h o)
  = (Raise (ValueError "We need at least 1 word to plot a word cloud, got 0."),
     mkState h (o ++ [Msg "Analyzing paper titles..."])).
Proof.
  intros Hr Hc Hne Hall. unfold analyze_titles. rewrite bind_print.
  rewrite (bind_ok _ _ _ _ _ (getitem_run _ _ _ _ _ _ Hr Hc)).
  fold (title_words t).
  destruct (most_common 20 (Counter (title_words t))) as [|e es] eqn:E.
  { exfalso. unfold most_common in E.
    assert (sort_desc (Counter (title_words t)) = []) as E'.
    { by destruct (sort_desc (Counter (title_words t))). }
    pose proof (sort_desc_perm (Counter (title_words t))) as Hp.
    rewrite E' in Hp. apply Permutation_nil_l in Hp.
    rewrite Counter_nub in Hp. symmetry in Hp. apply fmap_nil_inv in Hp.
    rename Hp into E''.
    apply Hne.
    destruct (title_words t) as [|w ws]; [done|].
    assert (w ∈ nub (w :: ws)) as Hin' by (apply elem_of_nub; left).
    rewrite E'' in Hin'. by apply elem_of_nil in Hin'. }
  simpl. rewrite bind_ret.
  erewrite bind_raise; [done|].
  rewrite WordCloud_generate_run, title_words_cloud.
  destruct (filter (λ w, w ∉ wordcloud_stopwords) (title_words t))
    as [|w ws] eqn:Ef; [done|].
  assert (w ∈ filter (λ w, w ∉ wordcloud_stopwords) (title_words t)) as Hf
    by (rewrite Ef; left).
  apply list_elem_of_filter in Hf as [Hf Hin]. by apply Hall in Hin.
Qed.

(** The three ways in which a run of [analyze_titles] on a table that has
    the column ends. *)
Lemma analyze_titles_cases h o r f t :
  h !! r = Some f → get_column "title" f = Some t →
  let σ' := mkState h (o ++ [Msg "Analyzing paper titles..."]) in
  (title_words t = []
   ∧ analyze_titles r (mkState h o)
     = (Raise (ValueError "not enough values to unpack (expected 2, got 0)"), σ'))
  ∨ (title_words t ≠ [] ∧ (∀ w, w ∈ title_words t → w ∈ wordcloud_stopwords)
     ∧ analyze_titles r (mkState h o)
       = (Raise (ValueError
                   "We need at least 1 word to plot a word cloud, got 0."), σ'))
  ∨ ((∃ w, w ∈ title_words t ∧ w ∉ wordcloud_stopwords)
     ∧ analyze_titles r (mkState h o)
       = (Ok (most_common 20 (Counter (title_words t))), σ')).
Proof.
  intros Hr Hc σ'.
  destruct (decide (title_words t = [])) as [He|Hne].
  { left. split; [done|]. by eapply analyze_titles_no_word. }
  right.
  destruct (decide (Forall (λ w, w ∈ wordcloud_stopwords) (title_words t)))
    as [Hall|Hex].
  - left. rewrite Forall_forall in Hall. split; [done|]. split; [done|].
    by eapply analyze_titles_no_cloud_word.
  - right. apply not_Forall_Exists in Hex; [|apply _].
    apply Exists_exists in Hex as (w & Hin & Hw).
    assert (∃ w, w ∈ title_words t ∧ w ∉ wordcloud_stopwords) as H by eauto.
    split; [done|]. by eapply analyze_titles_run.
Qed.

(** Whatever [analyze_titles] returns is the count of the words of its
    column of titles. *)
Lemma analyze_titles_inv h o r res σ' :
  analyze_titles r (mkState h o) = (Ok res, σ') →
  ∃ f t, h !! r = Some f ∧ get_column "title" f = Some t
         ∧ title_words t ≠ []
         ∧ res = most_common 20 (Counter (title_words t))
         ∧ σ' = mkState h (o ++ [Msg "Analyzing paper titles..."]).
Proof.
  intros Hrun. destruct (h !! r) as [f|] eqn:Hr; cycle 1.
  { unfold analyze_titles in Hrun. rewrite bind_print in Hrun.
    by rewrite (bind_raise _ _ _ _ _ (getitem_dangling _ _ _ _ Hr)) in Hrun. }
  destruct (get_column "title" f) as [t|] eqn:Hc; cycle 1.
  { unfold analyze_titles in Hrun. rewrite bind_print in Hrun.
    by rewrite (bind_raise _ _ _ _ _ (getitem_miss _ _ _ _ _ Hr Hc)) in Hrun. }
  destruct (analyze_titles_cases h o r f t Hr Hc)
    as [[He Hrun']|[(Hne & Hall & Hrun')|[(w & Hin & Hw) Hrun']]];
    rewrite Hrun' in Hrun; try discriminate Hrun.
  injection Hrun as <- <-. exists f, t. repeat split; try done.
  intros He. rewrite He in Hin. by apply elem_of_nil in Hin.
Qed.

(** C4, the claim as worded fails on [covid19]: in the lower-cased title
    "covid19 study of sars-cov2" the alphabetic runs of length three or
    more are covid, study, sars and cov, but the pattern of
    [analyze_titles] asks for a word boundary on both sides of a match
    and there is none between a letter and a digit, so that only study
    and sars are counted. *)
Lemma letters_next_to_digits_are_not_counted :
  (run (analyze_titles 0) (mkState [covid19] [])).1
  = Ok [("study", 1); ("sars", 1)]
  ∧ word_frequency [Str "Covid19 study of SARS-CoV2"] stop_words 3
    = [("covid", 1); ("study", 1); ("sars", 1); ("cov", 1)]
  ∧ (run (analyze_titles 0) (mkState [covid19] [])).1
    ≠ Ok (word_frequency [Str "Covid19 study of SARS-CoV2"] stop_words 3).
Proof.
  assert ((run (analyze_titles 0) (mkState [covid19] [])).1
          = Ok [("study", 1); ("sars", 1)]) as H1 by (vm_compute; reflexivity).
  assert (word_frequency [Str "Covid19 study of SARS-CoV2"] stop_words 3
          = [("covid", 1); ("study", 1); ("sars", 1); ("cov", 1)]) as H2
    by (vm_compute; reflexivity).
  split; [done|]. split; [done|]. rewrite H1, H2. discriminate.
Qed.

(** The words counted are the matches of the pattern in the lower-cased
    titles that are not stop words. *)
Lemma elem_of_title_words w t :
  w ∈ title_words t
  ↔ (∃ pre post,
       Py.lower (Py.join " " (py_str <$> dropna t)) = pre +:+ w +:+ post
       ∧ Py.title_match pre w post)
    ∧ w ∉ stop_words.
Proof.
  unfold title_words.
  rewrite list_elem_of_filter, PyRuns.findall_words_spec. tauto.
Qed.

(** C4, as amended: [analyze_titles] lower-cases the present titles
    joined by spaces, takes as tokens the matches of its pattern, that
    is the runs of three letters or more that have a word boundary on
    both sides (the maximal runs of letters, digits and underscores that
    are made of letters only), leaves out the stop words and, when a
    token remains that the word cloud can draw, one that is not a stop
    word of the word-cloud library, returns the first 20 entries of
    their ranking: each token once with its count, by decreasing count,
    tokens of equal count in the order first met.  When tokens remain
    and all of them are stop words of the word-cloud library, as with
    the title "About above", it returns nothing: the word cloud raises
    [ValueError].  On the titles "Covid Study" and "covid study results"
    it returns covid 2, study 2, results 1. *)
Theorem analyze_titles_ranking h o r f t :
  h !! r = Some f → get_column "title" f = Some t →
  ((∃ w, w ∈ title_words t ∧ w ∉ wordcloud_stopwords) →
   ∃ all,
     analyze_titles r (mkState h o)
     = (Ok (take 20 all), mkState h (o ++ [Msg "Analyzing paper titles..."]))
     ∧ ranking (title_words t) all
     ∧ ∀ a b, a ∈ take 20 all → b ∈ drop 20 all → ranked (title_words t) a b)
  ∧ (title_words t ≠ [] →
     (∀ w, w ∈ title_words t → w ∈ wordcloud_stopwords) →
     analyze_titles r (mkState h o)
     = (Raise (ValueError
                 "We need at least 1 word to plot a word cloud, got 0."),
        mkState h (o ++ [Msg "Analyzing paper titles..."])))
  ∧ (∀ w, w ∈ title_words t
          ↔ (∃ pre post,
               Py.lower (Py.join " " (py_str <$> dropna t))
               = pre +:+ w +:+ post
               ∧ Py.title_match pre w post)
            ∧ w ∉ stop_words)
  ∧ (run (analyze_titles 0) (mkState [titles2] [])).1
    = Ok [("covid", 2); ("study", 2); ("results", 1)].
Proof.
  intros Hr Hc. split; [|split; [|split]].
  - intros Hw. exists (sort_desc (Counter (title_words t))).
    split; [by eapply analyze_titles_run|].
    pose proof (ranking_Counter (title_words t)) as Hrank.
    split; [done|]. intros a b. by apply ranking_take.
  - intros Hne Hall. by eapply analyze_titles_no_cloud_word.
  - intros w. apply elem_of_title_words.
  - vm_compute. reflexivity.
Qed.

Lemma analyze_titles_ranking_witness :
  (∃ all,
     analyze_titles 0 (mkState [titles2] [])
     = (Ok (take 20 all),
        mkState [titles2] ([] ++ [Msg "Analyzing paper titles..."]))
     ∧ ranking (title_words [Str "Covid Study"; Str "covid study results"]) all
     ∧ ∀ a b, a ∈ take 20 all → b ∈ drop 20 all →
         ranked (title_words [Str "Covid Study"; Str "covid study results"]) a b)
  ∧ analyze_titles 0 (mkState [about_above] [])
    = (Raise (ValueError
                "We need at least 1 word to plot a word cloud, got 0."),
       mkState [about_above] ([] ++ [Msg "Analyzing paper titles..."])).
Proof.
  split.
  - apply (analyze_titles_ranking [titles2] [] 0 titles2
             [Str "Covid Study"; Str "covid study results"]).
    + reflexivity.
    + reflexivity.
    + exists "covid". split; [vm_compute; left|].
      apply not_elem_of_by_computation. vm_compute. reflexivity.
  - apply (analyze_titles_ranking [about_above] [] 0 about_above
             [Str "About above"]).
    + reflexivity.
    + reflexivity.
    + vm_compute. discriminate.
    + intros w Hw. vm_compute in Hw.
      apply elem_of_cons in Hw as [->|Hw];
        [apply elem_of_by_computation; vm_compute; reflexivity|].
      apply elem_of_cons in Hw as [->|Hw];
        [apply elem_of_by_computation; vm_compute; reflexivity|].
      by apply elem_of_nil in Hw.
Defined.

(** ** The table without rows *)

(** C6, on [empty_table]: the rankings of a column are empty, but
    [analyze_titles] does not return; it raises [ValueError] where it
    unpacks the transposition of the empty list of common words, on the
    table as loaded and on the table as cleaned. *)
Theorem analyze_titles_raises_on_the_empty_table :
  (run (top_n 0 "journal" 10) (mkState [empty_table] [])).1 = Ok []
  ∧ (run (analyze_sources 0) (mkState [empty_table] [])).1 = Ok []
  ∧ (run (analyze_titles 0) (mkState [empty_table] [])).1
    = Raise (ValueError "not enough values to unpack (expected 2, got 0)")
  ∧ ∃ σ, run (clean_data iso_date 0) (mkState [empty_table] []) = (Ok 2, σ)
         ∧ (run (analyze_titles 2) σ).1
           = Raise (ValueError "not enough values to unpack (expected 2, got 0)").
Proof.
  split; [vm_compute; reflexivity|].
  split; [vm_compute; reflexivity|].
  split; [vm_compute; reflexivity|].
  eexists. split; [vm_compute; reflexivity|]. vm_compute. reflexivity.
Qed.

(** * Further properties of the code *)

(** ** The steps on a table anywhere in the heap *)

Lemma lookup_lt {A} (h : list A) r x : h !! r = Some x → r < length h.
Proof. apply lookup_lt_Some. Qed.

Lemma getitem_at h o r F c s :
  r < length h → get_column c F = Some s →
  getitem r c (mkState (<[r:=F]> h) o) = (Ok s, mkState (<[r:=F]> h) o).
Proof. intros Hr Hc. eapply getitem_run; [|done]. by apply list_lookup_insert_eq. Qed.

Lemma getitem_at_miss h o r F c :
  r < length h → get_column c F = None →
  getitem r c (mkState (<[r:=F]> h) o)
  = (Raise (KeyError c), mkState (<[r:=F]> h) o).
Proof. intros Hr Hc. eapply getitem_miss; [|done]. by apply list_lookup_insert_eq. Qed.

Lemma setitem_at h o r F c s :
  r < length h →
  setitem r c s (mkState (<[r:=F]> h) o)
  = (Ok (), mkState (<[r:=set_column c s F]> h) o).
Proof.
  intros Hr. unfold setitem.
  rewrite (bind_ok _ _ _ _ _ (read_run _ _ _ _ (list_lookup_insert_eq h r F Hr))).
  unfold write. simpl. by rewrite list_insert_insert_eq.
Qed.

Lemma len_at h o r F :
  r < length h →
  len r (mkState (<[r:=F]> h) o)
  = (Ok (length (index F)), mkState (<[r:=F]> h) o).
Proof.
  intros Hr. unfold len.
  by rewrite (bind_ok _ _ _ _ _ (read_run _ _ _ _ (list_lookup_insert_eq h r F Hr))).
Qed.

Lemma getitem_mask_at h o r F m :
  r < length h →
  getitem_mask r m (mkState (<[r:=F]> h) o)
  = (Ok (length (<[r:=F]> h)),
     mkState (<[r:=F]> h ++ [filter_rows m F]) o).
Proof.
  intros Hr. unfold getitem_mask.
  by rewrite (bind_ok _ _ _ _ _ (read_run _ _ _ _ (list_lookup_insert_eq h r F Hr))).
Qed.

(** One statement of a function body run on the object [r] of the heap. *)
Ltac step_at Hr :=
  first
    [ rewrite bind_print
    | rewrite bind_ret
    | rewrite bind_assoc
    | erewrite (bind_ok (getitem _ _)) by (apply getitem_at; [exact Hr|cols])
    | rewrite (bind_ok _ _ _ _ _ (setitem_at _ _ _ _ _ _ Hr))
    | rewrite (bind_ok _ _ _ _ _ (len_at _ _ _ _ Hr))
    | rewrite (bind_ok _ _ _ _ _ (getitem_mask_at _ _ _ _ _ Hr))
    | rewrite (bind_ok _ _ _ _ _ (len_last _ _ _)) ];
  cbv beta.

Ltac miss_at Hr :=
  erewrite (bind_raise (getitem _ _))
    by (apply getitem_at_miss; [exact Hr|rewrite ?get_set_ne by done; eassumption]).

Section StepsInPlace.
Variable parse_date : value → option (Z * Z * Z).

Lemma handle_dates_at h o r f s :
  h !! r = Some f → get_column "publish_time" f = Some s →
  handle_dates parse_date r (mkState h o)
  = (Ok r,
     mkState (<[r := dates_frame parse_date s f]> h)
       (o ++ [Msg "Processing date columns...";
              DateRange (series_min (filled_years parse_date s))
                        (series_max (filled_years parse_date s))])).
Proof.
  intros Hf Hs. pose proof (lookup_lt _ _ _ Hf) as Hr.
  rewrite <- (list_insert_id h r f Hf) at 1.
  unfold handle_dates. repeat step_at Hr.
  unfold dates_frame, filled_years, years.
  destruct (mode (dt_year (to_datetime parse_date s))) as [|y0 ys];
    repeat step_at Hr; by rewrite <- (app_assoc o).
Qed.

Lemma handle_missing_values_at h o r f t a j :
  h !! r = Some f →
  get_column "title" f = Some t →
  get_column "abstract" f = Some a →
  get_column "journal" f = Some j →
  let fm := missing_frame t a j f in
  let g := filter_rows (keep_mask t a) fm in
  handle_missing_values r (mkState h o)
  = (Ok (length h),
     mkState (<[r := fm]> h ++ [g])
       (o ++ [Msg "Handling missing values...";
              RemovedRows (length (index fm) - length (index g))])).
Proof.
  intros Hf Ht Ha Hj fm g. pose proof (lookup_lt _ _ _ Hf) as Hr.
  rewrite <- (list_insert_id h r f Hf) at 1.
  unfold handle_missing_values. repeat step_at Hr.
  rewrite length_insert. by rewrite <- (app_assoc o).
Qed.

Lemma create_new_features_at h o r f t a x :
  h !! r = Some f →
  get_column "title" f = Some t →
  get_column "abstract" f = Some a →
  get_column "source_x" f = Some x →
  create_new_features r (mkState h o)
  = (Ok r,
     mkState (<[r := features_frame t a x f]> h)
       (o ++ [Msg "Creating new features..."])).
Proof.
  intros Hf Ht Ha Hx. pose proof (lookup_lt _ _ _ Hf) as Hr.
  rewrite <- (list_insert_id h r f Hf) at 1.
  unfold create_new_features. by repeat step_at Hr.
Qed.

End StepsInPlace.

(** ** What the three steps do to the table they are given *)

Lemma insert_lookup_other {A} (h : list A) r r' x :
  r' ≠ r → <[r:=x]> h !! r' = h !! r'.
Proof. intros Hne. by apply list_lookup_insert_ne. Qed.

Lemma not_in_date_columns c :
  c ∉ date_columns →
  c ≠ "publish_time" ∧ c ≠ "publication_year" ∧ c ≠ "publication_month".
Proof.
  unfold date_columns. intros H.
  repeat split; intros ->; apply H; repeat constructor.
Qed.

(** X1: [handle_dates] works in place.  It returns the reference it was
    given; no table is created and no other table changes; in the table
    itself the rows stay and only the columns [publish_time],
    [publication_year] and [publication_month] are assigned. *)
Theorem handle_dates_in_place
    (parse_date : value → option (Z * Z * Z)) h o r f s :
  h !! r = Some f → get_column "publish_time" f = Some s →
  ∃ σ' g,
    handle_dates parse_date r (mkState h o) = (Ok r, σ')
    ∧ heap σ' !! r = Some g
    ∧ length (heap σ') = length h
    ∧ (∀ r', r' ≠ r → heap σ' !! r' = h !! r')
    ∧ index g = index f
    ∧ get_column "publish_time" g = Some (to_datetime parse_date s)
    ∧ get_column "publication_year" g = Some (filled_years parse_date s)
    ∧ get_column "publication_month" g
      = Some (dt_month (to_datetime parse_date s))
    ∧ ∀ c, c ∉ date_columns → get_column c g = get_column c f.
Proof.
  intros Hf Hs. pose proof (lookup_lt _ _ _ Hf) as Hr.
  eexists _, _. split; [by apply handle_dates_at|]. simpl.
  split; [by apply list_lookup_insert_eq|].
  split; [apply length_insert|].
  split; [intros r' Hne; by apply insert_lookup_other|].
  split; [apply index_dates|].
  split; [apply get_dates_publish|].
  split; [apply get_dates_year|].
  split; [apply get_dates_month|].
  intros c (?&?&?)%not_in_date_columns. by apply get_dates_other.
Qed.

Lemma handle_dates_in_place_witness :
  ∃ σ' g,
    handle_dates iso_date 0 (mkState [sample] []) = (Ok 0, σ')
    ∧ heap σ' !! 0 = Some g
    ∧ length (heap σ') = length [sample]
    ∧ (∀ r', r' ≠ 0 → heap σ' !! r' = [sample] !! r')
    ∧ index g = index sample
    ∧ get_column "publish_time" g
      = Some (to_datetime iso_date
                [Str "2020-03-01"; Str "not-a-date"; Str "2021-01-05"])
    ∧ get_column "publication_year" g
      = Some (filled_years iso_date
                [Str "2020-03-01"; Str "not-a-date"; Str "2021-01-05"])
    ∧ get_column "publication_month" g
      = Some (dt_month (to_datetime iso_date
                [Str "2020-03-01"; Str "not-a-date"; Str "2021-01-05"]))
    ∧ ∀ c, c ∉ date_columns → get_column c g = get_column c sample.
Proof.
  apply (handle_dates_in_place iso_date [sample] [] 0 sample).
  - reflexivity.
  - reflexivity.
Defined.

(** X2: [handle_missing_values] fills the columns [title], [abstract]
    and [journal] of the table it is given, in place, and returns
    another table, a new object with the same content: the same rows,
    all of them, and the same columns.  It reports that it removed no
    row, and changes no other table. *)
Theorem handle_missing_values_fills_in_place h o r f t a j :
  h !! r = Some f → frame_wf f →
  get_column "title" f = Some t →
  get_column "abstract" f = Some a →
  get_column "journal" f = Some j →
  ∃ σ' g,
    handle_missing_values r (mkState h o) = (Ok (length h), σ')
    ∧ length h ≠ r
    ∧ heap σ' !! r = Some g
    ∧ heap σ' !! length h = Some g
    ∧ (∀ r', r' ≠ r → r' < length h → heap σ' !! r' = h !! r')
    ∧ index g = index f
    ∧ get_column "title" g = Some (fillna t (Str "Unknown Title"))
    ∧ get_column "abstract" g = Some (fillna a (Str ""))
    ∧ get_column "journal" g = Some (fillna j (Str "Unknown Journal"))
    ∧ (∀ c, c ≠ "title" → c ≠ "abstract" → c ≠ "journal" →
            get_column c g = get_column c f)
    ∧ stdout σ' = o ++ [Msg "Handling missing values..."; RemovedRows 0].
Proof.
  intros Hf Hwf Ht Ha Hj. pose proof (lookup_lt _ _ _ Hf) as Hr.
  pose proof (wf_length _ _ _ Hwf Ht) as Lt.
  pose proof (wf_length _ _ _ Hwf Ha) as La.
  pose proof (wf_length _ _ _ Hwf Hj) as Lj.
  assert (frame_wf (missing_frame t a j f)) as Hwfm by by apply wf_missing.
  assert (filter_rows (keep_mask t a) (missing_frame t a j f)
          = missing_frame t a j f) as Hkeep.
  { apply filter_rows_all; [done|apply keep_mask_all|].
    rewrite length_keep_mask. simpl. lia. }
  exists (mkState (<[r := missing_frame t a j f]> h ++ [missing_frame t a j f])
            (o ++ [Msg "Handling missing values..."; RemovedRows 0])),
         (missing_frame t a j f).
  split.
  { pose proof (handle_missing_values_at h o r f t a j Hf Ht Ha Hj) as Hrun.
    cbv zeta in Hrun. by rewrite Hkeep, Nat.sub_diag in Hrun. }
  simpl. split; [lia|].
  split; [apply lookup_app_l_Some; by apply list_lookup_insert_eq|].
  split.
  { rewrite <- (length_insert h r (missing_frame t a j f)). apply last_lookup. }
  split.
  { intros r' Hne Hlt. rewrite lookup_app_l by by rewrite length_insert.
    by apply insert_lookup_other. }
  split; [done|].
  unfold missing_frame.
  split; [cols|]. split; [cols|]. split; [cols|].
  split; [|done]. intros c ???. by rewrite !get_set_ne.
Qed.

Lemma handle_missing_values_fills_in_place_witness :
  ∃ σ' g,
    handle_missing_values 0 (mkState [sample] []) = (Ok (length [sample]), σ')
    ∧ length [sample] ≠ 0
    ∧ heap σ' !! 0 = Some g
    ∧ heap σ' !! length [sample] = Some g
    ∧ (∀ r', r' ≠ 0 → r' < length [sample] → heap σ' !! r' = [sample] !! r')
    ∧ index g = index sample
    ∧ get_column "title" g
      = Some (fillna [Str "Covid Study"; NaN; NaN] (Str "Unknown Title"))
    ∧ get_column "abstract" g
      = Some (fillna [Str "two  words "; NaN; Str "   "] (Str ""))
    ∧ get_column "journal" g
      = Some (fillna [NaN; Str "J"; Str "J"] (Str "Unknown Journal"))
    ∧ (∀ c, c ≠ "title" → c ≠ "abstract" → c ≠ "journal" →
            get_column c g = get_column c sample)
    ∧ stdout σ' = [] ++ [Msg "Handling missing values..."; RemovedRows 0].
Proof.
  apply (handle_missing_values_fills_in_place [sample] [] 0 sample).
  - reflexivity.
  - repeat constructor.
  - reflexivity.
  - reflexivity.
  - reflexivity.
Defined.

(** X3: [create_new_features] assigns its columns to the caller's table
    in place, one after the other, and returns the reference it was
    given.  When a column it reads is missing it raises [KeyError] for
    that column, and the columns assigned before the failing read stay
    in the caller's table: none when [abstract] is missing, the abstract
    word count when [title] is, the two counts and the flag when
    [source_x] is. *)
Theorem create_new_features_assigns_one_by_one h o r f :
  h !! r = Some f →
  (get_column "abstract" f = None →
     create_new_features r (mkState h o)
     = (Raise (KeyError "abstract"),
        mkState h (o ++ [Msg "Creating new features..."])))
  ∧ (∀ a, get_column "abstract" f = Some a → get_column "title" f = None →
       ∃ σ', create_new_features r (mkState h o) = (Raise (KeyError "title"), σ')
             ∧ heap σ' !! r
               = Some (set_column "abstract_word_count" (apply a word_count) f))
  ∧ (∀ a t, get_column "abstract" f = Some a → get_column "title" f = Some t →
       get_column "source_x" f = None →
       ∃ σ', create_new_features r (mkState h o)
             = (Raise (KeyError "source_x"), σ')
             ∧ heap σ' !! r
               = Some (set_column "has_abstract" (apply a nonblank)
                         (set_column "title_word_count" (apply t word_count)
                            (set_column "abstract_word_count"
                               (apply a word_count) f))))
  ∧ (∀ a t x, get_column "abstract" f = Some a → get_column "title" f = Some t →
       get_column "source_x" f = Some x →
       ∃ σ', create_new_features r (mkState h o) = (Ok r, σ')
             ∧ heap σ' !! r = Some (features_frame t a x f)
             ∧ length (heap σ') = length h).
Proof.
  intros Hf. pose proof (lookup_lt _ _ _ Hf) as Hr.
  split; [|split; [|split]].
  - intros Ha. unfold create_new_features. rewrite bind_print.
    by rewrite (bind_raise _ _ _ _ _ (getitem_miss _ _ _ _ _ Hf Ha)).
  - intros a Ha Ht.
    assert (create_new_features r (mkState h o)
            = (Raise (KeyError "title"),
               mkState (<[r := set_column "abstract_word_count"
                                 (apply a word_count) f]> h)
                 (o ++ [Msg "Creating new features..."]))) as Hrun.
    { rewrite <- (list_insert_id h r f Hf) at 1.
      unfold create_new_features. repeat step_at Hr. by miss_at Hr. }
    eexists. split; [exact Hrun|]. simpl. by apply list_lookup_insert_eq.
  - intros a t Ha Ht Hx.
    assert (create_new_features r (mkState h o)
            = (Raise (KeyError "source_x"),
               mkState (<[r := set_column "has_abstract" (apply a nonblank)
                                 (set_column "title_word_count"
                                    (apply t word_count)
                                    (set_column "abstract_word_count"
                                       (apply a word_count) f))]> h)
                 (o ++ [Msg "Creating new features..."]))) as Hrun.
    { rewrite <- (list_insert_id h r f Hf) at 1.
      unfold create_new_features. repeat step_at Hr. by miss_at Hr. }
    eexists. split; [exact Hrun|]. simpl. by apply list_lookup_insert_eq.
  - intros a t x Ha Ht Hx.
    rewrite (create_new_features_at h o r f t a x Hf Ht Ha Hx).
    eexists. split; [done|]. simpl.
    split; [by apply list_lookup_insert_eq|apply length_insert].
Qed.

Lemma create_new_features_assigns_one_by_one_witness :
  (get_column "abstract" no_source = None →
     create_new_features 0 (mkState [no_source] [])
     = (Raise (KeyError "abstract"),
        mkState [no_source] ([] ++ [Msg "Creating new features..."])))
  ∧ (∀ a, get_column "abstract" no_source = Some a →
       get_column "title" no_source = None →
       ∃ σ', create_new_features 0 (mkState [no_source] [])
             = (Raise (KeyError "title"), σ')
             ∧ heap σ' !! 0
               = Some (set_column "abstract_word_count" (apply a word_count)
                         no_source))
  ∧ (∀ a t, get_column "abstract" no_source = Some a →
       get_column "title" no_source = Some t →
       get_column "source_x" no_source = None →
       ∃ σ', create_new_features 0 (mkState [no_source] [])
             = (Raise (KeyError "source_x"), σ')
             ∧ heap σ' !! 0
               = Some (set_column "has_abstract" (apply a nonblank)
                         (set_column "title_word_count" (apply t word_count)
                            (set_column "abstract_word_count"
                               (apply a word_count) no_source))))
  ∧ (∀ a t x, get_column "abstract" no_source = Some a →
       get_column "title" no_source = Some t →
       get_column "source_x" no_source = Some x →
       ∃ σ', create_new_features 0 (mkState [no_source] []) = (Ok 0, σ')
             ∧ heap σ' !! 0 = Some (features_frame t a x no_source)
             ∧ length (heap σ') = length [no_source]).
Proof.
  apply (create_new_features_assigns_one_by_one [no_source] [] 0 no_source).
  reflexivity.
Defined.

(** ** More on the rows and columns of the cleaned table *)

Lemma required_present f :
  (∀ c, c ∈ required_columns → has_column c f) →
  has_column "publish_time" f ∧ has_column "title" f ∧ has_column "abstract" f
  ∧ has_column "journal" f ∧ has_column "source_x" f.
Proof. intros H. repeat split; apply H; repeat constructor. Qed.

Lemma cell_lookup c i f s :
  get_column c f = Some s → cell c i f = s !! i.
Proof. intros Hc. unfold cell. by rewrite Hc. Qed.

(** X4: in the table returned by [clean_data] every row has a journal,
    the placeholder "Unknown Journal" where the input had none and the
    input's journal otherwise; [source_x] is as in the input, missing
    cells included; [source_type] is the source, or "Unknown" where it
    is missing. *)
Theorem cleaned_rows_journal_and_source
    (parse_date : value → option (Z * Z * Z)) h o r f :
  h !! r = Some f → frame_wf f →
  (∀ c, c ∈ required_columns → has_column c f) →
  ∃ r' σ' g,
    clean_data parse_date r (mkState h o) = (Ok r', σ')
    ∧ heap σ' !! r' = Some g
    ∧ ∀ i, i < length (index g) →
        ∃ j0 x0 ji si,
          cell "journal" i f = Some j0
          ∧ cell "source_x" i f = Some x0
          ∧ cell "journal" i g = Some ji ∧ ji ≠ NaN
          ∧ (j0 = NaN → ji = Str "Unknown Journal")
          ∧ (j0 ≠ NaN → ji = j0)
          ∧ cell "source_x" i g = Some x0
          ∧ cell "source_type" i g = Some si ∧ si ≠ NaN
          ∧ (x0 = NaN → si = Str "Unknown")
          ∧ (x0 ≠ NaN → si = x0).
Proof.
  intros Hr Hwf Hall.
  destruct (clean_data_success parse_date h o r f Hr Hwf Hall)
    as (s & t & a & j & x & σ' & Hs & Ht & Ha & Hj & Hx & Hrun & Hg & _).
  eexists _, _, _. split; [exact Hrun|]. split; [exact Hg|].
  rewrite index_cleaned. intros i Hi.
  pose proof (wf_length _ _ _ Hwf Hj) as Lj.
  pose proof (wf_length _ _ _ Hwf Hx) as Lx.
  destruct (lookup_lt_is_Some_2 j i) as [j0 Hj0]; [lia|].
  destruct (lookup_lt_is_Some_2 x i) as [x0 Hx0]; [lia|].
  destruct (fillna_lookup j (Str "Unknown Journal") i j0)
    as (ji & Hji & ? & ? & ?); [done..|].
  destruct (fillna_lookup x (Str "Unknown") i x0)
    as (si & Hsi & ? & ? & ?); [done..|].
  exists j0, x0, ji, si.
  split; [by rewrite (cell_lookup _ _ _ _ Hj)|].
  split; [by rewrite (cell_lookup _ _ _ _ Hx)|].
  split; [by rewrite (cell_lookup _ _ _ _ (get_cleaned_journal _ _ _ _ _ _ _))|].
  split; [done|]. split; [done|]. split; [done|].
  split.
  { by rewrite (cell_lookup _ _ _ _ (get_cleaned_source parse_date s t a j x f Hx)). }
  split.
  { by rewrite (cell_lookup _ _ _ _ (get_cleaned_source_type _ _ _ _ _ _ _)). }
  done.
Qed.

Lemma cleaned_rows_journal_and_source_witness :
  ∃ r' σ' g,
    clean_data iso_date 0 (mkState [sample] []) = (Ok r', σ')
    ∧ heap σ' !! r' = Some g
    ∧ ∀ i, i < length (index g) →
        ∃ j0 x0 ji si,
          cell "journal" i sample = Some j0
          ∧ cell "source_x" i sample = Some x0
          ∧ cell "journal" i g = Some ji ∧ ji ≠ NaN
          ∧ (j0 = NaN → ji = Str "Unknown Journal")
          ∧ (j0 ≠ NaN → ji = j0)
          ∧ cell "source_x" i g = Some x0
          ∧ cell "source_type" i g = Some si ∧ si ≠ NaN
          ∧ (x0 = NaN → si = Str "Unknown")
          ∧ (x0 ≠ NaN → si = x0).
Proof.
  apply (cleaned_rows_journal_and_source iso_date [sample] [] 0 sample).
  - reflexivity.
  - repeat constructor.
  - intros c Hc.
    repeat (apply elem_of_cons in Hc as [->|Hc]; [by eexists|]).
    by apply elem_of_nil in Hc.
Defined.

(** X5: in the table returned by [clean_data] the cell [publish_time] of
    a row is the timestamp read from the input cell, and
    [publication_month] its month; where no date could be read both are
    missing.  The month is never filled in: a row without a readable
    date has a [publication_year], the most frequent one, as soon as some
    row of the batch has a date, and still no [publication_month]. *)
Theorem cleaned_rows_month_is_not_filled
    (parse_date : value → option (Z * Z * Z)) h o r f :
  h !! r = Some f → frame_wf f →
  (∀ c, c ∈ required_columns → has_column c f) →
  ∃ r' σ' g s,
    clean_data parse_date r (mkState h o) = (Ok r', σ')
    ∧ heap σ' !! r' = Some g
    ∧ get_column "publish_time" f = Some s
    ∧ (∀ i v y mo d, s !! i = Some v →
         to_datetime1 parse_date v = Timestamp y mo d →
         cell "publish_time" i g = Some (Timestamp y mo d)
         ∧ cell "publication_month" i g = Some (Int mo))
    ∧ (∀ i v, s !! i = Some v → to_datetime1 parse_date v = NaN →
         cell "publish_time" i g = Some NaN
         ∧ cell "publication_month" i g = Some NaN
         ∧ (batch_years parse_date s ≠ [] →
            ∃ m, cell "publication_year" i g = Some (Int m))).
Proof.
  intros Hr Hwf Hall.
  destruct (clean_data_success parse_date h o r f Hr Hwf Hall)
    as (s & t & a & j & x & σ' & Hs & Ht & Ha & Hj & Hx & Hrun & Hg & _).
  exists (S (length h)), σ', (cleaned parse_date s t a j x f), s.
  split; [done|]. split; [done|]. split; [done|].
  pose proof (get_cleaned_publish parse_date s t a j x f) as Hp.
  pose proof (get_cleaned_month parse_date s t a j x f) as Hm.
  pose proof (get_cleaned_year parse_date s t a j x f) as Hy.
  split.
  - intros i v y mo d Hv Hts.
    rewrite (cell_lookup _ _ _ _ Hp), (cell_lookup _ _ _ _ Hm).
    unfold dt_month, to_datetime. rewrite !list_lookup_fmap, Hv. simpl.
    by rewrite Hts.
  - intros i v Hv Hna.
    rewrite (cell_lookup _ _ _ _ Hp), (cell_lookup _ _ _ _ Hm),
      (cell_lookup _ _ _ _ Hy).
    unfold dt_month, to_datetime. rewrite !list_lookup_fmap, Hv. simpl.
    rewrite Hna. split; [done|]. split; [done|].
    intros Hne. rewrite (filled_years_lookup _ _ _ _ Hv), Hna.
    destruct (mode (years parse_date s)) as [|m rest] eqn:Hmode; [|by eexists].
    apply mode_nil in Hmode. by rewrite ints_years in Hmode.
Qed.

Lemma cleaned_rows_month_is_not_filled_witness :
  ∃ r' σ' g s,
    clean_data iso_date 0 (mkState [sample] []) = (Ok r', σ')
    ∧ heap σ' !! r' = Some g
    ∧ get_column "publish_time" sample = Some s
    ∧ (∀ i v y mo d, s !! i = Some v →
         to_datetime1 iso_date v = Timestamp y mo d →
         cell "publish_time" i g = Some (Timestamp y mo d)
         ∧ cell "publication_month" i g = Some (Int mo))
    ∧ (∀ i v, s !! i = Some v → to_datetime1 iso_date v = NaN →
         cell "publish_time" i g = Some NaN
         ∧ cell "publication_month" i g = Some NaN
         ∧ (batch_years iso_date s ≠ [] →
            ∃ m, cell "publication_year" i g = Some (Int m))).
Proof.
  apply (cleaned_rows_month_is_not_filled iso_date [sample] [] 0 sample).
  - reflexivity.
  - repeat constructor.
  - intros c Hc.
    repeat (apply elem_of_cons in Hc as [->|Hc]; [by eexists|]).
    by apply elem_of_nil in Hc.
Defined.

Lemma assign_names_present c s s0 cols :
  assoc c cols = Some s0 → (assign c s cols).*1 = cols.*1.
Proof.
  induction cols as [|[c' s'] cols IH]; simpl; [done|].
  destruct (decide (c' = c)) as [->|Hne]; [done|].
  intros H. csimpl. by rewrite IH.
Qed.

Lemma assign_names_absent c s cols :
  assoc c cols = None → (assign c s cols).*1 = cols.*1 ++ [c].
Proof.
  induction cols as [|[c' s'] cols IH]; simpl; [done|].
  destruct (decide (c' = c)) as [->|Hne]; [done|].
  intros H. csimpl. by rewrite IH.
Qed.

Lemma names_set_present c s s0 f :
  get_column c f = Some s0 → column_names (set_column c s f) = column_names f.
Proof. apply assign_names_present. Qed.

Lemma names_set_absent c s f :
  get_column c f = None →
  column_names (set_column c s f) = column_names f ++ [c].
Proof. apply assign_names_absent. Qed.

(** The names of the columns after one more assignment. *)
Ltac names_step :=
  first
    [ erewrite names_set_present
        by (repeat first [rewrite get_set_eq | rewrite get_set_ne by done];
            first [done|eassumption])
    | rewrite names_set_absent
        by (rewrite ?get_set_ne by done; assumption) ].

Lemma names_cleaned parse_date s t a j x f :
  get_column "publish_time" f = Some s →
  get_column "title" f = Some t →
  get_column "abstract" f = Some a →
  get_column "journal" f = Some j →
  (∀ c, c ∈ derived_columns → get_column c f = None) →
  column_names (cleaned parse_date s t a j x f)
  = column_names f ++ derived_columns.
Proof.
  intros Hs Ht Ha Hj Hnew.
  assert (get_column "publication_year" f = None) by (apply Hnew; repeat constructor).
  assert (get_column "publication_month" f = None) by (apply Hnew; repeat constructor).
  assert (get_column "abstract_word_count" f = None) by (apply Hnew; repeat constructor).
  assert (get_column "title_word_count" f = None) by (apply Hnew; repeat constructor).
  assert (get_column "has_abstract" f = None) by (apply Hnew; repeat constructor).
  assert (get_column "source_type" f = None) by (apply Hnew; repeat constructor).
  unfold cleaned, features_frame, missing_frame, dates_frame.
  destruct (mode (years parse_date s)); repeat names_step;
    by rewrite <- !app_assoc.
Qed.

(** X6: on an input that has the required columns and none of the six
    computed names, [clean_data] returns a table with the rows of the
    input, the columns of the input in their order and, after them, the
    six computed columns; and what it prints is, in order: the start
    message, the shape of the input, the date step and the range of the
    years, the missing-value step and a count of 0 rows removed, the
    feature step, and the shape of the result, six columns wider. *)
Theorem clean_data_appends_six_columns
    (parse_date : value → option (Z * Z * Z)) h o r f :
  h !! r = Some f → frame_wf f →
  (∀ c, c ∈ required_columns → has_column c f) →
  (∀ c, c ∈ derived_columns → get_column c f = None) →
  ∃ r' σ' g lo hi,
    clean_data parse_date r (mkState h o) = (Ok r', σ')
    ∧ heap σ' !! r' = Some g
    ∧ index g = index f
    ∧ column_names g = column_names f ++ derived_columns
    ∧ stdout σ'
      = o ++ [Msg "Starting data cleaning process...";
              OriginalShape (length (index f)) (length (columns f));
              Msg "Processing date columns...";
              DateRange lo hi;
              Msg "Handling missing values...";
              RemovedRows 0;
              Msg "Creating new features...";
              CleanedShape (length (index f)) (length (columns f) + 6)].
Proof.
  intros Hr Hwf Hall Hnew.
  destruct (required_present f Hall)
    as ([s Hs] & [t Ht] & [a Ha] & [j Hj] & [x Hx]).
  pose proof (clean_data_ok parse_date h o r f s t a j x Hr Hwf Hs Ht Ha Hj Hx)
    as Hrun.
  pose proof (names_cleaned parse_date s t a j x f Hs Ht Ha Hj Hnew) as Hnames.
  eexists _, _, (cleaned parse_date s t a j x f), _, _.
  split; [exact Hrun|]. cbn [heap stdout].
  split.
  { rewrite lookup_app_r by lia.
    by replace (S (length h) - length h) with 1 by lia. }
  split; [apply index_cleaned|]. split; [done|].
  do 9 f_equal.
  rewrite <- (length_fmap fst (columns (cleaned parse_date s t a j x f))).
  fold (column_names (cleaned parse_date s t a j x f)).
  rewrite Hnames, length_app. unfold column_names. by rewrite length_fmap.
Qed.

Lemma clean_data_appends_six_columns_witness :
  ∃ r' σ' g lo hi,
    clean_data iso_date 0 (mkState [sample] []) = (Ok r', σ')
    ∧ heap σ' !! r' = Some g
    ∧ index g = index sample
    ∧ column_names g = column_names sample ++ derived_columns
    ∧ stdout σ'
      = [] ++ [Msg "Starting data cleaning process...";
               OriginalShape (length (index sample)) (length (columns sample));
               Msg "Processing date columns...";
               DateRange lo hi;
               Msg "Handling missing values...";
               RemovedRows 0;
               Msg "Creating new features...";
               CleanedShape (length (index sample))
                            (length (columns sample) + 6)].
Proof.
  apply (clean_data_appends_six_columns iso_date [sample] [] 0 sample).
  - reflexivity.
  - repeat constructor.
  - intros c Hc.
    repeat (apply elem_of_cons in Hc as [->|Hc]; [by eexists|]).
    by apply elem_of_nil in Hc.
  - intros c Hc.
    repeat (apply elem_of_cons in Hc as [->|Hc]; [reflexivity|]).
    by apply elem_of_nil in Hc.
Defined.

(** ** The titles, one by one *)

Lemma count_app {K} `{EqDecision K} (k : K) l1 l2 :
  count k (l1 ++ l2) = count k l1 + count k l2.
Proof. unfold count. by rewrite filter_app, length_app. Qed.

Lemma count_bind {A K} `{EqDecision K} (k : K) (f : A → list K) l :
  count k (l ≫= f) = sum_list_with (λ x, count k (f x)) l.
Proof.
  induction l as [|x l IH]; [done|].
  rewrite bind_cons, count_app, IH. done.
Qed.

Lemma elem_of_most_common {K} `{EqDecision K} n (l : list K) k c :
  (k, c) ∈ most_common n (Counter l) → k ∈ l ∧ c = count k l.
Proof.
  unfold most_common. intros Hin%subseteq_take.
  by apply (ranking_Counter l).
Qed.

Lemma NoDup_most_common {K} `{EqDecision K} n (l : list K) :
  NoDup (most_common n (Counter l)).*1.
Proof.
  unfold most_common. rewrite fmap_take.
  eapply sublist_NoDup; [|apply sublist_take].
  apply (ranking_Counter l).
Qed.

Lemma most_common_all {K} `{EqDecision K} n (l : list K) k :
  length (most_common n (Counter l)) < n → k ∈ l →
  (k, count k l) ∈ most_common n (Counter l).
Proof.
  unfold most_common. intros Hlen Hin.
  rewrite take_ge.
  - by apply (ranking_Counter l).
  - rewrite length_take in Hlen. lia.
Qed.

Lemma most_common_length {K} `{EqDecision K} n (l : list K) :
  length (most_common n (Counter l)) ≤ n.
Proof. unfold most_common. rewrite length_take. lia. Qed.

Lemma most_common_nonempty {K} `{EqDecision K} n (l : list K) :
  0 < n → l ≠ [] → 1 ≤ length (most_common n (Counter l)).
Proof.
  intros Hn Hne. destruct l as [|k l]; [done|].
  assert ((k, count k (k :: l)) ∈ sort_desc (Counter (k :: l))) as Hin.
  { apply (ranking_Counter (k :: l)). split; [left|done]. }
  unfold most_common. rewrite length_take.
  destruct (sort_desc (Counter (k :: l))); [by apply elem_of_nil in Hin|].
  simpl. lia.
Qed.

Lemma bind_nil_iff {A B} (f : A → list B) l :
  l ≫= f = [] ↔ ∀ x, x ∈ l → f x = [].
Proof.
  induction l as [|x l IH].
  - split; [|done]. intros _ y Hy. by apply elem_of_nil in Hy.
  - rewrite bind_cons. split.
    + intros [Hx Hl]%app_eq_nil y [->|Hy]%elem_of_cons; [done|].
      by apply IH.
    + intros Hall. rewrite (Hall x) by left. simpl.
      apply IH. intros y Hy. apply Hall. by right.
Qed.

Lemma elem_of_dropna x (s : Series) : x ∈ dropna s ↔ x ∈ s ∧ x ≠ NaN.
Proof.
  unfold dropna. rewrite list_elem_of_filter. destruct x; naive_solver.
Qed.

(** The words counted are those of the rows that have a title. *)
Lemma elem_of_title_words_rows w t :
  w ∈ title_words t ↔ ∃ x, x ∈ t ∧ x ≠ NaN ∧ w ∈ words_of_title x.
Proof.
  rewrite title_words_bind, list_elem_of_bind.
  setoid_rewrite elem_of_dropna. naive_solver.
Qed.

(** X7: joining the titles with spaces neither merges words of
    neighbouring titles nor makes new ones.  When some title holds a
    word that is not a stop word of the word-cloud library, so that the
    word cloud can be drawn, [analyze_titles] returns the 20 first
    entries of the count of the words of the titles taken row by row,
    and the count it gives for a word is the sum over the rows with a
    title of the occurrences of the word in that title. *)
Theorem analyze_titles_counts_title_by_title h o r f t :
  h !! r = Some f → get_column "title" f = Some t →
  (∃ x w, x ∈ t ∧ x ≠ NaN ∧ w ∈ words_of_title x ∧ w ∉ wordcloud_stopwords) →
  analyze_titles r (mkState h o)
  = (Ok (most_common 20 (Counter (dropna t ≫= words_of_title))),
     mkState h (o ++ [Msg "Analyzing paper titles..."]))
  ∧ ∀ w c,
      (w, c) ∈ most_common 20 (Counter (dropna t ≫= words_of_title)) →
      c = sum_list_with (λ x, count w (words_of_title x)) (dropna t).
Proof.
  intros Hr Hc (x & w & Hx & Hna & Hw & Hcloud).
  rewrite <- title_words_bind in *. split.
  - eapply analyze_titles_run; [done..|]. exists w. split; [|done].
    apply elem_of_title_words_rows. eauto.
  - intros w' c [_ ->]%elem_of_most_common.
    by rewrite title_words_bind, count_bind.
Qed.

Lemma analyze_titles_counts_title_by_title_witness :
  analyze_titles 0 (mkState [titles2] [])
  = (Ok (most_common 20
           (Counter (dropna [Str "Covid Study"; Str "covid study results"]
                     ≫= words_of_title))),
     mkState [titles2] ([] ++ [Msg "Analyzing paper titles..."]))
  ∧ ∀ w c,
      (w, c) ∈ most_common 20
                 (Counter (dropna [Str "Covid Study"; Str "covid study results"]
                           ≫= words_of_title)) →
      c = sum_list_with (λ x, count w (words_of_title x))
            (dropna [Str "Covid Study"; Str "covid study results"]).
Proof.
  apply (analyze_titles_counts_title_by_title [titles2] [] 0 titles2
           [Str "Covid Study"; Str "covid study results"]).
  - reflexivity.
  - reflexivity.
  - exists (Str "Covid Study"), "covid". split; [left|]. split; [done|].
    split; [vm_compute; left|].
    apply not_elem_of_by_computation. vm_compute. reflexivity.
Defined.

(** X8: the four outcomes of [analyze_titles] on a table [f].  Without a
    column [title] it raises [KeyError] for that name.  With the column
    but no word to count in any title present (no row, no title, or
    titles made of stop words, short words and numbers only) it raises
    [ValueError] where the list of common words is unpacked.  With words
    to count that are all stop words of the word-cloud library it raises
    the [ValueError] of the word cloud, which has no word to draw.  As
    soon as one title holds a word that is no stop word for either it
    returns between 1 and 20 entries.  In the four cases the tables are
    left as they were and one line is printed. *)
Theorem analyze_titles_outcomes h o r f :
  h !! r = Some f →
  let σ' := mkState h (o ++ [Msg "Analyzing paper titles..."]) in
  (get_column "title" f = None →
   analyze_titles r (mkState h o) = (Raise (KeyError "title"), σ'))
  ∧ (∀ t, get_column "title" f = Some t →
          (∀ x, x ∈ t → x ≠ NaN → words_of_title x = []) →
          analyze_titles r (mkState h o)
          = (Raise (ValueError "not enough values to unpack (expected 2, got 0)"),
             σ'))
  ∧ (∀ t x w, get_column "title" f = Some t →
              x ∈ t → x ≠ NaN → w ∈ words_of_title x →
              (∀ x' w', x' ∈ t → x' ≠ NaN → w' ∈ words_of_title x' →
                        w' ∈ wordcloud_stopwords) →
              analyze_titles r (mkState h o)
              = (Raise (ValueError
                          "We need at least 1 word to plot a word cloud, got 0."),
                 σ'))
  ∧ (∀ t x w, get_column "title" f = Some t →
              x ∈ t → x ≠ NaN → w ∈ words_of_title x →
              w ∉ wordcloud_stopwords →
              ∃ res, analyze_titles r (mkState h o) = (Ok res, σ')
                     ∧ 1 ≤ length res ≤ 20).
Proof.
  intros Hr σ'. split; [|split; [|split]].
  - intros Hc. unfold analyze_titles. rewrite bind_print.
    by rewrite (bind_raise _ _ _ _ _ (getitem_miss _ _ _ _ _ Hr Hc)).
  - intros t Hc Hall. eapply analyze_titles_no_word; [done..|].
    rewrite title_words_bind. apply bind_nil_iff.
    intros x [Hx Hna]%elem_of_dropna. by apply Hall.
  - intros t x w Hc Hx Hna Hw Hall.
    eapply analyze_titles_no_cloud_word; [done..| |].
    + intros He.
      assert (w ∈ title_words t) as Hin
        by (apply elem_of_title_words_rows; eauto).
      rewrite He in Hin. by apply elem_of_nil in Hin.
    + intros w' (x' & Hx' & Hna' & Hw')%elem_of_title_words_rows. eauto.
  - intros t x w Hc Hx Hna Hw Hcloud.
    assert (w ∈ title_words t) as Hin
      by (apply elem_of_title_words_rows; eauto).
    eexists. split.
    + eapply analyze_titles_run; [done..|]. eauto.
    + split; [|apply most_common_length].
      apply most_common_nonempty; [lia|].
      intros He. rewrite He in Hin. by apply elem_of_nil in Hin.
Qed.

Lemma analyze_titles_outcomes_witness :
  analyze_titles 0 (mkState [journals5] [])
  = (Raise (KeyError "title"),
     mkState [journals5] ([] ++ [Msg "Analyzing paper titles..."]))
  ∧ analyze_titles 0 (mkState [empty_table] [])
    = (Raise (ValueError "not enough values to unpack (expected 2, got 0)"),
       mkState [empty_table] ([] ++ [Msg "Analyzing paper titles..."]))
  ∧ analyze_titles 0 (mkState [about_above] [])
    = (Raise (ValueError
                "We need at least 1 word to plot a word cloud, got 0."),
       mkState [about_above] ([] ++ [Msg "Analyzing paper titles..."]))
  ∧ ∃ res, analyze_titles 0 (mkState [titles2] [])
           = (Ok res,
              mkState [titles2] ([] ++ [Msg "Analyzing paper titles..."]))
           ∧ 1 ≤ length res ≤ 20.
Proof.
  destruct (analyze_titles_outcomes [journals5] [] 0 journals5 eq_refl)
    as (H1 & _).
  destruct (analyze_titles_outcomes [empty_table] [] 0 empty_table eq_refl)
    as (_ & H2 & _).
  destruct (analyze_titles_outcomes [about_above] [] 0 about_above eq_refl)
    as (_ & _ & H3 & _).
  destruct (analyze_titles_outcomes [titles2] [] 0 titles2 eq_refl)
    as (_ & _ & _ & H4).
  split; [|split; [|split]].
  - apply H1. reflexivity.
  - apply (H2 []).
    + reflexivity.
    + intros x Hx. by apply elem_of_nil in Hx.
  - apply (H3 [Str "About above"] (Str "About above") "about").
    + reflexivity.
    + left.
    + done.
    + vm_compute. left.
    + intros x' w' Hx' _ Hw'.
      apply list_elem_of_singleton in Hx' as ->. vm_compute in Hw'.
      apply elem_of_cons in Hw' as [->|Hw'];
        [apply elem_of_by_computation; vm_compute; reflexivity|].
      apply elem_of_cons in Hw' as [->|Hw'];
        [apply elem_of_by_computation; vm_compute; reflexivity|].
      by apply elem_of_nil in Hw'.
  - apply (H4 [Str "Covid Study"; Str "covid study results"]
             (Str "Covid Study") "covid").
    + reflexivity.
    + left.
    + done.
    + vm_compute. left.
    + apply not_elem_of_by_computation. vm_compute. reflexivity.
Defined.

(** X9: what a result of [analyze_titles] looks like, whatever the
    table.  No word is listed twice, there are 20 entries at most, and
    each entry is a word written with the letters a to z only (the text
    is lower-cased before the pattern is applied), of three letters or
    more, that is not a stop word, with a count of 1 at least; the
    tables are not modified. *)
Theorem analyze_titles_result_words h o r res σ' :
  analyze_titles r (mkState h o) = (Ok res, σ') →
  NoDup res.*1 ∧ length res ≤ 20 ∧ heap σ' = h
  ∧ ∀ w c, (w, c) ∈ res →
      Py.str_forall is_lower_alpha w = true ∧ 3 ≤ Py.str_len w
      ∧ (w ∉ stop_words) ∧ 1 ≤ c.
Proof.
  intros (f & t & Hr & Hc & Hne & -> & ->)%analyze_titles_inv.
  split; [apply NoDup_most_common|]. split; [apply most_common_length|].
  split; [done|].
  intros w c [Hw ->]%elem_of_most_common.
  destruct (title_words_shape _ _ Hw) as (? & ? & ?).
  repeat split; try done. by apply count_pos.
Qed.

Lemma analyze_titles_result_words_witness :
  NoDup [("covid", 2); ("study", 2); ("results", 1)].*1
  ∧ length [("covid", 2); ("study", 2); ("results", 1)] ≤ 20
  ∧ heap (mkState [titles2] [Msg "Analyzing paper titles..."]) = [titles2]
  ∧ ∀ w c, (w, c) ∈ [("covid", 2); ("study", 2); ("results", 1)] →
      Py.str_forall is_lower_alpha w = true ∧ 3 ≤ Py.str_len w
      ∧ (w ∉ stop_words) ∧ 1 ≤ c.
Proof.
  apply (analyze_titles_result_words [titles2] [] 0).
  vm_compute. reflexivity.
Defined.

Lemma dropna_fillna (s : Series) v : v ≠ NaN → dropna (fillna s v) = fillna s v.
Proof.
  intros Hv. unfold dropna, fillna. induction s as [|x s IH]; [done|].
  csimpl. rewrite filter_cons_True; [by rewrite IH|].
  destruct x; simpl; try done. by destruct v.
Qed.

Lemma count_cons {K} `{EqDecision K} (k x : K) l :
  count k (x :: l) = (if decide (x = k) then 1 else 0) + count k l.
Proof.
  unfold count. destruct (decide (x = k)).
  - by rewrite filter_cons_True.
  - by rewrite filter_cons_False.
Qed.

(** Each title that was missing is one occurrence more of the words of
    the placeholder. *)
Lemma placeholder_count w (t : Series) :
  w ∈ words_of_title (Str "Unknown Title") →
  count NaN t ≤ count w (title_words (fillna t (Str "Unknown Title"))).
Proof.
  intros Hw. rewrite title_words_bind, dropna_fillna by done.
  rewrite count_bind. induction t as [|x t IH]; [done|].
  rewrite count_cons. unfold fillna in *. csimpl.
  destruct x; simpl; try lia.
  apply count_pos in Hw. lia.
Qed.

(** X10: the placeholder title is counted as text.  When [clean_data]
    has run on a table with missing titles, [analyze_titles] on the
    cleaned table does not fail for lack of words, and the words
    "unknown" and "title" of the placeholder "Unknown Title" are counted
    once for every row whose title was missing: where they appear in the
    result their count is at least the number of such rows, and they do
    appear when the result has fewer than 20 entries. *)
Theorem placeholder_titles_are_counted
    (parse_date : value → option (Z * Z * Z)) h o r f t :
  h !! r = Some f → frame_wf f →
  (∀ c, c ∈ required_columns → has_column c f) →
  get_column "title" f = Some t → NaN ∈ t →
  ∃ r' σ' res σ'',
    clean_data parse_date r (mkState h o) = (Ok r', σ')
    ∧ analyze_titles r' σ' = (Ok res, σ'')
    ∧ (∀ w c, w = "unknown" ∨ w = "title" → (w, c) ∈ res → count NaN t ≤ c)
    ∧ (length res < 20 →
       ∃ c c', ("unknown", c) ∈ res ∧ ("title", c') ∈ res).
Proof.
  intros Hr Hwf Hall Ht Hna.
  destruct (clean_data_success parse_date h o r f Hr Hwf Hall)
    as (s & t' & a & j & x & [h' o'] & Hs & Ht' & Ha & Hj & Hx & Hrun & Hg & _).
  assert (t' = t) as -> by congruence. simpl in Hg.
  pose proof (get_cleaned_title parse_date s t a j x f) as Hc.
  set (T := fillna t (Str "Unknown Title")) in *.
  assert (words_of_title (Str "Unknown Title") = ["unknown"; "title"]) as Hw
    by (vm_compute; reflexivity).
  assert (∀ w, w = "unknown" ∨ w = "title" → 0 < count w (title_words T)) as Hpos.
  { intros w Hin. apply Nat.lt_le_trans with (count NaN t).
    - by apply count_pos.
    - apply placeholder_count. rewrite Hw.
      destruct Hin as [-> | ->]; [left|right; left]. }
  assert (∀ w, w = "unknown" ∨ w = "title" → w ∈ title_words T) as Hin.
  { intros w Hw'. apply Hpos in Hw'.
    destruct (decide (w ∈ title_words T)) as [|Hn]; [done|].
    rewrite count_0 in Hw' by done. lia. }
  assert (title_words T ≠ []) as Hne.
  { intros He. specialize (Hin "unknown" (or_introl eq_refl)).
    rewrite He in Hin. by apply elem_of_nil in Hin. }
  assert (∃ w, w ∈ title_words T ∧ w ∉ wordcloud_stopwords) as Hcloud.
  { exists "unknown". split; [by apply Hin; left|].
    apply not_elem_of_by_computation. vm_compute. reflexivity. }
  eexists _, _, _, _. split; [exact Hrun|].
  split; [exact (analyze_titles_run _ _ _ _ _ Hg Hc Hcloud)|]. split.
  - intros w c Hw' [_ ->]%elem_of_most_common.
    apply placeholder_count. rewrite Hw.
    destruct Hw' as [-> | ->]; [left|right; left].
  - intros Hlen. exists (count "unknown" (title_words T)),
      (count "title" (title_words T)).
    split; apply most_common_all; auto.
Qed.

Lemma placeholder_titles_are_counted_witness :
  ∃ r' σ' res σ'',
    clean_data iso_date 0 (mkState [sample] []) = (Ok r', σ')
    ∧ analyze_titles r' σ' = (Ok res, σ'')
    ∧ (∀ w c, w = "unknown" ∨ w = "title" → (w, c) ∈ res →
         count NaN [Str "Covid Study"; NaN; NaN] ≤ c)
    ∧ (length res < 20 →
       ∃ c c', ("unknown", c) ∈ res ∧ ("title", c') ∈ res).
Proof.
  apply (placeholder_titles_are_counted iso_date [sample] [] 0 sample
           [Str "Covid Study"; NaN; NaN]).
  - reflexivity.
  - repeat constructor.
  - intros c Hc.
    repeat (apply elem_of_cons in Hc as [->|Hc]; [by eexists|]).
    by apply elem_of_nil in Hc.
  - reflexivity.
  - right; left.
Defined.

(** ** The yearly counts *)

Lemma insert_key_perm x l : insert_key x l ≡ₚ x :: l.
Proof.
  induction l as [|y l IH]; [done|]. simpl.
  destruct (key_leb x.1 y.1); [done|]. by rewrite IH, Permutation_swap.
Qed.

Lemma by_key_perm l : by_key l ≡ₚ l.
Proof.
  induction l as [|x l IH]; [done|].
  unfold by_key in *. simpl. by rewrite insert_key_perm, IH.
Qed.

Lemma year_lt_trans a b c : year_lt a b → year_lt b c → year_lt a c.
Proof.
  unfold year_lt. destruct a.1, b.1, c.1; try done. lia.
Qed.

Lemma insert_key_sorted x l :
  (∃ n, x.1 = Int n) → Forall (λ y, ∃ n, y.1 = Int n) l →
  x.1 ∉ l.*1 →
  StronglySorted year_lt l → StronglySorted year_lt (insert_key x l).
Proof.
  intros [n Hx] Hint Hnew Hs.
  induction Hs as [|y l Hs IH Hy]; [repeat constructor|].
  apply Forall_cons in Hint as [[m Hm] Hint].
  rewrite fmap_cons in Hnew. apply not_elem_of_cons in Hnew as [Hne Hnew].
  simpl. rewrite Hx, Hm. simpl.
  destruct (Z.leb_spec n m) as [Hle|Hlt].
  - assert (year_lt x y) as Hxy.
    { unfold year_lt. rewrite Hx, Hm. rewrite Hx, Hm in Hne.
      assert (n ≠ m) by congruence. lia. }
    constructor; [by constructor|]. constructor; [done|].
    eapply Forall_impl; [exact Hy|]. intros z. by apply year_lt_trans.
  - constructor; [by apply IH|].
    rewrite insert_key_perm. constructor; [|done].
    unfold year_lt. by rewrite Hx, Hm.
Qed.

Lemma by_key_sorted l :
  Forall (λ y, ∃ n, y.1 = Int n) l → NoDup l.*1 →
  StronglySorted year_lt (by_key l).
Proof.
  induction l as [|x l IH]; [constructor|].
  intros [Hx Hl]%Forall_cons. rewrite fmap_cons.
  intros [Hnew Hnd]%NoDup_cons.
  change (by_key (x :: l)) with (insert_key x (by_key l)).
  apply insert_key_sorted; [done| | |by apply IH].
  - by rewrite by_key_perm.
  - by rewrite by_key_perm.
Qed.

Lemma StronglySorted_filter {A} (R : A → A → Prop) (P : A → Prop)
    `{∀ x, Decision (P x)} l :
  StronglySorted R l → StronglySorted R (filter P l).
Proof.
  induction 1 as [|x l Hs IH Hx]; [constructor|].
  destruct (decide (P x)).
  - rewrite filter_cons_True by done. constructor; [done|].
    apply Forall_forall. intros y [_ Hy]%list_elem_of_filter.
    by eapply Forall_forall in Hx.
  - by rewrite filter_cons_False.
Qed.

(** Boolean indexing by a mask computed entry by entry. *)
Lemma select_mapM {A} (g : A → option bool) l m :
  mapM g l = Some m → select m l = filter (λ x, g x = Some true) l.
Proof.
  revert m. induction l as [|x l IH]; intros m Hm.
  - by injection Hm as <-.
  - rewrite mapM_Some in Hm. inversion Hm as [|? b ? m' Hx Hl]; subst.
    apply mapM_Some in Hl. simpl. rewrite (IH _ Hl).
    destruct b.
    + by rewrite filter_cons_True.
    + rewrite filter_cons_False; [done|]. by rewrite Hx.
Qed.

Lemma cmp_int_numeric op x n : is_Some (cmp_int op x n) ↔ numeric x.
Proof.
  unfold numeric. destruct x; simpl; split; try done; by intros [? ?].
Qed.

Lemma mapM_cmp_numeric {A} op n (key : A → value) l :
  Forall (λ x, numeric (key x)) l →
  is_Some (mapM (λ x, cmp_int op (key x) n) l).
Proof.
  intros Hl. apply mapM_is_Some. eapply Forall_impl; [exact Hl|].
  intros x Hx. by apply cmp_int_numeric.
Qed.

Lemma mapM_cmp_text {A} op n (key : A → value) l x :
  x ∈ l → ¬ numeric (key x) → mapM (λ x, cmp_int op (key x) n) l = None.
Proof.
  intros Hx Hk.
  destruct (mapM (λ x, cmp_int op (key x) n) l) as [m|] eqn:Hm; [|done].
  exfalso. apply Hk.
  assert (is_Some (mapM (λ x, cmp_int op (key x) n) l)) as Hs by by eexists.
  apply mapM_is_Some in Hs. rewrite Forall_forall in Hs.
  by apply (cmp_int_numeric op _ n), Hs.
Qed.

Lemma value_counts_keys (s : Series) kc : kc ∈ value_counts s → kc.1 ∈ s.
Proof.
  destruct kc as [v c]. intros Hin.
  by apply (value_counts_ranking s) in Hin as (_ & ? & _).
Qed.

Lemma same_kind_numeric l :
  Forall (λ kc : value * nat, numeric kc.1) l → same_kind l.
Proof.
  destruct l as [|a l]; [done|]. intros [Ha Hl]%Forall_cons. simpl.
  eapply Forall_impl; [exact Hl|]. intros b Hb. unfold numeric in *. congruence.
Qed.

Lemma numeric_value_counts (s : Series) :
  Forall numeric s → Forall (λ kc : value * nat, numeric kc.1) (value_counts s).
Proof.
  rewrite !Forall_forall. intros Hs kc Hkc. by apply Hs, value_counts_keys.
Qed.

Lemma sort_index_numeric (s : Series) σ :
  Forall numeric s →
  sort_index (value_counts s) σ = (Ok (by_key (value_counts s)), σ).
Proof.
  intros Hs. rewrite sort_index_run, decide_True; [done|].
  by apply same_kind_numeric, numeric_value_counts.
Qed.

Lemma index_ge_numeric (s : Series) n σ :
  Forall numeric s →
  index_ge (by_key (value_counts s)) n σ
  = (Ok (filter (λ kc, cmp_int Z.geb kc.1 n = Some true)
           (by_key (value_counts s))), σ).
Proof.
  intros Hs. rewrite index_ge_run.
  destruct (mapM_cmp_numeric Z.geb n (λ kc : value * nat, kc.1)
              (by_key (value_counts s))) as [m Hm].
  { rewrite by_key_perm. by apply numeric_value_counts. }
  rewrite Hm. by rewrite (select_mapM _ _ _ Hm).
Qed.

Lemma series_gt_numeric (s : Series) n σ :
  Forall numeric s → ∃ m, series_gt s n σ = (Ok m, σ).
Proof.
  intros Hs. rewrite series_gt_run.
  destruct (mapM_cmp_numeric Z.gtb n (λ x : value, x) s Hs) as [m Hm].
  exists m. by rewrite Hm.
Qed.

(** A year that is a text or a date stops the yearly counts. *)
Lemma yearly_counts_text (y : Series) v σ :
  v ∈ y → ¬ numeric v →
  (yearly_counts ← sort_index (value_counts y); index_ge yearly_counts 2019) σ
  = (Raise TypeError, σ).
Proof.
  intros Hv Hk.
  destruct (decide (same_kind (value_counts y))) as [Hs|Hs]; cycle 1.
  { apply bind_raise. rewrite sort_index_run. by rewrite decide_False. }
  erewrite bind_ok; cycle 1.
  { rewrite sort_index_run. by rewrite decide_True. }
  rewrite index_ge_run.
  rewrite (mapM_cmp_text Z.geb 2019 (λ kc : value * nat, kc.1) _ (v, count v y));
    [done| |done].
  rewrite by_key_perm. apply (value_counts_ranking y).
  split; [|done]. intros ->. by apply Hk.
Qed.

Section TrendsRuns.
Context (h : list DataFrame) (o : list event) (r : ref) (f : DataFrame).
Hypothesis Hr : h !! r = Some f.

#[local] Abbreviation σ' :=
  (mkState h (o ++ [Msg "Analyzing publication trends..."])).

Lemma analyze_publication_trends_miss_year :
  get_column "publication_year" f = None →
  analyze_publication_trends r (mkState h o)
  = (Raise (KeyError "publication_year"), σ').
Proof.
  intros Hy. unfold analyze_publication_trends. rewrite bind_print.
  by rewrite (bind_raise _ _ _ _ _ (getitem_miss _ _ _ _ _ Hr Hy)).
Qed.

Lemma analyze_publication_trends_text_year y v :
  get_column "publication_year" f = Some y → v ∈ y → ¬ numeric v →
  analyze_publication_trends r (mkState h o) = (Raise TypeError, σ').
Proof.
  intros Hy Hv Hk. unfold analyze_publication_trends. rewrite bind_print.
  rewrite (bind_ok _ _ _ _ _ (getitem_run _ _ _ _ _ _ Hr Hy)).
  rewrite <- bind_assoc.
  by rewrite (bind_raise _ _ _ _ _ (yearly_counts_text y v _ Hv Hk)).
Qed.

Section Years.
Context (y : Series).
Hypothesis Hy : get_column "publication_year" f = Some y.
Hypothesis Hnum : Forall numeric y.

Lemma analyze_publication_trends_miss_journal :
  get_column "journal" f = None →
  analyze_publication_trends r (mkState h o) = (Raise (KeyError "journal"), σ').
Proof.
  intros Hj. unfold analyze_publication_trends. rewrite bind_print.
  rewrite (bind_ok _ _ _ _ _ (getitem_run _ _ _ _ _ _ Hr Hy)).
  rewrite (bind_ok _ _ _ _ _ (sort_index_numeric y _ Hnum)).
  rewrite (bind_ok _ _ _ _ _ (index_ge_numeric y 2019 _ Hnum)).
  by rewrite (bind_raise _ _ _ _ _ (getitem_miss _ _ _ _ _ Hr Hj)).
Qed.

Lemma analyze_publication_trends_miss_count j :
  get_column "journal" f = Some j →
  get_column "abstract_word_count" f = None →
  analyze_publication_trends r (mkState h o)
  = (Raise (KeyError "abstract_word_count"), σ').
Proof.
  intros Hj Hw. unfold analyze_publication_trends. rewrite bind_print.
  rewrite (bind_ok _ _ _ _ _ (getitem_run _ _ _ _ _ _ Hr Hy)).
  rewrite (bind_ok _ _ _ _ _ (sort_index_numeric y _ Hnum)).
  rewrite (bind_ok _ _ _ _ _ (index_ge_numeric y 2019 _ Hnum)).
  rewrite (bind_ok _ _ _ _ _ (getitem_run _ _ _ _ _ _ Hr Hj)).
  by rewrite (bind_raise _ _ _ _ _ (getitem_miss _ _ _ _ _ Hr Hw)).
Qed.

Lemma analyze_publication_trends_text_count j w v :
  get_column "journal" f = Some j →
  get_column "abstract_word_count" f = Some w →
  v ∈ w → ¬ numeric v →
  analyze_publication_trends r (mkState h o) = (Raise TypeError, σ').
Proof.
  intros Hj Hw Hv Hk. unfold analyze_publication_trends. rewrite bind_print.
  rewrite (bind_ok _ _ _ _ _ (getitem_run _ _ _ _ _ _ Hr Hy)).
  rewrite (bind_ok _ _ _ _ _ (sort_index_numeric y _ Hnum)).
  rewrite (bind_ok _ _ _ _ _ (index_ge_numeric y 2019 _ Hnum)).
  rewrite (bind_ok _ _ _ _ _ (getitem_run _ _ _ _ _ _ Hr Hj)).
  rewrite (bind_ok _ _ _ _ _ (getitem_run _ _ _ _ _ _ Hr Hw)).
  erewrite bind_raise; [done|]. rewrite series_gt_run.
  by rewrite (mapM_cmp_text Z.gtb 0 (λ x : value, x) w v).
Qed.

Lemma analyze_publication_trends_miss_flag j w :
  get_column "journal" f = Some j →
  get_column "abstract_word_count" f = Some w → Forall numeric w →
  get_column "has_abstract" f = None →
  analyze_publication_trends r (mkState h o)
  = (Raise (KeyError "has_abstract"), σ').
Proof.
  intros Hj Hw Hnw Hb. unfold analyze_publication_trends. rewrite bind_print.
  rewrite (bind_ok _ _ _ _ _ (getitem_run _ _ _ _ _ _ Hr Hy)).
  rewrite (bind_ok _ _ _ _ _ (sort_index_numeric y _ Hnum)).
  rewrite (bind_ok _ _ _ _ _ (index_ge_numeric y 2019 _ Hnum)).
  rewrite (bind_ok _ _ _ _ _ (getitem_run _ _ _ _ _ _ Hr Hj)).
  rewrite (bind_ok _ _ _ _ _ (getitem_run _ _ _ _ _ _ Hr Hw)).
  destruct (series_gt_numeric w 0 σ' Hnw) as [m Hm].
  rewrite (bind_ok _ _ _ _ _ Hm).
  by rewrite (bind_raise _ _ _ _ _ (getitem_miss _ _ _ _ _ Hr Hb)).
Qed.

Section Columns.
Context (j w b : Series).
Hypothesis Hj : get_column "journal" f = Some j.
Hypothesis Hw : get_column "abstract_word_count" f = Some w.
Hypothesis Hnw : Forall numeric w.
Hypothesis Hb : get_column "has_abstract" f = Some b.

(** With its columns, and numbers where it compares,
    [analyze_publication_trends] returns when the pie has its two
    wedges, and otherwise fails there. *)
Lemma analyze_publication_trends_run :
  length (value_counts b) = 2 →
  analyze_publication_trends r (mkState h o)
  = (Ok (filter (λ kc, cmp_int Z.geb kc.1 2019 = Some true)
           (by_key (value_counts y)),
         take 10 (value_counts j)), σ').
Proof.
  intros Hl. unfold analyze_publication_trends, head. rewrite bind_print.
  rewrite (bind_ok _ _ _ _ _ (getitem_run _ _ _ _ _ _ Hr Hy)).
  rewrite (bind_ok _ _ _ _ _ (sort_index_numeric y _ Hnum)).
  rewrite (bind_ok _ _ _ _ _ (index_ge_numeric y 2019 _ Hnum)).
  rewrite (bind_ok _ _ _ _ _ (getitem_run _ _ _ _ _ _ Hr Hj)).
  rewrite (bind_ok _ _ _ _ _ (getitem_run _ _ _ _ _ _ Hr Hw)).
  destruct (series_gt_numeric w 0 σ' Hnw) as [m Hm].
  rewrite (bind_ok _ _ _ _ _ Hm).
  rewrite (bind_ok _ _ _ _ _ (getitem_run _ _ _ _ _ _ Hr Hb)).
  erewrite bind_ok; [done|].
  rewrite pie_run, length_fmap. by rewrite decide_True.
Qed.

Lemma analyze_publication_trends_pie :
  length (value_counts b) ≠ 2 →
  ∃ msg,
    analyze_publication_trends r (mkState h o) = (Raise (ValueError msg), σ').
Proof.
  intros Hl. eexists. unfold analyze_publication_trends, head. rewrite bind_print.
  rewrite (bind_ok _ _ _ _ _ (getitem_run _ _ _ _ _ _ Hr Hy)).
  rewrite (bind_ok _ _ _ _ _ (sort_index_numeric y _ Hnum)).
  rewrite (bind_ok _ _ _ _ _ (index_ge_numeric y 2019 _ Hnum)).
  rewrite (bind_ok _ _ _ _ _ (getitem_run _ _ _ _ _ _ Hr Hj)).
  rewrite (bind_ok _ _ _ _ _ (getitem_run _ _ _ _ _ _ Hr Hw)).
  destruct (series_gt_numeric w 0 σ' Hnw) as [m Hm].
  rewrite (bind_ok _ _ _ _ _ Hm).
  rewrite (bind_ok _ _ _ _ _ (getitem_run _ _ _ _ _ _ Hr Hb)).
  erewrite bind_raise; [done|].
  rewrite pie_run, length_fmap. by rewrite decide_False.
Qed.

End Columns.
End Years.
End TrendsRuns.

Lemma is_year_numeric v : is_year v → numeric v.
Proof. by intros [->|[n ->]]. Qed.

Lemma yearly_counts_spec (y : Series) :
  Forall is_year y →
  let yc := filter (λ kc : value * nat, cmp_int Z.geb kc.1 2019 = Some true)
              (by_key (value_counts y)) in
  StronglySorted year_lt yc
  ∧ ∀ v c, (v, c) ∈ yc
           ↔ ∃ n, v = Int n ∧ (2019 ≤ n)%Z ∧ v ∈ y ∧ c = count v y.
Proof.
  intros Hy yc.
  destruct (value_counts_ranking y) as (Hnd & Hin & _). split.
  - apply StronglySorted_filter, by_key_sorted; [|done].
    apply Forall_forall. intros [v c] (Hv & Hvy & _)%Hin. simpl.
    eapply Forall_forall in Hy; [|done]. by destruct Hy.
  - intros v c. unfold yc. rewrite list_elem_of_filter, by_key_perm, Hin.
    simpl. split.
    + intros (Hge & Hv & Hvy & ->).
      assert (is_year v) as [->|[n ->]] by by eapply Forall_forall in Hy.
      { done. }
      exists n. split; [done|]. simpl in Hge. injection Hge as Hge.
      apply Z.geb_le in Hge. done.
    + intros (n & -> & Hge & Hvy & ->). simpl.
      split; [|done]. f_equal. by apply Z.geb_le.
Qed.

(** *** The two wedges of the pie *)

Lemma value_counts_length (s : Series) :
  length (value_counts s) = length (nub (dropna s)).
Proof.
  unfold value_counts.
  by rewrite sort_desc_perm, Counter_nub, length_fmap.
Qed.

Lemma dropna_flags (p : value → bool) (a : Series) :
  dropna ((λ x, Bool (p x)) <$> a) = (λ x, Bool (p x)) <$> a.
Proof.
  unfold dropna. induction a as [|x a IH]; [done|].
  csimpl. rewrite filter_cons_True by done. by rewrite IH.
Qed.

(** A column of flags has two values when both occur. *)
Lemma flags_two_values (p : value → bool) (a : Series) :
  length (value_counts ((λ x, Bool (p x)) <$> a)) = 2
  ↔ (∃ x, x ∈ a ∧ p x = true) ∧ (∃ x, x ∈ a ∧ p x = false).
Proof.
  rewrite value_counts_length, dropna_flags.
  set (B := (λ x, Bool (p x)) <$> a).
  assert (∀ v, v ∈ nub B ↔ ∃ x, x ∈ a ∧ v = Bool (p x)) as Hin.
  { intros v. rewrite elem_of_nub. unfold B. rewrite list_elem_of_fmap.
    naive_solver. }
  pose proof (NoDup_nub B) as Hnd. split.
  - intros Hlen.
    destruct (nub B) as [|v1 [|v2 [|v3 l]]] eqn:E; try done.
    apply NoDup_cons in Hnd as [Hne _].
    rewrite list_elem_of_singleton in Hne.
    destruct (proj1 (Hin v1)) as (x1 & Hx1 & ->); [left|].
    destruct (proj1 (Hin v2)) as (x2 & Hx2 & ->); [right; left|].
    destruct (p x1) eqn:E1, (p x2) eqn:E2; try done; split; eauto.
  - intros [(x1 & Hx1 & E1) (x2 & Hx2 & E2)].
    assert (nub B ≡ₚ [Bool true; Bool false]) as ->; [|done].
    apply NoDup_Permutation; [done| |].
    + apply NoDup_cons. split; [by intros ?%list_elem_of_singleton|].
      apply NoDup_singleton.
    + intros v. rewrite Hin. split.
      * intros (x & _ & ->). destruct (p x); [left|right; left].
      * intros [->|[->|[]%elem_of_nil]%elem_of_cons]%elem_of_cons.
        -- exists x1. by rewrite E1.
        -- exists x2. by rewrite E2.
Qed.

(** The flags of the cleaned table. *)
Lemma has_abstract_flags (a : Series) :
  apply (fillna a (Str "")) nonblank = (λ x, Bool (with_abstract x)) <$> a.
Proof.
  unfold apply, fillna. rewrite <- list_fmap_compose.
  apply list_fmap_ext. intros i x _. done.
Qed.

Lemma word_counts_numeric (a : Series) : Forall numeric (apply a word_count).
Proof. unfold apply. apply Forall_fmap, Forall_true. intros x. done. Qed.

Lemma cleaned_two_values (a : Series) :
  length (value_counts (apply (fillna a (Str "")) nonblank)) = 2 ↔ both_sorts a.
Proof. rewrite has_abstract_flags. apply flags_two_values. Qed.

(** X11: the yearly counts of [analyze_publication_trends].  On a table
    that has the four columns the function reads, with
    [publication_year] made of integers and missing cells, numbers for
    [abstract_word_count] and exactly two values of [has_abstract], the
    function returns and the first component returned lists exactly the
    years from 2019 on that some row bears, each once with the number of
    rows of that year, by increasing year; earlier years and rows
    without a year are left out.  When [has_abstract] does not take
    exactly two values the function returns nothing: the pie chart, which
    is given two labels, raises [ValueError].  In both cases the tables
    are not modified and one line is printed. *)
Theorem analyze_publication_trends_yearly_counts h o r f y j w b :
  h !! r = Some f →
  get_column "publication_year" f = Some y → Forall is_year y →
  get_column "journal" f = Some j →
  get_column "abstract_word_count" f = Some w → Forall numeric w →
  get_column "has_abstract" f = Some b →
  let σ' := mkState h (o ++ [Msg "Analyzing publication trends..."]) in
  (length (value_counts b) = 2 →
   ∃ yearly top,
     analyze_publication_trends r (mkState h o) = (Ok (yearly, top), σ')
     ∧ StronglySorted year_lt yearly
     ∧ ∀ v c, (v, c) ∈ yearly
              ↔ ∃ n, v = Int n ∧ (2019 ≤ n)%Z ∧ v ∈ y ∧ c = count v y)
  ∧ (length (value_counts b) ≠ 2 →
     ∃ msg,
       analyze_publication_trends r (mkState h o) = (Raise (ValueError msg), σ')).
Proof.
  intros Hr Hy Hyears Hj Hw Hnw Hb σ'.
  assert (Forall numeric y) as Hnum.
  { eapply Forall_impl; [exact Hyears|]. apply is_year_numeric. }
  split.
  - intros Hl. eexists _, _. split.
    + by apply (analyze_publication_trends_run h o r f Hr y Hy Hnum j w b).
    + by apply yearly_counts_spec.
  - intros Hl.
    by apply (analyze_publication_trends_pie h o r f Hr y Hy Hnum j w b).
Qed.

Lemma analyze_publication_trends_yearly_counts_witness :
  (∃ yearly top,
     analyze_publication_trends 0 (mkState [trends4] [])
     = (Ok (yearly, top),
        mkState [trends4] ([] ++ [Msg "Analyzing publication trends..."]))
     ∧ StronglySorted year_lt yearly
     ∧ ∀ v c, (v, c) ∈ yearly
              ↔ ∃ n, v = Int n ∧ (2019 ≤ n)%Z
                     ∧ v ∈ [Int 2021; Int 2018; NaN; Int 2021]
                     ∧ c = count v [Int 2021; Int 2018; NaN; Int 2021])
  ∧ ∃ msg,
      analyze_publication_trends 0 (mkState [one_flag] [])
      = (Raise (ValueError msg),
         mkState [one_flag] ([] ++ [Msg "Analyzing publication trends..."])).
Proof.
  split.
  - apply (analyze_publication_trends_yearly_counts [trends4] [] 0 trends4
             [Int 2021; Int 2018; NaN; Int 2021]
             [Str "A"; Str "B"; Str "A"; Str "C"]
             [Int 2; Int 0; Int 0; Int 5]
             [Bool true; Bool false; Bool false; Bool true]).
    + reflexivity.
    + reflexivity.
    + repeat constructor; by eexists.
    + reflexivity.
    + reflexivity.
    + repeat constructor.
    + reflexivity.
    + vm_compute. reflexivity.
  - apply (analyze_publication_trends_yearly_counts [one_flag] [] 0 one_flag
             [Int 2021; Int 2018]
             [Str "A"; Str "B"]
             [Int 2; Int 5]
             [Bool true; Bool true]).
    + reflexivity.
    + reflexivity.
    + repeat constructor; by eexists.
    + reflexivity.
    + reflexivity.
    + repeat constructor.
    + reflexivity.
    + vm_compute. lia.
Defined.

(** ** The years of a batch *)

Section ModeYear.
Variable parse_date : value → option (Z * Z * Z).

Lemma years_cons v s :
  years parse_date (v :: s)
  = match to_datetime1 parse_date v with
    | Timestamp y _ _ => Int y
    | _ => NaN
    end :: years parse_date s.
Proof. done. Qed.

Lemma batch_years_cons v s :
  batch_years parse_date (v :: s)
  = match to_datetime1 parse_date v with
    | Timestamp y _ _ => y :: batch_years parse_date s
    | _ => batch_years parse_date s
    end.
Proof.
  unfold batch_years. simpl. by destruct (to_datetime1 parse_date v).
Qed.

Lemma years_is_year s : Forall is_year (years parse_date s).
Proof.
  induction s as [|v s IH]; [constructor|].
  rewrite years_cons. constructor; [|done].
  destruct (to_datetime1 parse_date v); (by left) || (right; by eexists).
Qed.

Lemma filled_years_is_year s : Forall is_year (filled_years parse_date s).
Proof.
  unfold filled_years. destruct (mode (years parse_date s)) as [|m rest].
  - apply years_is_year.
  - unfold fillna. apply Forall_fmap.
    eapply Forall_impl; [apply years_is_year|].
    intros v [->|[n ->]]; simpl; right; by eexists.
Qed.

(** The rows without a readable date are those that are not in the
    list of the years read. *)
Lemma length_batch_years s :
  length s = length (batch_years parse_date s) + count NaN (years parse_date s).
Proof.
  induction s as [|v s IH]; [done|].
  rewrite years_cons, batch_years_cons, count_cons.
  destruct (to_datetime1_cases parse_date v) as [->|(y & mo & d & ->)].
  - rewrite decide_True by done. simpl. lia.
  - rewrite decide_False by done. simpl. lia.
Qed.

Lemma count_fillna_years s m n :
  count (Int n) (fillna (years parse_date s) (Int m))
  = count_of n (batch_years parse_date s)
    + if decide (n = m) then count NaN (years parse_date s) else 0.
Proof.
  induction s as [|v s IH].
  { simpl. by destruct (decide (n = m)). }
  rewrite years_cons, batch_years_cons.
  unfold fillna in *. rewrite fmap_cons, count_cons, IH.
  destruct (to_datetime1_cases parse_date v) as [->|(y & mo & d & ->)].
  - simpl. rewrite count_cons, (decide_True (P := NaN = NaN)) by done.
    destruct (decide (n = m)) as [->|Hne].
    + rewrite decide_True by done. lia.
    + rewrite decide_False by congruence. lia.
  - simpl. rewrite count_cons, (decide_False (P := Int y = NaN)) by done.
    unfold count_of. destruct (decide (y = n)) as [->|Hne].
    + by rewrite decide_True, filter_cons_True by done.
    + by rewrite decide_False, filter_cons_False by congruence.
Qed.

Lemma mode_is m s :
  most_frequent m (batch_years parse_date s) →
  (∀ y, most_frequent y (batch_years parse_date s) → (m ≤ y)%Z) →
  ∃ rest, mode (years parse_date s) = m :: rest.
Proof.
  intros Hm Hmin.
  destruct (mode (years parse_date s)) as [|m' rest] eqn:Hmode.
  - apply mode_nil in Hmode. rewrite ints_years in Hmode.
    destruct Hm as [Hin _]. rewrite Hmode in Hin. by apply elem_of_nil in Hin.
  - apply mode_head in Hmode as [Hm' Hmin']. rewrite ints_years in Hm', Hmin'.
    exists rest. f_equal. apply Z.le_antisymm; auto.
Qed.

End ModeYear.

(** ** The analyses on the cleaned table *)

Lemma analyze_sources_run h o r f x :
  h !! r = Some f → get_column "source_x" f = Some x →
  analyze_sources r (mkState h o)
  = (Ok (take 15 (value_counts x)),
     mkState h (o ++ [Msg "Analyzing paper sources..."])).
Proof.
  intros Hr Hx. unfold analyze_sources, head. rewrite bind_print.
  by rewrite (bind_ok _ _ _ _ _ (getitem_run _ _ _ _ _ _ Hr Hx)).
Qed.

Section CleanedTrends.
Context (parse_date : value → option (Z * Z * Z)).
Context (h : list DataFrame) (o : list event) (r : ref).
Context (s t a j x : Series) (f : DataFrame).
Hypothesis Hr : h !! r = Some (cleaned parse_date s t a j x f).

(** On a cleaned table the years and the word counts are numbers, and
    [analyze_publication_trends] returns when the abstracts are of both
    sorts. *)
Lemma analyze_publication_trends_cleaned :
  both_sorts a →
  analyze_publication_trends r (mkState h o)
  = (Ok (filter (λ kc, cmp_int Z.geb kc.1 2019 = Some true)
           (by_key (value_counts (filled_years parse_date s))),
         take 10 (value_counts (fillna j (Str "Unknown Journal")))),
     mkState h (o ++ [Msg "Analyzing publication trends..."])).
Proof.
  intros Hboth.
  eapply (analyze_publication_trends_run h o r _ Hr).
  - apply get_cleaned_year.
  - eapply Forall_impl; [apply filled_years_is_year|]. apply is_year_numeric.
  - apply get_cleaned_journal.
  - apply get_cleaned_abstract_word_count.
  - apply word_counts_numeric.
  - apply get_cleaned_has_abstract.
  - by apply cleaned_two_values.
Qed.

Lemma analyze_publication_trends_cleaned_pie :
  ¬ both_sorts a →
  ∃ msg,
    analyze_publication_trends r (mkState h o)
    = (Raise (ValueError msg),
       mkState h (o ++ [Msg "Analyzing publication trends..."])).
Proof.
  intros Hboth.
  eapply (analyze_publication_trends_pie h o r _ Hr).
  - apply get_cleaned_year.
  - eapply Forall_impl; [apply filled_years_is_year|]. apply is_year_numeric.
  - apply get_cleaned_journal.
  - apply get_cleaned_abstract_word_count.
  - apply word_counts_numeric.
  - apply get_cleaned_has_abstract.
  - by rewrite cleaned_two_values.
Qed.

End CleanedTrends.

(** X12: the analyses find their columns on the table [clean_data]
    returns, and only there.  After [clean_data] on a table that has the
    required columns, whatever has been printed since, none of the three
    analyses raises [KeyError] on the cleaned table and none changes a
    table.  [analyze_sources] returns, with the very ranking it gives on
    the table as loaded.  [analyze_publication_trends] returns when the
    batch has a row with an abstract and a row without; when all rows
    have one, or none has, its pie chart with two labels raises
    [ValueError].  [analyze_titles] returns, or raises [ValueError] where
    it unpacks an empty list of words or where the word cloud has no
    word to draw.  On a loaded table without the column
    [publication_year], [analyze_publication_trends] raises [KeyError]
    for that name. *)
Theorem analyses_find_their_columns_after_cleaning
    (parse_date : value → option (Z * Z * Z)) h o r f a :
  h !! r = Some f → frame_wf f →
  (∀ c, c ∈ required_columns → has_column c f) →
  get_column "abstract" f = Some a →
  ∃ r' h' o' sources,
    clean_data parse_date r (mkState h o) = (Ok r', mkState h' o')
    ∧ (both_sorts a →
       ∀ o'', ∃ trends,
         analyze_publication_trends r' (mkState h' o'')
         = (Ok trends,
            mkState h' (o'' ++ [Msg "Analyzing publication trends..."])))
    ∧ (¬ both_sorts a →
       ∀ o'', ∃ msg,
         analyze_publication_trends r' (mkState h' o'')
         = (Raise (ValueError msg),
            mkState h' (o'' ++ [Msg "Analyzing publication trends..."])))
    ∧ (∀ o'', analyze_sources r' (mkState h' o'')
              = (Ok sources,
                 mkState h' (o'' ++ [Msg "Analyzing paper sources..."])))
    ∧ (analyze_sources r (mkState h o)).1 = Ok sources
    ∧ (∀ o'', ∃ out,
         analyze_titles r' (mkState h' o'')
         = (out, mkState h' (o'' ++ [Msg "Analyzing paper titles..."]))
         ∧ ((∃ words, out = Ok words)
            ∨ out = Raise (ValueError
                             "not enough values to unpack (expected 2, got 0)")
            ∨ out = Raise (ValueError
                             "We need at least 1 word to plot a word cloud, got 0.")))
    ∧ (¬ has_column "publication_year" f →
       analyze_publication_trends r (mkState h o)
       = (Raise (KeyError "publication_year"),
          mkState h (o ++ [Msg "Analyzing publication trends..."]))).
Proof.
  intros Hr Hwf Hall Ha.
  destruct (clean_data_success parse_date h o r f Hr Hwf Hall)
    as (s & t & a' & j & x & [h' o'] & Hs & Ht & Ha' & Hj & Hx & Hrun & Hg & _).
  assert (a' = a) as -> by congruence.
  simpl in Hg. set (g := cleaned parse_date s t a j x f) in *.
  exists (S (length h)), h', o', (take 15 (value_counts x)).
  split; [done|]. split; [|split; [|split; [|split; [|split]]]].
  - intros Hboth o''. eexists.
    by apply (analyze_publication_trends_cleaned parse_date h' o'' _ s t a j x f Hg).
  - intros Hboth o''.
    by apply (analyze_publication_trends_cleaned_pie parse_date h' o'' _ s t a j x f Hg).
  - intros o''. eapply analyze_sources_run; [exact Hg|].
    by apply get_cleaned_source.
  - by rewrite (analyze_sources_run _ _ _ _ _ Hr Hx).
  - intros o''.
    pose proof (get_cleaned_title parse_date s t a j x f) as Hc.
    destruct (analyze_titles_cases h' o'' _ g _ Hg Hc)
      as [[_ Hout]|[(_ & _ & Hout)|[_ Hout]]];
      eexists; (split; [exact Hout|]); eauto.
  - intros Hno. apply (analyze_publication_trends_miss_year _ _ _ _ Hr).
    destruct (get_column "publication_year" f) eqn:E; [|done].
    exfalso. apply Hno. by eexists.
Qed.

Lemma analyses_find_their_columns_after_cleaning_witness :
  (∃ r' h' o' sources,
     clean_data iso_date 0 (mkState [sample] []) = (Ok r', mkState h' o')
     ∧ (∀ o'', ∃ trends,
          analyze_publication_trends r' (mkState h' o'')
          = (Ok trends,
             mkState h' (o'' ++ [Msg "Analyzing publication trends..."])))
     ∧ (∀ o'', analyze_sources r' (mkState h' o'')
               = (Ok sources,
                  mkState h' (o'' ++ [Msg "Analyzing paper sources..."])))
     ∧ (analyze_sources 0 (mkState [sample] [])).1 = Ok sources
     ∧ analyze_publication_trends 0 (mkState [sample] [])
       = (Raise (KeyError "publication_year"),
          mkState [sample] ([] ++ [Msg "Analyzing publication trends..."])))
  ∧ (∃ r' h' o',
       clean_data iso_date 0 (mkState [clash] []) = (Ok r', mkState h' o')
       ∧ ∀ o'', ∃ msg,
           analyze_publication_trends r' (mkState h' o'')
           = (Raise (ValueError msg),
              mkState h' (o'' ++ [Msg "Analyzing publication trends..."]))).
Proof.
  split.
  - destruct (analyses_find_their_columns_after_cleaning iso_date
                [sample] [] 0 sample [Str "two  words "; NaN; Str "   "])
      as (r' & h' & o' & sources & Hrun & Hok & _ & Hsrc & Hraw & _ & Hyear).
    + reflexivity.
    + repeat constructor.
    + intros c Hc.
      repeat (apply elem_of_cons in Hc as [->|Hc]; [by eexists|]).
      by apply elem_of_nil in Hc.
    + reflexivity.
    + exists r', h', o', sources. split; [exact Hrun|].
      split.
      { apply Hok. split.
        - exists (Str "two  words "). split; [left|reflexivity].
        - exists NaN. split; [right; left|reflexivity]. }
      split; [exact Hsrc|]. split; [exact Hraw|].
      apply Hyear. intros [? Hc]. discriminate Hc.
  - destruct (analyses_find_their_columns_after_cleaning iso_date
                [clash] [] 0 clash [Str "two  words "])
      as (r' & h' & o' & sources & Hrun & _ & Hpie & _).
    + reflexivity.
    + repeat constructor.
    + intros c Hc.
      repeat (apply elem_of_cons in Hc as [->|Hc]; [by eexists|]).
      by apply elem_of_nil in Hc.
    + reflexivity.
    + exists r', h', o'. split; [exact Hrun|].
      apply Hpie. intros [_ (x & Hx & Hf)].
      apply list_elem_of_singleton in Hx as ->. discriminate Hf.
Defined.

(** ** The rows without a date in the yearly counts *)

Lemma elem_of_count {K} `{EqDecision K} (k : K) l : k ∈ l ↔ 0 < count k l.
Proof.
  split; [apply count_pos|]. intros Hc.
  destruct (decide (k ∈ l)) as [|Hn]; [done|].
  rewrite count_0 in Hc by done. lia.
Qed.

(** X13: the rows without a readable date swell the bar of the most
    frequent year.  Let [m] be the most frequent year among the dates
    read from the input (the smallest of them when several are equally
    frequent), and let the batch have a row with an abstract and a row
    without, so that [analyze_publication_trends] returns on the cleaned
    table.  In the yearly counts it computes there, a year from 2019 on
    is listed when its count is positive, and its count is the number of
    rows whose date is of that year, to which are added, for the year
    [m], all the rows whose date is missing or unreadable. *)
Theorem unreadable_dates_swell_the_mode_year
    (parse_date : value → option (Z * Z * Z)) h o r f s a m :
  h !! r = Some f → frame_wf f →
  (∀ c, c ∈ required_columns → has_column c f) →
  get_column "publish_time" f = Some s →
  get_column "abstract" f = Some a → both_sorts a →
  most_frequent m (batch_years parse_date s) →
  (∀ y, most_frequent y (batch_years parse_date s) → (m ≤ y)%Z) →
  ∃ r' σ' yearly top σ'',
    clean_data parse_date r (mkState h o) = (Ok r', σ')
    ∧ analyze_publication_trends r' σ' = (Ok (yearly, top), σ'')
    ∧ ∀ n c, (Int n, c) ∈ yearly
             ↔ (2019 ≤ n)%Z ∧ 0 < c
               ∧ c = count_of n (batch_years parse_date s)
                     + if decide (n = m)
                       then length s - length (batch_years parse_date s)
                       else 0.
Proof.
  intros Hr Hwf Hall Hs Ha Hboth Hm Hmin.
  destruct (clean_data_success parse_date h o r f Hr Hwf Hall)
    as (s' & t & a' & j & x & [h' o'] & Hs' & Ht & Ha' & Hj & Hx & Hrun & Hg & _).
  assert (s' = s) as -> by congruence.
  assert (a' = a) as -> by congruence. simpl in Hg.
  destruct (mode_is parse_date m s Hm Hmin) as [rest Hmode].
  pose proof (filled_years_is_year parse_date s) as Hyears.
  destruct (yearly_counts_spec _ Hyears) as [_ Hin].
  eexists _, _, _, _, _. split; [exact Hrun|]. split.
  { by apply (analyze_publication_trends_cleaned parse_date h' o' _ s t a j x f Hg). }
  intros n c. rewrite Hin.
  assert (length s - length (batch_years parse_date s)
          = count NaN (years parse_date s)) as ->.
  { rewrite (length_batch_years parse_date s) at 1. lia. }
  rewrite <- count_fillna_years.
  assert (filled_years parse_date s
          = fillna (years parse_date s) (Int m)) as ->.
  { unfold filled_years. by rewrite Hmode. }
  split.
  - intros (n' & [= <-] & Hge & Hel & ->).
    split; [done|]. split; [by apply elem_of_count|done].
  - intros (Hge & Hpos & ->). exists n.
    split; [done|]. split; [done|]. split; [by apply elem_of_count|done].
Qed.

Lemma unreadable_dates_swell_the_mode_year_witness :
  ∃ r' σ' yearly top σ'',
    clean_data iso_date 0 (mkState [sample] []) = (Ok r', σ')
    ∧ analyze_publication_trends r' σ' = (Ok (yearly, top), σ'')
    ∧ ∀ n c, (Int n, c) ∈ yearly
             ↔ (2019 ≤ n)%Z ∧ 0 < c
               ∧ c = count_of n
                       (batch_years iso_date
                          [Str "2020-03-01"; Str "not-a-date"; Str "2021-01-05"])
                     + if decide (n = 2020%Z)
                       then length [Str "2020-03-01"; Str "not-a-date";
                                    Str "2021-01-05"]
                            - length
                                (batch_years iso_date
                                   [Str "2020-03-01"; Str "not-a-date";
                                    Str "2021-01-05"])
                       else 0.
Proof.
  apply (unreadable_dates_swell_the_mode_year iso_date [sample] [] 0 sample
           [Str "2020-03-01"; Str "not-a-date"; Str "2021-01-05"]
           [Str "two  words "; NaN; Str "   "] 2020%Z).
  - reflexivity.
  - repeat constructor.
  - intros c Hc.
    repeat (apply elem_of_cons in Hc as [->|Hc]; [by eexists|]).
    by apply elem_of_nil in Hc.
  - reflexivity.
  - reflexivity.
  - split.
    + exists (Str "two  words "). split; [left|reflexivity].
    + exists NaN. split; [right; left|reflexivity].
  - change (most_frequent 2020%Z [2020; 2021]%Z).
    split; [left|]. intros y. unfold count_of.
    rewrite !filter_cons, !filter_nil. repeat case_decide; simpl; lia.
  - change (∀ y, most_frequent y [2020; 2021]%Z → (2020 ≤ y)%Z).
    intros y [Hin _].
    apply elem_of_cons in Hin as [->|Hin]; [lia|].
    apply elem_of_cons in Hin as [->|Hin]; [lia|].
    by apply elem_of_nil in Hin.
Defined.

(** ** The dashboard's cleaning step *)

Section Dashboard.
Variable parse_date : value → option (Z * Z * Z).

Lemma app_clean_data_miss h o r f c :
  h !! r = Some f → first_absent app_read_order f = Some c →
  ∃ g, app_clean_data parse_date r (mkState h o)
       = (Raise (KeyError c), mkState (h ++ [g]) o).
Proof.
  intros Hr Hc. unfold app_clean_data.
  rewrite (bind_ok _ _ _ _ _ (copy_run _ _ _ _ Hr)). simpl in Hc.
  destruct (get_column "publish_time" f) as [s|] eqn:Hs; cycle 1.
  { injection Hc as <-. miss. by eexists. }
  destruct (get_column "title" f) as [t|] eqn:Ht; cycle 1.
  { injection Hc as <-. do 4 step. miss. by eexists. }
  destruct (get_column "abstract" f) as [a|] eqn:Ha; cycle 1.
  { injection Hc as <-. do 6 step. miss. by eexists. }
  destruct (get_column "journal" f) as [j|] eqn:Hj; [done|].
  injection Hc as <-. do 8 step. miss. by eexists.
Qed.

Lemma get_app_cleaned_other c s t a j f :
  c ∉ app_assigned →
  get_column c (app_cleaned parse_date s t a j f) = get_column c f.
Proof.
  intros Hc.
  assert (∀ k, k ∈ app_assigned → c ≠ k) as Hne by (by intros k Hk ->).
  unfold app_cleaned.
  rewrite !get_set_ne; [done|apply Hne; repeat constructor..].
Qed.

Lemma get_app_cleaned_year s t a j f :
  get_column "publication_year" (app_cleaned parse_date s t a j f)
  = Some (years parse_date s).
Proof. unfold app_cleaned. cols. Qed.

Lemma get_app_cleaned_shared c s t a j x f :
  get_column "source_x" f = Some x →
  c ∈ shared_columns →
  get_column c (app_cleaned parse_date s t a j f)
  = get_column c (cleaned parse_date s t a j x f).
Proof.
  intros Hx Hc. unfold shared_columns in Hc.
  repeat (apply elem_of_cons in Hc as [->|Hc]).
  - rewrite get_cleaned_publish. unfold app_cleaned. cols.
  - rewrite get_cleaned_title. unfold app_cleaned. cols.
  - rewrite get_cleaned_abstract. unfold app_cleaned. cols.
  - rewrite get_cleaned_journal. unfold app_cleaned. cols.
  - rewrite (get_cleaned_source _ _ _ _ _ _ _ Hx). unfold app_cleaned. cols.
  - rewrite get_cleaned_abstract_word_count. unfold app_cleaned. cols.
  - rewrite get_cleaned_has_abstract. unfold app_cleaned. cols.
  - by apply elem_of_nil in Hc.
Qed.

End Dashboard.

(** X14: the outcomes of the dashboard's [clean_data].  It works on a
    copy: the table it is given is never modified, and nothing is
    printed.  When one of [publish_time], [title], [abstract], [journal]
    is missing it raises [KeyError] for the first missing one in that
    order; [source_x] is not needed.  Otherwise it returns a new table
    with the rows of the input in which [publication_year] is the year
    of the date read from [publish_time] and is missing where no date
    could be read (no year is filled in), and every column other than
    the seven it assigns is as in the input. *)
Theorem app_clean_data_outcomes
    (parse_date : value → option (Z * Z * Z)) h o r f :
  h !! r = Some f →
  (∀ c, first_absent app_read_order f = Some c →
        ∃ g, app_clean_data parse_date r (mkState h o)
             = (Raise (KeyError c), mkState (h ++ [g]) o))
  ∧ (first_absent app_read_order f = None →
     ∃ g s,
       app_clean_data parse_date r (mkState h o)
       = (Ok (length h), mkState (h ++ [g]) o)
       ∧ index g = index f
       ∧ get_column "publish_time" f = Some s
       ∧ (∀ i v, s !! i = Some v →
            cell "publication_year" i g
            = Some (match to_datetime1 parse_date v with
                    | Timestamp y _ _ => Int y
                    | _ => NaN
                    end))
       ∧ (∀ c, c ∉ app_assigned → get_column c g = get_column c f)).
Proof.
  intros Hr. split.
  - intros c Hc. by apply (app_clean_data_miss parse_date h o r f c).
  - intros Hnone. simpl in Hnone.
    destruct (get_column "publish_time" f) as [s|] eqn:Hs; [|done].
    destruct (get_column "title" f) as [t|] eqn:Ht; [|done].
    destruct (get_column "abstract" f) as [a|] eqn:Ha; [|done].
    destruct (get_column "journal" f) as [j|] eqn:Hj; [|done].
    exists (app_cleaned parse_date s t a j f), s.
    split; [by apply (app_clean_data_ok parse_date h o r f s t a j)|].
    split; [done|]. split; [done|].
    split.
    + intros i v Hv.
      rewrite (cell_lookup _ _ _ _ (get_app_cleaned_year parse_date s t a j f)).
      by apply years_lookup.
    + intros c Hc. by apply get_app_cleaned_other.
Qed.

Lemma app_clean_data_outcomes_witness :
  (∀ c, first_absent app_read_order no_source = Some c →
        ∃ g, app_clean_data iso_date 0 (mkState [no_source] [])
             = (Raise (KeyError c), mkState ([no_source] ++ [g]) []))
  ∧ (first_absent app_read_order no_source = None →
     ∃ g s,
       app_clean_data iso_date 0 (mkState [no_source] [])
       = (Ok (length [no_source]), mkState ([no_source] ++ [g]) [])
       ∧ index g = index no_source
       ∧ get_column "publish_time" no_source = Some s
       ∧ (∀ i v, s !! i = Some v →
            cell "publication_year" i g
            = Some (match to_datetime1 iso_date v with
                    | Timestamp y _ _ => Int y
                    | _ => NaN
                    end))
       ∧ (∀ c, c ∉ app_assigned → get_column c g = get_column c no_source)).
Proof.
  apply (app_clean_data_outcomes iso_date [no_source] [] 0 no_source).
  reflexivity.
Defined.

(** X15: the dashboard's [clean_data] against the pipeline's.  On a
    table that has the required columns both return a table, and the
    two tables have the same [publish_time], [title], [abstract],
    [journal], [source_x], [abstract_word_count] and [has_abstract].
    They have the same [publication_year] on the rows with a readable
    date; on a row whose date is missing or unreadable the dashboard's
    table has no year, where the pipeline's has the most frequent year
    as soon as some row has a date. *)
Theorem app_clean_data_agrees_with_clean_data
    (parse_date : value → option (Z * Z * Z)) h o r f :
  h !! r = Some f → frame_wf f →
  (∀ c, c ∈ required_columns → has_column c f) →
  ∃ r1 σ1 g1 r2 σ2 g2 s,
    clean_data parse_date r (mkState h o) = (Ok r1, σ1)
    ∧ heap σ1 !! r1 = Some g1
    ∧ app_clean_data parse_date r (mkState h o) = (Ok r2, σ2)
    ∧ heap σ2 !! r2 = Some g2
    ∧ (∀ c, c ∈ shared_columns → get_column c g2 = get_column c g1)
    ∧ get_column "publish_time" f = Some s
    ∧ (∀ i v, s !! i = Some v → to_datetime1 parse_date v ≠ NaN →
         cell "publication_year" i g2 = cell "publication_year" i g1)
    ∧ (∀ i v, s !! i = Some v → to_datetime1 parse_date v = NaN →
         cell "publication_year" i g2 = Some NaN
         ∧ (batch_years parse_date s ≠ [] →
            ∃ m, cell "publication_year" i g1 = Some (Int m))).
Proof.
  intros Hr Hwf Hall.
  destruct (clean_data_success parse_date h o r f Hr Hwf Hall)
    as (s & t & a & j & x & σ' & Hs & Ht & Ha & Hj & Hx & Hrun & Hg & _).
  eexists _, _, _, _, _, _, s.
  split; [exact Hrun|]. split; [exact Hg|].
  split; [by apply (app_clean_data_ok parse_date h o r f s t a j)|].
  split; [apply last_lookup|].
  split; [intros c Hc; by apply get_app_cleaned_shared|].
  split; [done|].
  pose proof (get_app_cleaned_year parse_date s t a j f) as Hy2.
  pose proof (get_cleaned_year parse_date s t a j x f) as Hy1.
  split.
  - intros i v Hv Hts.
    rewrite (cell_lookup _ _ _ _ Hy1), (cell_lookup _ _ _ _ Hy2).
    rewrite (years_lookup _ _ _ _ Hv), (filled_years_lookup _ _ _ _ Hv).
    by destruct (to_datetime1_cases parse_date v) as [?|(y & mo & d & ->)].
  - intros i v Hv Hna.
    rewrite (cell_lookup _ _ _ _ Hy1), (cell_lookup _ _ _ _ Hy2).
    rewrite (years_lookup _ _ _ _ Hv), (filled_years_lookup _ _ _ _ Hv), Hna.
    split; [done|]. intros Hne.
    destruct (mode (years parse_date s)) as [|m rest] eqn:Hmode; [|by eexists].
    apply mode_nil in Hmode. by rewrite ints_years in Hmode.
Qed.

Lemma app_clean_data_agrees_with_clean_data_witness :
  ∃ r1 σ1 g1 r2 σ2 g2 s,
    clean_data iso_date 0 (mkState [sample] []) = (Ok r1, σ1)
    ∧ heap σ1 !! r1 = Some g1
    ∧ app_clean_data iso_date 0 (mkState [sample] []) = (Ok r2, σ2)
    ∧ heap σ2 !! r2 = Some g2
    ∧ (∀ c, c ∈ shared_columns → get_column c g2 = get_column c g1)
    ∧ get_column "publish_time" sample = Some s
    ∧ (∀ i v, s !! i = Some v → to_datetime1 iso_date v ≠ NaN →
         cell "publication_year" i g2 = cell "publication_year" i g1)
    ∧ (∀ i v, s !! i = Some v → to_datetime1 iso_date v = NaN →
         cell "publication_year" i g2 = Some NaN
         ∧ (batch_years iso_date s ≠ [] →
            ∃ m, cell "publication_year" i g1 = Some (Int m))).
Proof.
  apply (app_clean_data_agrees_with_clean_data iso_date [sample] [] 0 sample).
  - reflexivity.
  - repeat constructor.
  - intros c Hc.
    repeat (apply elem_of_cons in Hc as [->|Hc]; [by eexists|]).
    by apply elem_of_nil in Hc.
Defined.

(** ** Rows and counts *)

Lemma count_fillna (s : Series) u v :
  v ≠ NaN → u ≠ NaN →
  count v (fillna s u)
  = count v s + if decide (v = u) then count NaN s else 0.
Proof.
  intros Hv Hu. unfold fillna. induction s as [|x s IH].
  { simpl. by destruct (decide (v = u)). }
  rewrite fmap_cons, !count_cons, IH. destruct (decide (x = NaN)) as [->|Hx].
  - simpl. repeat case_decide; simplify_eq; lia.
  - assert (isna1 x = false) as -> by by destruct x.
    repeat case_decide; simplify_eq; lia.
Qed.

Lemma sum_incr {K} `{EqDecision K} (k : K) c :
  sum_list_with snd (incr k c) = S (sum_list_with snd c).
Proof.
  induction c as [|[k' n] c IH]; [done|]. simpl.
  destruct (decide (k' = k)); simpl; [done|]. rewrite IH. lia.
Qed.

(** The counts of a counter add up to the number of elements counted. *)
Lemma sum_Counter {K} `{EqDecision K} (l : list K) :
  sum_list_with snd (Counter l) = length l.
Proof.
  induction l as [|k l IH] using rev_ind; [done|].
  unfold Counter in *. rewrite foldl_snoc, sum_incr, IH, length_app. simpl. lia.
Qed.

Lemma sum_take {A} (g : A → nat) n l :
  sum_list_with g (take n l) ≤ sum_list_with g l.
Proof.
  rewrite <- (take_drop n l) at 2. rewrite sum_list_with_app. lia.
Qed.

Lemma sum_value_counts (s : Series) :
  sum_list_with snd (value_counts s) = length (dropna s).
Proof. unfold value_counts. by rewrite sort_desc_perm, sum_Counter. Qed.

Lemma elem_of_take_value_counts n (s : Series) v c :
  (v, c) ∈ take n (value_counts s) → v ≠ NaN ∧ v ∈ s ∧ c = count v s.
Proof.
  intros Hin%subseteq_take. by apply (value_counts_ranking s).
Qed.

(** X16: rows without a journal are ranked under the placeholder.
    When the batch has a row with an abstract and a row without, so that
    [analyze_publication_trends] returns on the table [clean_data]
    returns, the top journals it computes there have 10 entries at most,
    none for a missing journal, and the count of a journal is the number
    of rows of the input that bear it, to which are added, for the name
    "Unknown Journal", all the rows of the input without a journal; when
    the input has such a row and fewer than 10 journals are listed, the
    placeholder is one of them. *)
Theorem missing_journals_are_ranked_as_unknown
    (parse_date : value → option (Z * Z * Z)) h o r f j a :
  h !! r = Some f → frame_wf f →
  (∀ c, c ∈ required_columns → has_column c f) →
  get_column "journal" f = Some j →
  get_column "abstract" f = Some a → both_sorts a →
  ∃ r' σ' yearly top σ'',
    clean_data parse_date r (mkState h o) = (Ok r', σ')
    ∧ analyze_publication_trends r' σ' = (Ok (yearly, top), σ'')
    ∧ length top ≤ 10
    ∧ (∀ v c, (v, c) ∈ top →
         v ≠ NaN
         ∧ c = count v j
               + if decide (v = Str "Unknown Journal") then count NaN j else 0)
    ∧ (NaN ∈ j → length top < 10 →
       ∃ c, (Str "Unknown Journal", c) ∈ top).
Proof.
  intros Hr Hwf Hall Hj Ha Hboth.
  destruct (clean_data_success parse_date h o r f Hr Hwf Hall)
    as (s & t & a' & j' & x & [h' o'] & Hs & Ht & Ha' & Hj' & Hx & Hrun & Hg & _).
  assert (j' = j) as -> by congruence.
  assert (a' = a) as -> by congruence. simpl in Hg.
  set (J := fillna j (Str "Unknown Journal")).
  eexists _, _, _, (take 10 (value_counts J)), _.
  split; [exact Hrun|]. split.
  { by apply (analyze_publication_trends_cleaned parse_date h' o' _ s t a j x f Hg). }
  split; [rewrite length_take; lia|]. split.
  - intros v c (Hv & _ & ->)%elem_of_take_value_counts.
    split; [done|]. by apply count_fillna.
  - intros Hna Hlen. exists (count (Str "Unknown Journal") J).
    rewrite take_ge by (rewrite length_take in Hlen; lia).
    apply (value_counts_ranking J). split; [done|]. split; [|done].
    apply elem_of_count. unfold J. rewrite count_fillna by done.
    rewrite decide_True by done. apply count_pos in Hna. lia.
Qed.

Lemma missing_journals_are_ranked_as_unknown_witness :
  ∃ r' σ' yearly top σ'',
    clean_data iso_date 0 (mkState [sample] []) = (Ok r', σ')
    ∧ analyze_publication_trends r' σ' = (Ok (yearly, top), σ'')
    ∧ length top ≤ 10
    ∧ (∀ v c, (v, c) ∈ top →
         v ≠ NaN
         ∧ c = count v [NaN; Str "J"; Str "J"]
               + if decide (v = Str "Unknown Journal")
                 then count NaN [NaN; Str "J"; Str "J"] else 0)
    ∧ (NaN ∈ [NaN; Str "J"; Str "J"] → length top < 10 →
       ∃ c, (Str "Unknown Journal", c) ∈ top).
Proof.
  apply (missing_journals_are_ranked_as_unknown iso_date [sample] [] 0 sample
           [NaN; Str "J"; Str "J"] [Str "two  words "; NaN; Str "   "]).
  - reflexivity.
  - repeat constructor.
  - intros c Hc.
    repeat (apply elem_of_cons in Hc as [->|Hc]; [by eexists|]).
    by apply elem_of_nil in Hc.
  - reflexivity.
  - reflexivity.
  - split.
    + exists (Str "two  words "). split; [left|reflexivity].
    + exists NaN. split; [right; left|reflexivity].
Defined.

(** X17: [analyze_sources] counts every row once at most.  On a table
    with the column [source_x] it returns 15 entries at most, none for a
    missing source and each with a count of 1 at least; the counts add
    up to no more than the number of rows that have a source, and to
    exactly that number when fewer than 15 sources are listed.  The
    tables are not modified and one line is printed. *)
Theorem analyze_sources_counts_each_row_once h o r f x :
  h !! r = Some f → get_column "source_x" f = Some x →
  ∃ top,
    analyze_sources r (mkState h o)
    = (Ok top, mkState h (o ++ [Msg "Analyzing paper sources..."]))
    ∧ length top ≤ 15
    ∧ (∀ v c, (v, c) ∈ top → v ≠ NaN ∧ 1 ≤ c)
    ∧ sum_list_with snd top ≤ length (dropna x)
    ∧ (length top < 15 → sum_list_with snd top = length (dropna x)).
Proof.
  intros Hr Hx. exists (take 15 (value_counts x)).
  split; [by eapply analyze_sources_run|].
  split; [rewrite length_take; lia|]. split; [|split].
  - intros v c (Hv & Hin & ->)%elem_of_take_value_counts.
    split; [done|]. by apply count_pos.
  - rewrite <- sum_value_counts. apply sum_take.
  - intros Hlen. rewrite take_ge by (rewrite length_take in Hlen; lia).
    apply sum_value_counts.
Qed.

Lemma analyze_sources_counts_each_row_once_witness :
  ∃ top,
    analyze_sources 0 (mkState [sample] [])
    = (Ok top, mkState [sample] ([] ++ [Msg "Analyzing paper sources..."]))
    ∧ length top ≤ 15
    ∧ (∀ v c, (v, c) ∈ top → v ≠ NaN ∧ 1 ≤ c)
    ∧ sum_list_with snd top ≤ length (dropna [Str "PMC"; NaN; Str "WHO"])
    ∧ (length top < 15 →
       sum_list_with snd top = length (dropna [Str "PMC"; NaN; Str "WHO"])).
Proof.
  apply (analyze_sources_counts_each_row_once [sample] [] 0 sample
           [Str "PMC"; NaN; Str "WHO"]).
  - reflexivity.
  - reflexivity.
Defined.

(** ** The range of years [handle_dates] prints *)

Lemma fold_min_spec (y : Z) l :
  foldr Z.min y l ∈ y :: l ∧ ∀ z, z ∈ y :: l → (foldr Z.min y l ≤ z)%Z.
Proof.
  induction l as [|x l [Hin Hle]]; simpl.
  - split; [left|]. intros z Hz%list_elem_of_singleton. lia.
  - split.
    + destruct (Z.min_spec x (foldr Z.min y l)) as [[_ ->]|[_ ->]].
      * right; left.
      * apply elem_of_cons in Hin as [->|Hin]; [left|right; by right].
    + intros z Hz. apply elem_of_cons in Hz as [Hz|Hz].
      * specialize (Hle y (list_elem_of_here _ _)). lia.
      * apply elem_of_cons in Hz as [Hz|Hz]; [lia|].
        specialize (Hle z (list_elem_of_further _ _ _ Hz)). lia.
Qed.

Lemma fold_max_spec (y : Z) l :
  foldr Z.max y l ∈ y :: l ∧ ∀ z, z ∈ y :: l → (z ≤ foldr Z.max y l)%Z.
Proof.
  induction l as [|x l [Hin Hle]]; simpl.
  - split; [left|]. intros z Hz%list_elem_of_singleton. lia.
  - split.
    + destruct (Z.max_spec x (foldr Z.max y l)) as [[_ ->]|[_ ->]].
      * apply elem_of_cons in Hin as [->|Hin]; [left|right; by right].
      * right; left.
    + intros z Hz. apply elem_of_cons in Hz as [Hz|Hz].
      * specialize (Hle y (list_elem_of_here _ _)). lia.
      * apply elem_of_cons in Hz as [Hz|Hz]; [lia|].
        specialize (Hle z (list_elem_of_further _ _ _ Hz)). lia.
Qed.

Lemma series_min_spec (s : Series) :
  (ints s = [] ∧ series_min s = NaN)
  ∨ ∃ a, series_min s = Int a ∧ a ∈ ints s ∧ ∀ z, z ∈ ints s → (a ≤ z)%Z.
Proof.
  unfold series_min. destruct (ints s) as [|y l]; [by left|].
  right. eexists. split; [done|]. apply fold_min_spec.
Qed.

Lemma series_max_spec (s : Series) :
  (ints s = [] ∧ series_max s = NaN)
  ∨ ∃ b, series_max s = Int b ∧ b ∈ ints s ∧ ∀ z, z ∈ ints s → (z ≤ b)%Z.
Proof.
  unfold series_max. destruct (ints s) as [|y l]; [by left|].
  right. eexists. split; [done|]. apply fold_max_spec.
Qed.

Lemma elem_of_ints (s : Series) z : z ∈ ints s ↔ Int z ∈ s.
Proof.
  unfold ints. rewrite list_elem_of_omap. split.
  - intros (x & Hx & Hz). destruct x; simplify_eq. done.
  - intros Hz. by exists (Int z).
Qed.

(** Filling with the most frequent year brings in no new year. *)
Lemma elem_of_ints_filled_years parse_date s z :
  z ∈ ints (filled_years parse_date s) ↔ z ∈ batch_years parse_date s.
Proof.
  rewrite <- ints_years. unfold filled_years.
  destruct (mode (years parse_date s)) as [|m rest] eqn:Hmode; [done|].
  apply mode_head in Hmode as [[Hm _] _].
  rewrite !elem_of_ints. rewrite elem_of_ints in Hm.
  unfold fillna. rewrite list_elem_of_fmap. split.
  - intros (x & Hx & Hin). destruct x; simpl in Hx; simplify_eq; done.
  - intros Hz. by exists (Int z).
Qed.

(** X18: the date range [handle_dates] prints is the range of the dates
    it could read.  After its start message it prints one range, whose
    ends are the earliest and the latest year among the readable dates
    of [publish_time]; the years filled in for the other rows do not
    widen it.  When no date is readable both ends are missing. *)
Theorem handle_dates_prints_the_range_of_the_dates
    (parse_date : value → option (Z * Z * Z)) h o r f s :
  h !! r = Some f → get_column "publish_time" f = Some s →
  ∃ lo hi σ',
    handle_dates parse_date r (mkState h o) = (Ok r, σ')
    ∧ stdout σ' = o ++ [Msg "Processing date columns..."; DateRange lo hi]
    ∧ (batch_years parse_date s = [] → lo = NaN ∧ hi = NaN)
    ∧ (batch_years parse_date s ≠ [] →
       ∃ a b, lo = Int a ∧ hi = Int b
              ∧ a ∈ batch_years parse_date s ∧ b ∈ batch_years parse_date s
              ∧ ∀ y, y ∈ batch_years parse_date s → (a ≤ y ≤ b)%Z).
Proof.
  intros Hf Hs. eexists _, _, _.
  split; [by apply handle_dates_at|]. split; [done|].
  set (F := filled_years parse_date s).
  assert (ints F = [] ↔ batch_years parse_date s = []) as Hnil.
  { split; intros He.
    - destruct (batch_years parse_date s) as [|y l] eqn:E; [done|].
      assert (y ∈ ints F) as Hy.
      { apply elem_of_ints_filled_years. rewrite E. left. }
      rewrite He in Hy. by apply elem_of_nil in Hy.
    - destruct (ints F) as [|y l] eqn:E; [done|].
      assert (y ∈ batch_years parse_date s) as Hy.
      { apply elem_of_ints_filled_years. fold F. rewrite E. left. }
      rewrite He in Hy. by apply elem_of_nil in Hy. }
  split.
  - intros He. apply Hnil in He.
    destruct (series_min_spec F) as [[_ ->]|(a & _ & Ha & _)];
      [|rewrite He in Ha; by apply elem_of_nil in Ha].
    destruct (series_max_spec F) as [[_ ->]|(b & _ & Hb & _)];
      [done|rewrite He in Hb; by apply elem_of_nil in Hb].
  - intros Hne.
    destruct (series_min_spec F) as [[He _]|(a & -> & Ha & Hmin)];
      [by apply Hnil in He|].
    destruct (series_max_spec F) as [[He _]|(b & -> & Hb & Hmax)];
      [by apply Hnil in He|].
    exists a, b. split; [done|]. split; [done|].
    split; [by apply elem_of_ints_filled_years|].
    split; [by apply elem_of_ints_filled_years|].
    intros y Hy%elem_of_ints_filled_years.
    specialize (Hmin y Hy). specialize (Hmax y Hy). lia.
Qed.

Lemma handle_dates_prints_the_range_of_the_dates_witness :
  ∃ lo hi σ',
    handle_dates iso_date 0 (mkState [sample] []) = (Ok 0, σ')
    ∧ stdout σ' = [] ++ [Msg "Processing date columns..."; DateRange lo hi]
    ∧ (batch_years iso_date
         [Str "2020-03-01"; Str "not-a-date"; Str "2021-01-05"] = [] →
       lo = NaN ∧ hi = NaN)
    ∧ (batch_years iso_date
         [Str "2020-03-01"; Str "not-a-date"; Str "2021-01-05"] ≠ [] →
       ∃ a b, lo = Int a ∧ hi = Int b
              ∧ a ∈ batch_years iso_date
                      [Str "2020-03-01"; Str "not-a-date"; Str "2021-01-05"]
              ∧ b ∈ batch_years iso_date
                      [Str "2020-03-01"; Str "not-a-date"; Str "2021-01-05"]
              ∧ ∀ y, y ∈ batch_years iso_date
                           [Str "2020-03-01"; Str "not-a-date";
                            Str "2021-01-05"] →
                     (a ≤ y ≤ b)%Z).
Proof.
  apply (handle_dates_prints_the_range_of_the_dates iso_date [sample] [] 0 sample).
  - reflexivity.
  - reflexivity.
Defined.

(** ** The steps that fail *)

(** X19: where the first two cleaning steps fail.  [handle_dates] on a
    table without [publish_time] raises [KeyError] for that name and
    leaves the table as it was.  [handle_missing_values] raises
    [KeyError] for the first of [title], [abstract], [journal] that is
    missing, after its start message, and the columns filled before the
    failing read stay filled in the caller's table: none when [title] is
    missing, the title when [abstract] is, the title and the abstract
    when [journal] is.  No table is created. *)
Theorem cleaning_steps_fail_partway
    (parse_date : value → option (Z * Z * Z)) h o r f :
  h !! r = Some f →
  (get_column "publish_time" f = None →
   handle_dates parse_date r (mkState h o)
   = (Raise (KeyError "publish_time"),
      mkState h (o ++ [Msg "Processing date columns..."])))
  ∧ (get_column "title" f = None →
     handle_missing_values r (mkState h o)
     = (Raise (KeyError "title"),
        mkState h (o ++ [Msg "Handling missing values..."])))
  ∧ (∀ t, get_column "title" f = Some t →
          get_column "abstract" f = None →
          handle_missing_values r (mkState h o)
          = (Raise (KeyError "abstract"),
             mkState
               (<[r := set_column "title" (fillna t (Str "Unknown Title")) f]> h)
               (o ++ [Msg "Handling missing values..."])))
  ∧ (∀ t a, get_column "title" f = Some t →
            get_column "abstract" f = Some a →
            get_column "journal" f = None →
            handle_missing_values r (mkState h o)
            = (Raise (KeyError "journal"),
               mkState
                 (<[r := set_column "abstract" (fillna a (Str ""))
                           (set_column "title"
                              (fillna t (Str "Unknown Title")) f)]> h)
                 (o ++ [Msg "Handling missing values..."]))).
Proof.
  intros Hf. pose proof (lookup_lt _ _ _ Hf) as Hr.
  split; [|split; [|split]].
  - intros Hs. unfold handle_dates. rewrite bind_print.
    by rewrite (bind_raise _ _ _ _ _ (getitem_miss _ _ _ _ _ Hf Hs)).
  - intros Ht. unfold handle_missing_values. rewrite bind_print.
    by rewrite (bind_raise _ _ _ _ _ (getitem_miss _ _ _ _ _ Hf Ht)).
  - intros t Ht Ha.
    rewrite <- (list_insert_id h r f Hf) at 1.
    unfold handle_missing_values. do 3 step_at Hr. by miss_at Hr.
  - intros t a Ht Ha Hj.
    rewrite <- (list_insert_id h r f Hf) at 1.
    unfold handle_missing_values. do 5 step_at Hr. by miss_at Hr.
Qed.

Lemma cleaning_steps_fail_partway_witness :
  (get_column "publish_time" covid19 = None →
   handle_dates iso_date 0 (mkState [covid19] [])
   = (Raise (KeyError "publish_time"),
      mkState [covid19] ([] ++ [Msg "Processing date columns..."])))
  ∧ (get_column "title" covid19 = None →
     handle_missing_values 0 (mkState [covid19] [])
     = (Raise (KeyError "title"),
        mkState [covid19] ([] ++ [Msg "Handling missing values..."])))
  ∧ (∀ t, get_column "title" covid19 = Some t →
          get_column "abstract" covid19 = None →
          handle_missing_values 0 (mkState [covid19] [])
          = (Raise (KeyError "abstract"),
             mkState
               (<[0 := set_column "title" (fillna t (Str "Unknown Title"))
                         covid19]> [covid19])
               ([] ++ [Msg "Handling missing values..."])))
  ∧ (∀ t a, get_column "title" covid19 = Some t →
            get_column "abstract" covid19 = Some a →
            get_column "journal" covid19 = None →
            handle_missing_values 0 (mkState [covid19] [])
            = (Raise (KeyError "journal"),
               mkState
                 (<[0 := set_column "abstract" (fillna a (Str ""))
                           (set_column "title"
                              (fillna t (Str "Unknown Title")) covid19)]>
                    [covid19])
                 ([] ++ [Msg "Handling missing values..."]))).
Proof.
  apply (cleaning_steps_fail_partway iso_date [covid19] [] 0 covid19).
  reflexivity.
Defined.

(** X20: where the other two analyses fail for what a table lacks or
    holds.  [analyze_publication_trends] reads [publication_year],
    [journal], [abstract_word_count] and [has_abstract], in this order.
    It raises [KeyError] for the first that is missing, provided the
    columns before it hold what it compares with numbers: numbers,
    booleans or missing cells in [publication_year], which it compares
    with 2019, and in [abstract_word_count], which it compares with 0.
    A text or a date in one of these two columns raises [TypeError]
    instead, before any later column is read.  [analyze_sources] raises
    [KeyError] for [source_x].  Each has printed its start message by
    then, and no table is modified. *)
Theorem analyses_raise_for_the_first_missing_column h o r f :
  h !! r = Some f →
  let σ' := mkState h (o ++ [Msg "Analyzing publication trends..."]) in
  (get_column "publication_year" f = None →
   analyze_publication_trends r (mkState h o)
   = (Raise (KeyError "publication_year"), σ'))
  ∧ (∀ y v, get_column "publication_year" f = Some y →
            v ∈ y → ¬ numeric v →
            analyze_publication_trends r (mkState h o) = (Raise TypeError, σ'))
  ∧ (∀ y, get_column "publication_year" f = Some y → Forall numeric y →
          (get_column "journal" f = None →
           analyze_publication_trends r (mkState h o)
           = (Raise (KeyError "journal"), σ'))
          ∧ (has_column "journal" f →
             get_column "abstract_word_count" f = None →
             analyze_publication_trends r (mkState h o)
             = (Raise (KeyError "abstract_word_count"), σ'))
          ∧ (∀ w v, has_column "journal" f →
                    get_column "abstract_word_count" f = Some w →
                    v ∈ w → ¬ numeric v →
                    analyze_publication_trends r (mkState h o)
                    = (Raise TypeError, σ'))
          ∧ (∀ w, has_column "journal" f →
                  get_column "abstract_word_count" f = Some w →
                  Forall numeric w →
                  get_column "has_abstract" f = None →
                  analyze_publication_trends r (mkState h o)
                  = (Raise (KeyError "has_abstract"), σ')))
  ∧ (get_column "source_x" f = None →
     analyze_sources r (mkState h o)
     = (Raise (KeyError "source_x"),
        mkState h (o ++ [Msg "Analyzing paper sources..."]))).
Proof.
  intros Hr σ'. split; [|split; [|split]].
  - by apply analyze_publication_trends_miss_year.
  - intros y v Hy Hv Hk.
    by apply (analyze_publication_trends_text_year h o r f Hr y v).
  - intros y Hy Hnum. split; [|split; [|split]].
    + by apply (analyze_publication_trends_miss_journal h o r f Hr y).
    + intros [j Hj] Hw.
      by apply (analyze_publication_trends_miss_count h o r f Hr y Hy Hnum j).
    + intros w v [j Hj] Hw Hv Hk.
      by apply (analyze_publication_trends_text_count h o r f Hr y Hy Hnum j w v).
    + intros w [j Hj] Hw Hnw Hb.
      by apply (analyze_publication_trends_miss_flag h o r f Hr y Hy Hnum j w).
  - intros Hx. unfold analyze_sources. rewrite bind_print.
    by rewrite (bind_raise _ _ _ _ _ (getitem_miss _ _ _ _ _ Hr Hx)).
Qed.

Lemma analyses_raise_for_the_first_missing_column_witness :
  analyze_publication_trends 0 (mkState [journals5] [])
  = (Raise (KeyError "publication_year"),
     mkState [journals5] ([] ++ [Msg "Analyzing publication trends..."]))
  ∧ analyze_publication_trends 0 (mkState [text_years] [])
    = (Raise TypeError,
       mkState [text_years] ([] ++ [Msg "Analyzing publication trends..."]))
  ∧ analyze_publication_trends 0 (mkState [text_counts] [])
    = (Raise TypeError,
       mkState [text_counts] ([] ++ [Msg "Analyzing publication trends..."]))
  ∧ analyze_sources 0 (mkState [journals5] [])
    = (Raise (KeyError "source_x"),
       mkState [journals5] ([] ++ [Msg "Analyzing paper sources..."])).
Proof.
  destruct (analyses_raise_for_the_first_missing_column
              [journals5] [] 0 journals5 eq_refl) as (H1 & _ & _ & H4).
  destruct (analyses_raise_for_the_first_missing_column
              [text_years] [] 0 text_years eq_refl) as (_ & H2 & _).
  destruct (analyses_raise_for_the_first_missing_column
              [text_counts] [] 0 text_counts eq_refl) as (_ & _ & H3 & _).
  split; [by apply H1|]. split; [|split; [|by apply H4]].
  - apply (H2 [Str "2020"; Str "2021"] (Str "2020")); [reflexivity|left|done].
  - destruct (H3 [Int 2020; Int 2021]) as (_ & _ & H & _);
      [reflexivity|repeat constructor|].
    apply (H [Str "two"; Int 0] (Str "two"));
      [by eexists|reflexivity|left|done].
Defined.

(** ** The dashboard's cleaning step on its own result *)

Lemma app_cleaned_fixpoint parse_date s t a j f :
  let g := app_cleaned parse_date s t a j f in
  app_cleaned parse_date (to_datetime parse_date s)
    (fillna t (Str "Unknown Title")) (fillna a (Str ""))
    (fillna j (Str "Unknown Journal")) g
  = g.
Proof.
  intros g. unfold app_cleaned at 1.
  rewrite to_datetime_idemp, years_to_datetime, !fillna_fillna by done.
  rewrite (set_id "publish_time") by (unfold g, app_cleaned; cols).
  rewrite (set_id "publication_year") by (unfold g, app_cleaned; cols).
  rewrite (set_id "title") by (unfold g, app_cleaned; cols).
  rewrite (set_id "abstract") by (unfold g, app_cleaned; cols).
  rewrite (set_id "journal") by (unfold g, app_cleaned; cols).
  rewrite (set_id "abstract_word_count") by (unfold g, app_cleaned; cols).
  by rewrite (set_id "has_abstract") by (unfold g, app_cleaned; cols).
Qed.

Lemma app_clean_data_cases parse_date h o r f :
  h !! r = Some f →
  (∃ s t a j,
     get_column "publish_time" f = Some s ∧ get_column "title" f = Some t
     ∧ get_column "abstract" f = Some a ∧ get_column "journal" f = Some j
     ∧ app_clean_data parse_date r (mkState h o)
       = (Ok (length h), mkState (h ++ [app_cleaned parse_date s t a j f]) o))
  ∨ (∃ c g, app_clean_data parse_date r (mkState h o)
            = (Raise (KeyError c), mkState (h ++ [g]) o)).
Proof.
  intros Hr. destruct (first_absent app_read_order f) as [c|] eqn:Hc.
  - right. exists c. by apply (app_clean_data_miss parse_date h o r f c).
  - left. simpl in Hc.
    destruct (get_column "publish_time" f) as [s|] eqn:Hs; [|done].
    destruct (get_column "title" f) as [t|] eqn:Ht; [|done].
    destruct (get_column "abstract" f) as [a|] eqn:Ha; [|done].
    destruct (get_column "journal" f) as [j|] eqn:Hj; [|done].
    exists s, t, a, j. repeat split; try done.
    by apply (app_clean_data_ok parse_date h o r f s t a j).
Qed.

(** X21: the dashboard's [clean_data] applied to a table it has returned
    returns a table equal to it (same index, same columns in the same
    order, same cells), as another object, and leaves the first result
    as it is. *)
Theorem app_clean_data_idempotent
    (parse_date : value → option (Z * Z * Z)) h o r f r1 σ1 g :
  h !! r = Some f →
  app_clean_data parse_date r (mkState h o) = (Ok r1, σ1) →
  heap σ1 !! r1 = Some g →
  ∃ r2 σ2,
    app_clean_data parse_date r1 σ1 = (Ok r2, σ2)
    ∧ r2 ≠ r1
    ∧ heap σ2 !! r2 = Some g
    ∧ heap σ2 !! r1 = Some g.
Proof.
  intros Hr Hrun Hg.
  destruct (app_clean_data_cases parse_date h o r f Hr)
    as [(s & t & a & j & Hs & Ht & Ha & Hj & Hok)|(c & g' & Hraise)]; cycle 1.
  { rewrite Hraise in Hrun. discriminate Hrun. }
  rewrite Hok in Hrun. injection Hrun as <- <-. simpl in Hg.
  rewrite last_lookup in Hg. injection Hg as <-.
  set (g := app_cleaned parse_date s t a j f).
  assert ((h ++ [g]) !! length h = Some g) as Hg by apply last_lookup.
  pose proof (app_clean_data_ok parse_date (h ++ [g]) o (length h) g
                (to_datetime parse_date s)
                (fillna t (Str "Unknown Title")) (fillna a (Str ""))
                (fillna j (Str "Unknown Journal")) Hg) as Hrun2.
  pose proof (app_cleaned_fixpoint parse_date s t a j f) as Hfix.
  simpl in Hfix. fold g in Hfix. rewrite Hfix in Hrun2.
  eexists _, _. split.
  - apply Hrun2; unfold g, app_cleaned; cols.
  - split; [rewrite length_app; simpl; lia|]. simpl. split.
    + apply last_lookup.
    + by apply lookup_app_l_Some.
Qed.

Lemma app_clean_data_idempotent_witness :
  ∃ r2 σ2,
    app_clean_data iso_date 1
      (run (app_clean_data iso_date 0) (mkState [sample] [])).2 = (Ok r2, σ2)
    ∧ r2 ≠ 1
    ∧ heap σ2 !! r2
      = Some (app_cleaned iso_date
                [Str "2020-03-01"; Str "not-a-date"; Str "2021-01-05"]
                [Str "Covid Study"; NaN; NaN]
                [Str "two  words "; NaN; Str "   "]
                [NaN; Str "J"; Str "J"] sample)
    ∧ heap σ2 !! 1
      = Some (app_cleaned iso_date
                [Str "2020-03-01"; Str "not-a-date"; Str "2021-01-05"]
                [Str "Covid Study"; NaN; NaN]
                [Str "two  words "; NaN; Str "   "]
                [NaN; Str "J"; Str "J"] sample).
Proof.
  apply (app_clean_data_idempotent iso_date [sample] [] 0 sample).
  - reflexivity.
  - vm_compute. reflexivity.
  - vm_compute. reflexivity.
Defined.
